(** * go-logger: a shallow embedding of [logger/logger.go]

    The package is a process-wide leveled logger.  Its state (nine
    [log.Logger] bindings, the enabled-level map, the open log file and the
    caller-tag flag) lives in package variables; the embedding threads that
    state explicitly, together with a model of the console streams and the
    file system, through a small state monad in which [os.Exit] is an
    outcome of its own.

    Go [string] and [[]byte] values are both byte sequences and are both
    embedded as Rocq [string].  The mutex of the package serialises
    concurrent callers; the embedding is sequential, one call at a time. *)

From Stdlib Require Import ZArith Ascii String List Lia DecimalString.
From stdpp Require Import base option gmap strings list.

Local Open Scope Z_scope.
Local Open Scope nat_scope.

(** String concatenation unfolds on a constructor, as list concatenation does. *)
#[global] Arguments String.append !_ _ : simpl nomatch.

(** * The embedding *)

(** ** Text *)

Module Text.

(** The bytes written as [\n] and [\033] in the Go source. *)
Definition nl : ascii := ascii_of_nat 10.
Definition esc : ascii := ascii_of_nat 27.

Definition NL : string := String nl "".
Definition ESC : string := String esc "".

(** [has c s]: the byte [c] occurs in [s]. *)
Fixpoint has (c : ascii) (s : string) : bool :=
  match s with
  | EmptyString => false
  | String x r => Ascii.eqb x c || has c r
  end.

(** [starts p s]: [s] begins with [p] ([strings.HasPrefix]). *)
Fixpoint starts (p s : string) : bool :=
  match p, s with
  | EmptyString, _ => true
  | String x p', String y s' => Ascii.eqb x y && starts p' s'
  | String _ _, EmptyString => false
  end.

(** [within p s]: [p] occurs in [s] ([strings.Contains]). *)
Fixpoint within (p s : string) : bool :=
  starts p s ||
  match s with
  | EmptyString => false
  | String _ r => within p r
  end.

(** [strings.Join]. *)
Fixpoint Join (parts : list string) (sep : string) : string :=
  match parts with
  | [] => ""
  | [p] => p
  | p :: rest => p +:+ sep +:+ Join rest sep
  end.

(** [strings.Split] on a one-byte separator: the pieces between the
    separators, always at least one piece. *)
Fixpoint Split (s : string) (sep : ascii) : list string :=
  match s with
  | EmptyString => [""%string]
  | String c r =>
      if Ascii.eqb c sep then ""%string :: Split r sep
      else match Split r sep with
           | hd :: tl => String c hd :: tl
           | [] => [String c ""]
           end
  end.

(** The ASCII white space of [unicode.IsSpace]: tab, line feed, vertical
    tab, form feed, carriage return and space. *)
Definition isSpace (c : ascii) : bool :=
  let n := nat_of_ascii c in
  ((9 <=? n) && (n <=? 13)) || (n =? 32).

Fixpoint TrimLeft (s : string) : string :=
  match s with
  | EmptyString => ""
  | String c r => if isSpace c then TrimLeft r else s
  end.

Fixpoint TrimRight (s : string) : string :=
  match s with
  | EmptyString => ""
  | String c r =>
      match TrimRight r with
      | EmptyString => if isSpace c then "" else String c ""
      | r' => String c r'
      end
  end.

(** [strings.TrimSpace], on ASCII text. *)
Definition TrimSpace (s : string) : string := TrimRight (TrimLeft s).

Definition upper (c : ascii) : ascii :=
  let n := nat_of_ascii c in
  if (97 <=? n) && (n <=? 122) then ascii_of_nat (n - 32) else c.

(** [strings.ToUpper], on ASCII text. *)
Fixpoint ToUpper (s : string) : string :=
  match s with
  | EmptyString => ""
  | String c r => String (upper c) (ToUpper r)
  end.

(** [%d] of an [int]. *)
Definition itoa (n : Z) : string := NilZero.string_of_int (Z.to_int n).

End Text.

Import Text.

(** ** Severities and configuration *)

(** [type Level int] with its [iota] constants, in declaration order. *)
Inductive Level : Type :=
| DebugLevel | InfoLevel | WarnLevel | ErrorLevel | FatalLevel
| NoticeLevel | CritLevel | AlertLevel | EmergLevel.

Definition level_iota (l : Level) : nat :=
  match l with
  | DebugLevel => 0 | InfoLevel => 1 | WarnLevel => 2 | ErrorLevel => 3
  | FatalLevel => 4 | NoticeLevel => 5 | CritLevel => 6 | AlertLevel => 7
  | EmergLevel => 8
  end.

Definition level_of_iota (n : nat) : Level :=
  match n with
  | 0 => DebugLevel | 1 => InfoLevel | 2 => WarnLevel | 3 => ErrorLevel
  | 4 => FatalLevel | 5 => NoticeLevel | 6 => CritLevel | 7 => AlertLevel
  | _ => EmergLevel
  end.

#[global] Instance Level_eq_dec : EqDecision Level.
Proof. solve_decision. Defined.

#[global] Instance Level_countable : Countable Level :=
  inj_countable' level_iota level_of_iota
    (fun l => match l with
              | DebugLevel | InfoLevel | WarnLevel | ErrorLevel | FatalLevel
              | NoticeLevel | CritLevel | AlertLevel | EmergLevel => eq_refl
              end).

(** [Config].  [Levels] is a slice: [None] is the nil slice, [Some []] an
    empty one. *)
Record Config : Type := {
  Levels : option (list Level);
  Colorize : bool;
  FilePath : string;
  IncludeLevelPrefix : bool;
  IncludeCallerTag : bool
}.

Definition AllLevels : list Level :=
  [DebugLevel; InfoLevel; NoticeLevel; WarnLevel; ErrorLevel;
   CritLevel; AlertLevel; EmergLevel; FatalLevel].

(** ** The enabled-level map *)

Definition levelsFromSlice (levels : list Level) : gmap Level bool :=
  foldl (fun m level => <[level := true]> m) ∅ levels.

Definition allLevelsEnabled : gmap Level bool :=
  <[FatalLevel := true]> (<[EmergLevel := true]> (<[AlertLevel := true]>
  (<[CritLevel := true]> (<[ErrorLevel := true]> (<[WarnLevel := true]>
  (<[NoticeLevel := true]> (<[InfoLevel := true]>
  (<[DebugLevel := true]> ∅)))))))).

(** One turn of the loop of [parseLevels]: the [switch] on the trimmed,
    upper-cased token. *)
Definition parseLevels_case (m : gmap Level bool) (p : string) : gmap Level bool :=
  let t := ToUpper (TrimSpace p) in
  if String.eqb t "DEBUG" then <[DebugLevel := true]> m
  else if String.eqb t "INFO" then <[InfoLevel := true]> m
  else if String.eqb t "NOTICE" then <[NoticeLevel := true]> m
  else if String.eqb t "WARNING" then <[WarnLevel := true]> m
  else if String.eqb t "ERROR" then <[ErrorLevel := true]> m
  else if String.eqb t "CRIT" || String.eqb t "CRITICAL" then <[CritLevel := true]> m
  else if String.eqb t "ALERT" then <[AlertLevel := true]> m
  else if String.eqb t "EMERG" || String.eqb t "EMERGENCY" then <[EmergLevel := true]> m
  else if String.eqb t "FATAL" then <[FatalLevel := true]> m
  else m.

Definition parseLevels (s : string) : gmap Level bool :=
  let m : gmap Level bool := ∅ in
  let s := TrimSpace s in
  if String.eqb s "" then
    <[FatalLevel := true]> (<[EmergLevel := true]> (<[AlertLevel := true]>
    (<[CritLevel := true]> (<[ErrorLevel := true]> (<[WarnLevel := true]>
    (<[NoticeLevel := true]> (<[InfoLevel := true]>
    (<[DebugLevel := true]> m))))))))
  else foldl parseLevels_case m (Split s ",").

(** [resolveLevels] reads [LOGGER_LEVELS] through [os.Getenv], which gives
    the empty string for an unset variable. *)
Definition resolveLevels (getenv : string -> string) (levels : option (list Level))
  : gmap Level bool :=
  match levels with
  | Some levels => levelsFromSlice levels
  | None =>
      let env := getenv "LOGGER_LEVELS" in
      if negb (String.eqb env "") then parseLevels env
      else allLevelsEnabled
  end.

(** [enabledLevels[level]]: a missing key reads as [false]. *)
Definition level_on (m : gmap Level bool) (level : Level) : bool :=
  default false (m !! level).

(** ** Wall-clock time and its rendering *)

(** What [time.Now()] gives, as the calendar fields the layouts read. *)
Record Time : Type := {
  year : nat; month : nat; day : nat;
  hour : nat; minute : nat; second : nat
}.

Definition digit (n : nat) : ascii := ascii_of_nat (48 + n mod 10).

(** The loop of [itoa] in package [log]: the decimal digits of [i], zero
    padded to at least [wid] digits, assembled from the right in a buffer of
    twenty bytes. *)
Fixpoint itoa_loop (room i wid : nat) (acc : string) : string :=
  match room with
  | 0 => String (digit i) acc
  | S room' =>
      if (10 <=? i) || (1 <? wid)
      then itoa_loop room' (i / 10) (wid - 1) (String (digit (i mod 10)) acc)
      else String (digit i) acc
  end.

Definition zpad (i wid : nat) : string := itoa_loop 19 i wid "".

(** The layout ["2006/01/02 15:04:05 "] of [timestampWriter], which is also
    what a [log.Logger] with [log.LstdFlags] puts in its header. *)
Definition stamp (t : Time) : string :=
  zpad (year t) 4 +:+ "/" +:+ zpad (month t) 2 +:+ "/" +:+ zpad (day t) 2 +:+ " " +:+
  zpad (hour t) 2 +:+ ":" +:+ zpad (minute t) 2 +:+ ":" +:+ zpad (second t) 2 +:+ " ".

(** A calendar time whose year has at most four digits. *)
Definition civil (t : Time) : Prop :=
  year t < 100 * 100 /\ 1 <= month t <= 12 /\ 1 <= day t <= 31 /\
  hour t < 24 /\ minute t < 60 /\ second t < 60.

(** Shapes of text: a decimal digit, or one given byte. *)
Inductive shape : Type := Dg | Ch (c : ascii).

Definition is_digit (c : ascii) : bool :=
  let n := nat_of_ascii c in (48 <=? n) && (n <=? 57).

Fixpoint shaped (p : list shape) (s : string) : bool :=
  match p, s with
  | [], _ => true
  | Dg :: p', String c s' => is_digit c && shaped p' s'
  | Ch x :: p', String c s' => Ascii.eqb x c && shaped p' s'
  | _ :: _, EmptyString => false
  end.

(** [YYYY/MM/DD HH:MM:SS ], the regular expression of
    [TestFileLogging_Timestamps]. *)
Definition date_shape : list shape :=
  [Dg; Dg; Dg; Dg; Ch "/"; Dg; Dg; Ch "/"; Dg; Dg; Ch " ";
   Dg; Dg; Ch ":"; Dg; Dg; Ch ":"; Dg; Dg; Ch " "]%char.

Definition date_shaped (s : string) : bool := shaped date_shape s.

(** ** The host: environment, clock, file system answers, call stack *)

Inductive error : Type :=
| ErrClosed                 (* os.ErrClosed *)
| ErrShortWrite             (* io.ErrShortWrite *)
| OSError (msg : string).   (* an error of the operating system *)

(** [Error()] of an error value, as [%v] prints it. *)
Definition error_text (e : error) : string :=
  match e with
  | ErrClosed => "file already closed"
  | ErrShortWrite => "short write"
  | OSError msg => msg
  end.

(** What the process reads from outside and cannot change: [os.Getenv], the
    clock, whether [os.OpenFile] of a path and the close of a descriptor
    fail, and [runtime.Caller] with [runtime.FuncForPC] at a depth counted
    from [getCallerInfo]. *)
Record Host : Type := {
  getenv : string -> string;
  now : Time;
  open_failure : string -> option error;
  close_failure : nat -> option error;
  caller_at : nat -> option (option string * Z)
}.

(** The console streams behind [outStdout] and [outStderr], as buffers that
    take every write (so the tests of the package set them up), the table
    of file descriptors (path, still open) and the contents of the files. *)
Record World : Type := {
  stdout : string;
  stderr : string;
  fds : list (string * bool);
  files : gmap string string
}.

Definition put_stdout (data : string) (w : World) : World :=
  {| stdout := stdout w +:+ data; stderr := stderr w; fds := fds w; files := files w |}.

Definition put_stderr (data : string) (w : World) : World :=
  {| stdout := stdout w; stderr := stderr w +:+ data; fds := fds w; files := files w |}.

Definition contents (w : World) (path : string) : string :=
  default ""%string (files w !! path).

(** [Write] of an [os.File] opened with [O_APPEND]. *)
Definition file_write (fd : nat) (data : string) (w : World) : World * (nat * option error) :=
  match fds w !! fd with
  | Some (path, true) =>
      ({| stdout := stdout w; stderr := stderr w; fds := fds w;
          files := <[path := contents w path +:+ data]> (files w) |},
       (String.length data, None))
  | _ => (w, (0, Some ErrClosed))
  end.

(** [os.OpenFile(path, O_CREATE|O_WRONLY|O_APPEND, 0644)]. *)
Definition file_open (h : Host) (path : string) (w : World) : World * (nat + error) :=
  match open_failure h path with
  | Some e => (w, inr e)
  | None =>
      ({| stdout := stdout w; stderr := stderr w;
          fds := fds w ++ [(path, true)];
          files := <[path := contents w path]> (files w) |},
       inl (length (fds w)))
  end.

(** [Close] of an [os.File]. *)
Definition file_close (h : Host) (fd : nat) (w : World) : World * option error :=
  match fds w !! fd with
  | Some (path, true) =>
      ({| stdout := stdout w; stderr := stderr w;
          fds := <[fd := (path, false)]> (fds w); files := files w |},
       close_failure h fd)
  | _ => (w, Some ErrClosed)
  end.

(** ** Values of type [any] and package [fmt] *)

(** The dynamic values the logging calls are given: strings, integers,
    booleans and [nil]. *)
Inductive any : Type :=
| AString (s : string)
| AInt (n : Z)
| ABool (b : bool)
| ANil.

(** The type assertion [v.(string)]. *)
Definition as_string (v : any) : option string :=
  match v with AString s => Some s | _ => None end.

(** The verb [%v]. *)
Definition fmt_v (v : any) : string :=
  match v with
  | AString s => s
  | AInt n => itoa n
  | ABool true => "true"
  | ABool false => "false"
  | ANil => "<nil>"
  end.

Fixpoint Sprint_rest (prev_string : bool) (v : list any) : string :=
  match v with
  | [] => ""
  | a :: r =>
      (if negb prev_string && negb (bool_decide (is_Some (as_string a))) then " " else "")
      +:+ fmt_v a +:+ Sprint_rest (bool_decide (is_Some (as_string a))) r
  end.

(** [fmt.Sprint]: the operands in their default format, with a space
    between two operands when neither is a string. *)
Definition Sprint (v : list any) : string :=
  match v with
  | [] => ""
  | a :: r => fmt_v a +:+ Sprint_rest (bool_decide (is_Some (as_string a))) r
  end.

(** [fmt.Sprintf] with a format of the caller is the library's
    interpolation; the embedding is parametric in it. *)
Class Printf : Type := { Sprintf : string -> list any -> string }.

(** ** Writers *)

(** The [io.Writer] values the package builds. *)
Inductive Writer : Type :=
| Discard                                          (* io.Discard *)
| Stdout                                           (* outStdout *)
| Stderr                                           (* outStderr *)
| FileOf (fd : nat)                                (* an *os.File *)
| MultiWriter (w1 w2 : Writer)                     (* io.MultiWriter(w1, w2) *)
| syslogPrefixWriter (w : Writer) (prefix : string)
| plainFileWriter (w : Writer) (level : string)
| timestampWriter (w : Writer).

(** The loop of [syslogPrefixWriter.Write]: every byte is copied, and the
    prefix follows a line feed that is not the last byte. *)
Fixpoint syslog_lines (prefix data : string) : string :=
  match data with
  | EmptyString => ""
  | String b rest =>
      String b
        (if Ascii.eqb b nl && negb (String.eqb rest "")
         then prefix +:+ syslog_lines prefix rest
         else syslog_lines prefix rest)
  end.

(** The loop of [plainFileWriter.Write]. *)
Fixpoint stripANSI (inEscape : bool) (s : string) : string :=
  match s with
  | EmptyString => ""
  | String c rest =>
      if Ascii.eqb c esc &&
         match rest with String d _ => Ascii.eqb d "[" | EmptyString => false end
      then stripANSI true rest
      else if inEscape
           then stripANSI (negb (Ascii.eqb c "m")) rest
           else String c (stripANSI false rest)
  end.

(** [Write]: the world after the call, the count and the error returned. *)
Fixpoint Write (h : Host) (wr : Writer) (data : string) (w : World)
  : World * (nat * option error) :=
  match wr with
  | Discard => (w, (String.length data, None))
  | Stdout => (put_stdout data w, (String.length data, None))
  | Stderr => (put_stderr data w, (String.length data, None))
  | FileOf fd => file_write fd data w
  | MultiWriter w1 w2 =>
      match Write h w1 data w with
      | (w', (n, Some e)) => (w', (n, Some e))
      | (w', (n, None)) =>
          if negb (n =? String.length data) then (w', (n, Some ErrShortWrite))
          else
            match Write h w2 data w' with
            | (w'', (n2, Some e)) => (w'', (n2, Some e))
            | (w'', (n2, None)) =>
                if negb (n2 =? String.length data) then (w'', (n2, Some ErrShortWrite))
                else (w'', (String.length data, None))
            end
      end
  | syslogPrefixWriter w0 prefix =>
      if String.eqb prefix "" then Write h w0 data w
      else if String.length data =? 0 then (w, (0, None))
      else
        match Write h w0 (prefix +:+ syslog_lines prefix data) w with
        | (w', (_, Some e)) => (w', (0, Some e))
        | (w', (_, None)) => (w', (String.length data, None))
        end
  | plainFileWriter w0 _ => Write h w0 (stripANSI false data) w
  | timestampWriter w0 => Write h w0 (stamp (now h) +:+ data) w
  end.

(** ** Package [log] *)

Definition Ldate : Z := 1.
Definition Ltime : Z := 2.
Definition LstdFlags : Z := Z.lor Ldate Ltime.

(** A [*log.Logger]: its writer, prefix and flags. *)
Record Logger : Type := {
  l_out : Writer;
  l_prefix : string;
  l_flag : Z
}.

(** [log.New]. *)
Definition log_New (out : Writer) (prefix : string) (flag : Z) : Logger :=
  {| l_out := out; l_prefix := prefix; l_flag := flag |}.

(** The header of a line: the prefix, then date and time when the flags ask
    for them. *)
Definition formatHeader (t : Time) (prefix : string) (flag : Z) : string :=
  prefix +:+
  (if negb (Z.land flag Ldate =? 0)%Z
   then zpad (year t) 4 +:+ "/" +:+ zpad (month t) 2 +:+ "/" +:+ zpad (day t) 2 +:+ " "
   else "") +:+
  (if negb (Z.land flag Ltime =? 0)%Z
   then zpad (hour t) 2 +:+ ":" +:+ zpad (minute t) 2 +:+ ":" +:+ zpad (second t) 2 +:+ " "
   else "").

(** [Println] of one string: header, the string and a line feed, handed to
    the writer in a single [Write] whose result is dropped. *)
Definition Println (h : Host) (l : Logger) (msg : string) (w : World) : World :=
  fst (Write h (l_out l) (formatHeader (now h) (l_prefix l) (l_flag l) +:+ msg +:+ NL) w).

(** ** Package state and the monad of the operations *)

(** The package variables. *)
Record Globals : Type := {
  Debug : Logger; Info : Logger; Notice : Logger;
  Warning : Logger; Error : Logger; Crit : Logger;
  Alert : Logger; Emerg : Logger; Fatal : Logger;
  enabledLevels : gmap Level bool;
  logFile : option nat;
  includeCallerTag : bool
}.

(** The variables as the package initialises them, before any [Init]. *)
Definition initial_globals : Globals :=
  {| Debug := log_New Discard "" 0; Info := log_New Discard "" 0;
     Notice := log_New Discard "" 0; Warning := log_New Discard "" 0;
     Error := log_New Discard "" 0; Crit := log_New Discard "" 0;
     Alert := log_New Discard "" 0; Emerg := log_New Discard "" 0;
     Fatal := log_New Discard "" 0;
     enabledLevels := allLevelsEnabled;
     logFile := None;
     includeCallerTag := false |}.

Record Proc : Type := { vars : Globals; world : World }.

(** How a call ends: it returns, or the process has exited. *)
Inductive outcome (A : Type) : Type :=
| Returned (a : A)
| Exited (code : Z).
Arguments Returned {A} a.
Arguments Exited {A} code.

Definition M (A : Type) : Type := Host -> Proc -> outcome A * Proc.

#[global] Instance M_ret : MRet M := fun A a _ s => (Returned a, s).

#[global] Instance M_bind : MBind M := fun A B f m h s =>
  match m h s with
  | (Returned a, s') => f a h s'
  | (Exited code, s') => (Exited code, s')
  end.

(** Reading the package variables, and [os.Exit]. *)
Definition read {A : Type} (f : Globals -> A) : M A :=
  fun _ s => (Returned (f (vars s)), s).

Definition os_Exit (code : Z) : M unit := fun _ s => (Exited code, s).

Definition isLevelEnabled (level : Level) : M bool :=
  read (fun g => level_on (enabledLevels g) level).

(** [X.Println(msg)] on the package variable [X]. *)
Definition println (X : Globals -> Logger) (msg : string) : M unit :=
  fun h s => (Returned tt, {| vars := vars s; world := Println h (X (vars s)) msg (world s) |}).

(** ** Line decorators *)

Definition prefixForLog (prefix : string) : string :=
  if String.eqb prefix "" then "" else prefix +:+ " ".

(** The map [colors] of [newColorLogger]; a missing key reads as the empty
    string. *)
Definition colors (level : string) : string :=
  if String.eqb level "DEBUG" then ESC +:+ "[36m"
  else if String.eqb level "INFO" then ESC +:+ "[32m"
  else if String.eqb level "NOTICE" then ESC +:+ "[34m"
  else if String.eqb level "WARNING" then ESC +:+ "[33m"
  else if String.eqb level "ERROR" then ESC +:+ "[31m"
  else if String.eqb level "CRIT" then ESC +:+ "[91m"
  else if String.eqb level "ALERT" then ESC +:+ "[95m"
  else if String.eqb level "EMERG" then ESC +:+ "[97m"
  else if String.eqb level "FATAL" then ESC +:+ "[35m"
  else "".

Definition reset : string := ESC +:+ "[0m".

(** [fileWriter] is an interface value: [None] is nil. *)
Definition newColorLogger (out : Writer) (level : string) (showLevel : bool)
    (fileWriter : option Writer) : Logger :=
  let prefix := if showLevel then colors level +:+ "[" +:+ level +:+ "]" +:+ reset else "" in
  match fileWriter with
  | Some fw => log_New (MultiWriter out (plainFileWriter fw level)) (prefixForLog prefix) LstdFlags
  | None => log_New out (prefixForLog prefix) LstdFlags
  end.

Definition shouldUseSyslogPrefix (getenv : string -> string) : bool :=
  negb (String.eqb (getenv "JOURNAL_STREAM") "").

Definition syslogPrefixForLevel (level : string) : string :=
  if String.eqb level "EMERG" then "<0>"
  else if String.eqb level "ALERT" then "<1>"
  else if String.eqb level "CRIT" then "<2>"
  else if String.eqb level "DEBUG" then "<7>"
  else if String.eqb level "INFO" then "<6>"
  else if String.eqb level "NOTICE" then "<5>"
  else if String.eqb level "WARNING" then "<4>"
  else if String.eqb level "ERROR" then "<3>"
  else if String.eqb level "FATAL" then "<2>"
  else "".

Definition newPlainLogger (getenv : string -> string) (out : Writer) (level : string)
    (showLevel : bool) (fileWriter : option Writer) : Logger :=
  let prefix := if showLevel then "[" +:+ level +:+ "]" else "" in
  let outWriter :=
    if shouldUseSyslogPrefix getenv then
      let syslogPrefix := syslogPrefixForLevel level in
      if negb (String.eqb syslogPrefix "") then syslogPrefixWriter out syslogPrefix else out
    else out in
  match fileWriter with
  | Some fw => log_New (MultiWriter outWriter (timestampWriter fw)) (prefixForLog prefix) 0
  | None => log_New outWriter (prefixForLog prefix) 0
  end.

(** [strings.LastIndex(s, "/")]. *)
Fixpoint LastIndex_slash (s : string) : option nat :=
  match s with
  | EmptyString => None
  | String c r =>
      match LastIndex_slash r with
      | Some i => Some (S i)
      | None => if Ascii.eqb c "/" then Some 0 else None
      end
  end.

Definition getCallerInfo (h : Host) (depth : nat) : string :=
  match caller_at h depth with
  | None => "unknown"
  | Some (None, _) => "unknown"
  | Some (Some full, line) =>
      let full :=
        match LastIndex_slash full with
        | Some lastSlash =>
            if lastSlash + 1 <? String.length full
            then substring (lastSlash + 1) (String.length full - (lastSlash + 1)) full
            else full
        | None => full
        end in
      full +:+ ":" +:+ itoa line
  end.

Definition formatWithCaller (depth : nat) (msg : string) : M string :=
  fun h s =>
    if negb (includeCallerTag (vars s)) then (Returned msg, s)
    else
      let caller := getCallerInfo h (depth + 1) in
      (Returned ("[" +:+ caller +:+ "] " +:+ msg), s).

(** The loop of [encodeFields], two arguments at a time. *)
Fixpoint encodeFields_parts (keyvals : list any) : list string :=
  match keyvals with
  | k :: v :: rest =>
      match as_string k with
      | Some key => (key +:+ "=" +:+ fmt_v v) :: encodeFields_parts rest
      | None => encodeFields_parts rest
      end
  | _ => []
  end.

Definition encodeFields (keyvals : list any) : string :=
  if length keyvals =? 0 then ""
  else
    let parts := encodeFields_parts keyvals in
    if length parts =? 0 then ""
    else " " +:+ Join parts " ".

(** ** Initialisation and shutdown *)

Definition Init (config : Config) : M unit := fun h s =>
  let enabled := resolveLevels (getenv h) (Levels config) in
  let showLevel := IncludeLevelPrefix config in
  let tag := IncludeCallerTag config in
  let '(w, file, fileWriter) :=
    if negb (String.eqb (FilePath config) "") then
      match file_open h (FilePath config) (world s) with
      | (w', inr err) =>
          (fst (Write h Stderr
                  ("failed to open log file " +:+ FilePath config +:+ ": " +:+
                   error_text err +:+ NL) w'),
           logFile (vars s), None)
      | (w', inl fd) => (w', Some fd, Some (FileOf fd))
      end
    else (world s, logFile (vars s), None) in
  if Colorize config then
    (Returned tt,
     {| vars :=
          {| Debug := newColorLogger Stdout "DEBUG" showLevel fileWriter;
             Info := newColorLogger Stdout "INFO" showLevel fileWriter;
             Notice := newColorLogger Stdout "NOTICE" showLevel fileWriter;
             Warning := newColorLogger Stderr "WARNING" showLevel fileWriter;
             Error := newColorLogger Stderr "ERROR" showLevel fileWriter;
             Crit := newColorLogger Stderr "CRIT" showLevel fileWriter;
             Alert := newColorLogger Stderr "ALERT" showLevel fileWriter;
             Emerg := newColorLogger Stderr "EMERG" showLevel fileWriter;
             Fatal := newColorLogger Stderr "FATAL" showLevel fileWriter;
             enabledLevels := enabled; logFile := file; includeCallerTag := tag |};
        world := w |})
  else
    (Returned tt,
     {| vars :=
          {| Debug := newPlainLogger (getenv h) Stdout "DEBUG" showLevel fileWriter;
             Info := newPlainLogger (getenv h) Stdout "INFO" showLevel fileWriter;
             Notice := newPlainLogger (getenv h) Stdout "NOTICE" showLevel fileWriter;
             Warning := newPlainLogger (getenv h) Stderr "WARNING" showLevel fileWriter;
             Error := newPlainLogger (getenv h) Stderr "ERROR" showLevel fileWriter;
             Crit := newPlainLogger (getenv h) Stderr "CRIT" showLevel fileWriter;
             Alert := newPlainLogger (getenv h) Stderr "ALERT" showLevel fileWriter;
             Emerg := newPlainLogger (getenv h) Stderr "EMERG" showLevel fileWriter;
             Fatal := newPlainLogger (getenv h) Stderr "FATAL" showLevel fileWriter;
             enabledLevels := enabled; logFile := file; includeCallerTag := tag |};
        world := w |}).

Definition InitWithFile (config : Config) (filePath : string) : M unit :=
  Init {| Levels := Levels config; Colorize := Colorize config; FilePath := filePath;
          IncludeLevelPrefix := IncludeLevelPrefix config;
          IncludeCallerTag := IncludeCallerTag config |}.

Definition set_logFile (file : option nat) (g : Globals) : Globals :=
  {| Debug := Debug g; Info := Info g; Notice := Notice g; Warning := Warning g;
     Error := Error g; Crit := Crit g; Alert := Alert g; Emerg := Emerg g;
     Fatal := Fatal g; enabledLevels := enabledLevels g; logFile := file;
     includeCallerTag := includeCallerTag g |}.

(** [Close] returns an [error]: [None] is nil. *)
Definition Close : M (option error) := fun h s =>
  match logFile (vars s) with
  | Some fd =>
      let '(w, err) := file_close h fd (world s) in
      (Returned err, {| vars := set_logFile None (vars s); world := w |})
  | None => (Returned None, s)
  end.

(** ** The dispatch entry points *)

Section Dispatch.
Context `{Printf}.

(** Formatted style: [fmt.Sprintf(format, v...)]. *)
Definition Debugf (format : string) (v : list any) : M unit :=
  enabled ← isLevelEnabled DebugLevel;
  if negb enabled then mret tt
  else
    msg ← formatWithCaller 2 (Sprintf format v);
    println Debug msg.

Definition Infof (format : string) (v : list any) : M unit :=
  enabled ← isLevelEnabled InfoLevel;
  if negb enabled then mret tt
  else
    msg ← formatWithCaller 2 (Sprintf format v);
    println Info msg.

Definition Noticef (format : string) (v : list any) : M unit :=
  enabled ← isLevelEnabled NoticeLevel;
  if negb enabled then mret tt
  else
    msg ← formatWithCaller 2 (Sprintf format v);
    println Notice msg.

Definition Warnf (format : string) (v : list any) : M unit :=
  enabled ← isLevelEnabled WarnLevel;
  if negb enabled then mret tt
  else
    msg ← formatWithCaller 2 (Sprintf format v);
    println Warning msg.

Definition Errorf (format : string) (v : list any) : M unit :=
  enabled ← isLevelEnabled ErrorLevel;
  if negb enabled then mret tt
  else
    msg ← formatWithCaller 2 (Sprintf format v);
    println Error msg.

Definition Critf (format : string) (v : list any) : M unit :=
  enabled ← isLevelEnabled CritLevel;
  if negb enabled then mret tt
  else
    msg ← formatWithCaller 2 (Sprintf format v);
    println Crit msg.

Definition Alertf (format : string) (v : list any) : M unit :=
  enabled ← isLevelEnabled AlertLevel;
  if negb enabled then mret tt
  else
    msg ← formatWithCaller 2 (Sprintf format v);
    println Alert msg.

Definition Emergf (format : string) (v : list any) : M unit :=
  enabled ← isLevelEnabled EmergLevel;
  if negb enabled then mret tt
  else
    msg ← formatWithCaller 2 (Sprintf format v);
    println Emerg msg.

Definition Fatalf (format : string) (v : list any) : M unit :=
  enabled ← isLevelEnabled FatalLevel;
  (if negb enabled then os_Exit 1 else mret tt);;
  msg ← formatWithCaller 2 (Sprintf format v);
  println Fatal msg;;
  os_Exit 1.

(** Concatenated style: [fmt.Sprint(v...)]. *)
Definition Debugln (v : list any) : M unit :=
  enabled ← isLevelEnabled DebugLevel;
  if negb enabled then mret tt
  else
    msg ← formatWithCaller 2 (Sprint v);
    println Debug msg.

Definition Infoln (v : list any) : M unit :=
  enabled ← isLevelEnabled InfoLevel;
  if negb enabled then mret tt
  else
    msg ← formatWithCaller 2 (Sprint v);
    println Info msg.

Definition Noticeln (v : list any) : M unit :=
  enabled ← isLevelEnabled NoticeLevel;
  if negb enabled then mret tt
  else
    msg ← formatWithCaller 2 (Sprint v);
    println Notice msg.

Definition Warnln (v : list any) : M unit :=
  enabled ← isLevelEnabled WarnLevel;
  if negb enabled then mret tt
  else
    msg ← formatWithCaller 2 (Sprint v);
    println Warning msg.

Definition Errorln (v : list any) : M unit :=
  enabled ← isLevelEnabled ErrorLevel;
  if negb enabled then mret tt
  else
    msg ← formatWithCaller 2 (Sprint v);
    println Error msg.

Definition Critln (v : list any) : M unit :=
  enabled ← isLevelEnabled CritLevel;
  if negb enabled then mret tt
  else
    msg ← formatWithCaller 2 (Sprint v);
    println Crit msg.

Definition Alertln (v : list any) : M unit :=
  enabled ← isLevelEnabled AlertLevel;
  if negb enabled then mret tt
  else
    msg ← formatWithCaller 2 (Sprint v);
    println Alert msg.

Definition Emergln (v : list any) : M unit :=
  enabled ← isLevelEnabled EmergLevel;
  if negb enabled then mret tt
  else
    msg ← formatWithCaller 2 (Sprint v);
    println Emerg msg.

Definition Fatalln (v : list any) : M unit :=
  enabled ← isLevelEnabled FatalLevel;
  (if negb enabled then os_Exit 1 else mret tt);;
  msg ← formatWithCaller 2 (Sprint v);
  println Fatal msg;;
  os_Exit 1.

(** Key-value style: the message followed by [encodeFields(keyvals...)]. *)
Definition DebugKV (msg : string) (keyvals : list any) : M unit :=
  enabled ← isLevelEnabled DebugLevel;
  if negb enabled then mret tt
  else
    msg ← formatWithCaller 2 (msg +:+ encodeFields keyvals);
    println Debug msg.

Definition InfoKV (msg : string) (keyvals : list any) : M unit :=
  enabled ← isLevelEnabled InfoLevel;
  if negb enabled then mret tt
  else
    msg ← formatWithCaller 2 (msg +:+ encodeFields keyvals);
    println Info msg.

Definition NoticeKV (msg : string) (keyvals : list any) : M unit :=
  enabled ← isLevelEnabled NoticeLevel;
  if negb enabled then mret tt
  else
    msg ← formatWithCaller 2 (msg +:+ encodeFields keyvals);
    println Notice msg.

Definition WarnKV (msg : string) (keyvals : list any) : M unit :=
  enabled ← isLevelEnabled WarnLevel;
  if negb enabled then mret tt
  else
    msg ← formatWithCaller 2 (msg +:+ encodeFields keyvals);
    println Warning msg.

Definition ErrorKV (msg : string) (keyvals : list any) : M unit :=
  enabled ← isLevelEnabled ErrorLevel;
  if negb enabled then mret tt
  else
    msg ← formatWithCaller 2 (msg +:+ encodeFields keyvals);
    println Error msg.

Definition CritKV (msg : string) (keyvals : list any) : M unit :=
  enabled ← isLevelEnabled CritLevel;
  if negb enabled then mret tt
  else
    msg ← formatWithCaller 2 (msg +:+ encodeFields keyvals);
    println Crit msg.

Definition AlertKV (msg : string) (keyvals : list any) : M unit :=
  enabled ← isLevelEnabled AlertLevel;
  if negb enabled then mret tt
  else
    msg ← formatWithCaller 2 (msg +:+ encodeFields keyvals);
    println Alert msg.

Definition EmergKV (msg : string) (keyvals : list any) : M unit :=
  enabled ← isLevelEnabled EmergLevel;
  if negb enabled then mret tt
  else
    msg ← formatWithCaller 2 (msg +:+ encodeFields keyvals);
    println Emerg msg.

Definition FatalKV (msg : string) (keyvals : list any) : M unit :=
  enabled ← isLevelEnabled FatalLevel;
  (if negb enabled then os_Exit 1 else mret tt);;
  msg ← formatWithCaller 2 (msg +:+ encodeFields keyvals);
  println Fatal msg;;
  os_Exit 1.

Definition statusCodeToLevel (code : Z) : Level :=
  if (code >=? 500)%Z then ErrorLevel
  else if (code >=? 400)%Z then WarnLevel
  else if (code >=? 300)%Z then InfoLevel
  else InfoLevel.

Definition Api (statusCode : Z) (msg : string) : M unit :=
  let level := statusCodeToLevel statusCode in
  enabled ← isLevelEnabled level;
  if negb enabled then mret tt
  else
    logMsg ← formatWithCaller 2 ("[" +:+ itoa statusCode +:+ "] " +:+ msg);
    match level with
    | InfoLevel => println Info logMsg
    | WarnLevel => println Warning logMsg
    | ErrorLevel => println Error logMsg
    | _ => mret tt
    end.

(** The three call styles, and the entry point of a severity and style. *)
Inductive style : Type :=
| Formatted (format : string) (v : list any)
| Concatenated (v : list any)
| KeyValue (msg : string) (keyvals : list any).

Definition dispatch (level : Level) (st : style) : M unit :=
  match level, st with
  | DebugLevel, Formatted format v => Debugf format v
  | DebugLevel, Concatenated v => Debugln v
  | DebugLevel, KeyValue msg keyvals => DebugKV msg keyvals
  | InfoLevel, Formatted format v => Infof format v
  | InfoLevel, Concatenated v => Infoln v
  | InfoLevel, KeyValue msg keyvals => InfoKV msg keyvals
  | NoticeLevel, Formatted format v => Noticef format v
  | NoticeLevel, Concatenated v => Noticeln v
  | NoticeLevel, KeyValue msg keyvals => NoticeKV msg keyvals
  | WarnLevel, Formatted format v => Warnf format v
  | WarnLevel, Concatenated v => Warnln v
  | WarnLevel, KeyValue msg keyvals => WarnKV msg keyvals
  | ErrorLevel, Formatted format v => Errorf format v
  | ErrorLevel, Concatenated v => Errorln v
  | ErrorLevel, KeyValue msg keyvals => ErrorKV msg keyvals
  | CritLevel, Formatted format v => Critf format v
  | CritLevel, Concatenated v => Critln v
  | CritLevel, KeyValue msg keyvals => CritKV msg keyvals
  | AlertLevel, Formatted format v => Alertf format v
  | AlertLevel, Concatenated v => Alertln v
  | AlertLevel, KeyValue msg keyvals => AlertKV msg keyvals
  | EmergLevel, Formatted format v => Emergf format v
  | EmergLevel, Concatenated v => Emergln v
  | EmergLevel, KeyValue msg keyvals => EmergKV msg keyvals
  | FatalLevel, Formatted format v => Fatalf format v
  | FatalLevel, Concatenated v => Fatalln v
  | FatalLevel, KeyValue msg keyvals => FatalKV msg keyvals
  end.

(** The message body of a call style. *)
Definition body (st : style) : string :=
  match st with
  | Formatted format v => Sprintf format v
  | Concatenated v => Sprint v
  | KeyValue msg keyvals => msg +:+ encodeFields keyvals
  end.

End Dispatch.

(** * The vocabulary of the statements *)

(** ** Reading the state *)

(** The package variable the entry points of a severity print to, the name
    [Init] binds it under, and its console stream. *)
Definition logger_of (level : Level) : Globals -> Logger :=
  match level with
  | DebugLevel => Debug | InfoLevel => Info | NoticeLevel => Notice
  | WarnLevel => Warning | ErrorLevel => Error | CritLevel => Crit
  | AlertLevel => Alert | EmergLevel => Emerg | FatalLevel => Fatal
  end.

Definition level_name (level : Level) : string :=
  match level with
  | DebugLevel => "DEBUG" | InfoLevel => "INFO" | NoticeLevel => "NOTICE"
  | WarnLevel => "WARNING" | ErrorLevel => "ERROR" | CritLevel => "CRIT"
  | AlertLevel => "ALERT" | EmergLevel => "EMERG" | FatalLevel => "FATAL"
  end.

Definition console_of (level : Level) : Writer :=
  match level with
  | DebugLevel | InfoLevel | NoticeLevel => Stdout
  | _ => Stderr
  end.

(** What has been written to a console stream, and appending to it. *)
Definition seen (out : Writer) (w : World) : string :=
  match out with Stdout => stdout w | Stderr => stderr w | _ => "" end.

Definition put (out : Writer) (data : string) (w : World) : World :=
  match out with Stdout => put_stdout data w | Stderr => put_stderr data w | _ => w end.

Definition file_append (path data : string) (w : World) : World :=
  {| stdout := stdout w; stderr := stderr w; fds := fds w;
     files := <[path := contents w path +:+ data]> (files w) |}.

Definition is_console (out : Writer) : Prop := out = Stdout \/ out = Stderr.

(** How a call of a severity ends once it has run. *)
Definition ending (level : Level) : outcome unit :=
  match level with FatalLevel => Exited 1%Z | _ => Returned tt end.

(** The caller-tag decorator as [formatWithCaller(2, msg)] applies it. *)
Definition tagged (h : Host) (g : Globals) (msg : string) : string :=
  if includeCallerTag g then "[" +:+ getCallerInfo h 3 +:+ "] " +:+ msg else msg.

(** The caller-tag decorator under a configuration. *)
Definition tag_of (c : Config) (h : Host) (msg : string) : string :=
  if IncludeCallerTag c then "[" +:+ getCallerInfo h 3 +:+ "] " +:+ msg else msg.

(** The descriptor [Init] gets for the configured file, if it opens one. *)
Definition opened (c : Config) (h : Host) (w : World) : option nat :=
  if String.eqb (FilePath c) "" then None
  else match open_failure h (FilePath c) with
       | Some _ => None
       | None => Some (length (fds w))
       end.

(** The logger [Init] binds for a severity, given the file writer. *)
Definition bound (c : Config) (getenv : string -> string) (fw : option Writer)
    (level : Level) : Logger :=
  if Colorize c
  then newColorLogger (console_of level) (level_name level) (IncludeLevelPrefix c) fw
  else newPlainLogger getenv (console_of level) (level_name level) (IncludeLevelPrefix c) fw.

Definition after_Init (c : Config) (h : Host) (s : Proc) : Proc := snd (Init c h s).

(** A state of the process after [Init c] ran on host [h0] in state [s0]
    and nothing but output followed: the package variables and the table
    of descriptors are as [Init] left them. *)
Definition since_Init (c : Config) (h0 : Host) (s0 s : Proc) : Prop :=
  vars s = vars (after_Init c h0 s0) /\
  fds (world s) = fds (world (after_Init c h0 s0)).

(** The same host at another time. *)
Definition at_time (t : Time) (h : Host) : Host :=
  {| getenv := getenv h; now := t; open_failure := open_failure h;
     close_failure := close_failure h; caller_at := caller_at h |}.

(** ** The two copies of a line *)

(** The syslog decoration of the console copy of a line, as
    [newPlainLogger] sets it up for a level name. *)
Definition syslog_decor (getenv : string -> string) (name : string) (line : string) : string :=
  if shouldUseSyslogPrefix getenv && negb (String.eqb (syslogPrefixForLevel name) "")
  then syslogPrefixForLevel name +:+ syslog_lines (syslogPrefixForLevel name) line
  else line.

(** The bracketed level token and the separating space, or nothing. *)
Definition plain_prefix (show : bool) (name : string) : string :=
  prefixForLog (if show then "[" +:+ name +:+ "]" else "").

Definition color_prefix (show : bool) (name : string) : string :=
  prefixForLog (if show then colors name +:+ "[" +:+ name +:+ "]" +:+ reset else "").

(** The console copy and the file copy of a line, as the loggers bound by
    [Init] produce them. *)
Definition console_copy (c : Config) (getenv : string -> string) (h : Host)
    (level : Level) (msg : string) : string :=
  if Colorize c
  then color_prefix (IncludeLevelPrefix c) (level_name level) +:+ stamp (now h) +:+ msg +:+ NL
  else syslog_decor getenv (level_name level)
         (plain_prefix (IncludeLevelPrefix c) (level_name level) +:+ msg +:+ NL).

Definition file_copy (c : Config) (h : Host) (level : Level) (msg : string) : string :=
  if Colorize c
  then stripANSI false
         (color_prefix (IncludeLevelPrefix c) (level_name level) +:+ stamp (now h) +:+ msg +:+ NL)
  else stamp (now h) +:+ plain_prefix (IncludeLevelPrefix c) (level_name level) +:+ msg +:+ NL.

(** ** Shapes of text *)

Definition all_digits (n : nat) (s : string) : bool :=
  (String.length s =? n) && shaped (repeat Dg n) s.

(** Text of ASCII bytes: the models of [strings.TrimSpace] and
    [strings.ToUpper] are the library's on such text. *)
Fixpoint ascii_only (s : string) : bool :=
  match s with
  | EmptyString => true
  | String c r => (nat_of_ascii c <? 128) && ascii_only r
  end.

(** Concatenation of a list of strings. *)
Fixpoint flat (l : list string) : string :=
  match l with
  | [] => ""
  | x :: r => x +:+ flat r
  end.

(** The lines of a payload, each with its line feed when it has one; a
    trailing line feed opens no further line. *)
Fixpoint lines (s : string) : list string :=
  match s with
  | EmptyString => []
  | String c r =>
      if Ascii.eqb c nl then String c "" :: lines r
      else match lines r with
           | [] => [String c ""]
           | l :: ls => String c l :: ls
           end
  end.

(** ** The field encoder *)

(** The complete (key, value) pairs of an argument list, in order; a last
    argument without a partner belongs to no pair. *)
Fixpoint pairs_of (keyvals : list any) : list (any * any) :=
  match keyvals with
  | k :: v :: rest => (k, v) :: pairs_of rest
  | _ => []
  end.

(** The pairs whose key is a string. *)
Definition surviving (keyvals : list any) : list (string * any) :=
  omap (fun kv => match as_string (fst kv) with
                  | Some key => Some (key, snd kv)
                  | None => None
                  end) (pairs_of keyvals).

(** [key=value]. *)
Definition render (p : string * any) : string := fst p +:+ "=" +:+ fmt_v (snd p).

(** ** Resolution of the enabled set *)

(** The names the environment value may use for a severity. *)
Definition names (level : Level) : list string :=
  match level with
  | DebugLevel => ["DEBUG"]
  | InfoLevel => ["INFO"]
  | NoticeLevel => ["NOTICE"]
  | WarnLevel => ["WARNING"]
  | ErrorLevel => ["ERROR"]
  | CritLevel => ["CRIT"; "CRITICAL"]
  | AlertLevel => ["ALERT"]
  | EmergLevel => ["EMERG"; "EMERGENCY"]
  | FatalLevel => ["FATAL"]
  end%string.

(** A token names a severity when, trimmed and without regard to case, it is
    one of the names of the severity. *)
Definition spells (level : Level) (t : string) : bool :=
  existsb (String.eqb t) (names level).

Definition token_names (level : Level) (token : string) : bool :=
  spells level (ToUpper (TrimSpace token)).

(** A comma-separated value lists a severity when one of its tokens names
    it. *)
Definition lists_level (value : string) (level : Level) : bool :=
  existsb (token_names level) (Split (TrimSpace value) ",").

(** ** Tokens of the severities *)

(** The priority of a severity in the table of [syslogPrefixForLevel]. *)
Definition priority (level : Level) : string :=
  match level with
  | EmergLevel => "<0>" | AlertLevel => "<1>" | CritLevel => "<2>"
  | ErrorLevel => "<3>" | WarnLevel => "<4>" | NoticeLevel => "<5>"
  | InfoLevel => "<6>" | DebugLevel => "<7>" | FatalLevel => "<2>"
  end.

(** The name of a severity as its constant spells it, without the [Level]
    suffix. *)
Definition constant_stem (level : Level) : string :=
  match level with
  | DebugLevel => "Debug" | InfoLevel => "Info" | WarnLevel => "Warn"
  | ErrorLevel => "Error" | FatalLevel => "Fatal" | NoticeLevel => "Notice"
  | CritLevel => "Crit" | AlertLevel => "Alert" | EmergLevel => "Emerg"
  end.

(** The token of a severity: its name in upper case, and [WARNING] for the
    warning severity. *)
Definition level_token (level : Level) : string :=
  match level with
  | WarnLevel => "WARNING"
  | _ => ToUpper (constant_stem level)
  end.

(** The long name of a severity: the longest of the names [parseLevels]
    takes for it, [CRITICAL] and [EMERGENCY] where it takes two. *)
Definition longer (a b : string) : string :=
  if String.length a <? String.length b then b else a.

Definition long_name (level : Level) : string := foldr longer "" (names level).

(** ** Output that only grows, and runs of calls *)

(** [b] is [a] with more text behind it. *)
Definition extends (a b : string) : Prop := exists more, b = a +:+ more.

(** Nothing that reached a console stream or a file is lost from [w] to
    [w']. *)
Definition keeps_output (w w' : World) : Prop :=
  extends (stdout w) (stdout w') /\ extends (stderr w) (stderr w') /\
  forall path, extends (contents w path) (contents w' path).

(** The calls a program makes on the package. *)
Inductive call : Type :=
| CallInit (c : Config)
| CallClose
| CallDispatch (level : Level) (st : style)
| CallApi (code : Z) (msg : string).

Section Runs.
Context `{Printf}.

Definition perform (k : call) : M unit :=
  match k with
  | CallInit c => Init c
  | CallClose => _ ← Close; mret tt
  | CallDispatch level st => dispatch level st
  | CallApi code msg => Api code msg
  end.

(** A run of calls, each on the host of its moment; the run ends at the
    first call that exits the process. *)
Fixpoint run (ks : list (call * Host)) (s : Proc) : Proc :=
  match ks with
  | [] => s
  | (k, h) :: rest =>
      match perform k h s with
      | (Returned _, s') => run rest s'
      | (Exited _, s') => s'
      end
  end.

End Runs.

(** How often a byte occurs. *)
Fixpoint count (c : ascii) (s : string) : nat :=
  match s with
  | EmptyString => 0
  | String x r => (if Ascii.eqb x c then 1 else 0) + count c r
  end.

(** Text that neither begins nor ends with white space. *)
Definition head_ok (s : string) : bool :=
  match s with String c _ => negb (isSpace c) | EmptyString => false end.

Fixpoint last_ok (s : string) : bool :=
  match s with
  | EmptyString => false
  | String c EmptyString => negb (isSpace c)
  | String _ r => last_ok r
  end.

(** * Fixtures for the worked instances *)

(** A [Sprintf] that returns its format: what [fmt.Sprintf] does for a
    format without verbs and no operands. *)
Definition verbatim : Printf := {| Sprintf := fun format _ => format |}.

Definition autumn : Time :=
  {| year := 2025; month := 10; day := 26; hour := 10; minute := 30; second := 45 |}.

(** A host with an empty environment, where files open and close without
    error and the call stack cannot be read. *)
Definition quiet : Host :=
  {| getenv := fun _ => ""%string; now := autumn;
     open_failure := fun _ => None; close_failure := fun _ => None;
     caller_at := fun _ => None |}.

(** A host on which closing a descriptor fails. *)
Definition flaky : Host :=
  {| getenv := fun _ => ""%string; now := autumn;
     open_failure := fun _ => None;
     close_failure := fun _ => Some (OSError "input/output error");
     caller_at := fun _ => None |}.

(** A host on which no file can be opened. *)
Definition locked : Host :=
  {| getenv := fun _ => ""%string; now := autumn;
     open_failure := fun _ => Some (OSError "permission denied");
     close_failure := fun _ => None;
     caller_at := fun _ => None |}.

(** A host supervised by a service manager: [JOURNAL_STREAM] is set. *)
Definition journald : Host :=
  {| getenv := fun name => if String.eqb name "JOURNAL_STREAM" then "8:12345"%string
                           else ""%string;
     now := autumn;
     open_failure := fun _ => None; close_failure := fun _ => None;
     caller_at := fun _ => None |}.

(** An environment in which only [LOGGER_LEVELS] is set. *)
Definition with_levels (value : string) : string -> string :=
  fun name => if String.eqb name "LOGGER_LEVELS" then value else ""%string.

(** The process before any call. *)
Definition boot : Proc :=
  {| vars := initial_globals;
     world := {| stdout := ""; stderr := ""; fds := []; files := ∅ |} |}.

Definition only_info : Config :=
  {| Levels := Some [InfoLevel]; Colorize := false; FilePath := "";
     IncludeLevelPrefix := true; IncludeCallerTag := false |}.

Definition all_plain : Config :=
  {| Levels := Some AllLevels; Colorize := false; FilePath := "";
     IncludeLevelPrefix := true; IncludeCallerTag := false |}.

Definition all_bare : Config :=
  {| Levels := Some AllLevels; Colorize := false; FilePath := "";
     IncludeLevelPrefix := false; IncludeCallerTag := false |}.

Definition to_file : Config :=
  {| Levels := Some AllLevels; Colorize := false; FilePath := "app.log";
     IncludeLevelPrefix := true; IncludeCallerTag := false |}.

Definition colored_bare : Config :=
  {| Levels := Some AllLevels; Colorize := true; FilePath := "";
     IncludeLevelPrefix := false; IncludeCallerTag := false |}.

Definition colored_to_file : Config :=
  {| Levels := Some AllLevels; Colorize := true; FilePath := "app.log";
     IncludeLevelPrefix := true; IncludeCallerTag := false |}.

Definition colored_file_bare : Config :=
  {| Levels := Some AllLevels; Colorize := true; FilePath := "app.log";
     IncludeLevelPrefix := false; IncludeCallerTag := false |}.

Definition to_other_file : Config :=
  {| Levels := Some AllLevels; Colorize := false; FilePath := "other.log";
     IncludeLevelPrefix := true; IncludeCallerTag := false |}.

(** A host whose [LOGGER_LEVELS] spells no severity. *)
Definition misspelt : Host :=
  {| getenv := with_levels "WARN, verbose"; now := autumn;
     open_failure := fun _ => None; close_failure := fun _ => None;
     caller_at := fun _ => None |}.

Definition from_env : Config :=
  {| Levels := None; Colorize := false; FilePath := "";
     IncludeLevelPrefix := true; IncludeCallerTag := false |}.

(** A host whose stack names the caller with its import path. *)
Definition traced : Host :=
  {| getenv := fun _ => ""%string; now := autumn;
     open_failure := fun _ => None; close_failure := fun _ => None;
     caller_at := fun depth =>
       if depth =? 3 then Some (Some "github.com/acme/app/main.run"%string, 15%Z)
       else None |}.

(** * Properties *)

(** ** Text *)

Module TextFacts.

Lemma app_nil_r (s : string) : s +:+ "" = s.
Proof. induction s as [|c s IH]; simpl; [reflexivity | f_equal; exact IH]. Qed.

Lemma app_assoc (a b c : string) : (a +:+ b) +:+ c = a +:+ (b +:+ c).
Proof. induction a as [|x a IH]; simpl; [reflexivity | f_equal; exact IH]. Qed.

Lemma app_length (a b : string) :
  String.length (a +:+ b) = String.length a + String.length b.
Proof. induction a as [|x a IH]; simpl; [reflexivity | f_equal; exact IH]. Qed.

Lemma eqb_true (a b : string) : String.eqb a b = true <-> a = b.
Proof. apply String.eqb_eq. Qed.

Lemma has_app c a b : has c (a +:+ b) = has c a || has c b.
Proof.
  induction a as [|x a IH]; simpl; [reflexivity |].
  now rewrite IH, orb_assoc.
Qed.

Lemma starts_app p s : starts p (p +:+ s) = true.
Proof.
  induction p as [|x p IH]; simpl; [reflexivity |].
  now rewrite Ascii.eqb_refl, IH.
Qed.

Lemma within_app_r p a b : within p b = true -> within p (a +:+ b) = true.
Proof.
  intros H. induction a as [|x a IH]; simpl; [exact H |].
  rewrite IH. apply orb_true_r.
Qed.

Lemma within_here p s : within p (p +:+ s) = true.
Proof. destruct p; simpl; [destruct s; reflexivity|];
       rewrite Ascii.eqb_refl, starts_app; reflexivity. Qed.

End TextFacts.

Import TextFacts.

(** ** Timestamps are date shaped *)

Lemma zpad4_digits (y : nat) : y < 100 * 100 -> all_digits 4 (zpad y 4) = true.
Proof.
  intros Hy.
  assert (Hall : forallb (fun y => all_digits 4 (zpad y 4)) (seq 0 (100 * 100)) = true)
    by (vm_compute; reflexivity).
  rewrite forallb_forall in Hall. apply Hall, in_seq. lia.
Qed.

Lemma zpad2_digits (n : nat) : n < 100 -> all_digits 2 (zpad n 2) = true.
Proof.
  intros Hn.
  assert (Hall : forallb (fun n => all_digits 2 (zpad n 2)) (seq 0 100) = true)
    by (vm_compute; reflexivity).
  rewrite forallb_forall in Hall. apply Hall, in_seq. lia.
Qed.

Lemma shaped_app (p q : list shape) (a b : string) :
  String.length a = length p -> shaped p a = true -> shaped q b = true ->
  shaped (p ++ q) (a +:+ b) = true.
Proof.
  revert a. induction p as [|x p IH]; intros a Hlen Ha Hb.
  - destruct a; [exact Hb | discriminate].
  - destruct a as [|c a]; [discriminate |].
    simpl in *. destruct x.
    + apply andb_true_iff in Ha as [-> Ha]. simpl. apply IH; [lia | exact Ha | exact Hb].
    + apply andb_true_iff in Ha as [-> Ha]. simpl. apply IH; [lia | exact Ha | exact Hb].
Qed.

Lemma digits_then (n : nat) (a b : string) (q : list shape) :
  all_digits n a = true -> shaped q b = true -> shaped (repeat Dg n ++ q) (a +:+ b) = true.
Proof.
  unfold all_digits. intros Ha Hb. apply andb_true_iff in Ha as [Hl Ha].
  apply Nat.eqb_eq in Hl. apply shaped_app; [now rewrite repeat_length | exact Ha | exact Hb].
Qed.

Lemma byte_then (c : ascii) (b : string) (q : list shape) :
  shaped q b = true -> shaped ([Ch c] ++ q) (String c "" +:+ b) = true.
Proof. intros Hb. simpl. now rewrite Ascii.eqb_refl. Qed.

Lemma stamp_shaped (t : Time) (rest : string) :
  civil t -> date_shaped (stamp t +:+ rest) = true.
Proof.
  intros (Hy & Hm & Hd & Hh & Hmi & Hs).
  unfold date_shaped, stamp. rewrite !app_assoc.
  change date_shape with
    (repeat Dg 4 ++ [Ch "/"%char] ++ repeat Dg 2 ++ [Ch "/"%char] ++ repeat Dg 2 ++
     [Ch " "%char] ++ repeat Dg 2 ++ [Ch ":"%char] ++ repeat Dg 2 ++ [Ch ":"%char] ++
     repeat Dg 2 ++ [Ch " "%char] ++ []).
  apply digits_then; [apply zpad4_digits; exact Hy |]. apply byte_then.
  apply digits_then; [apply zpad2_digits; lia |]. apply byte_then.
  apply digits_then; [apply zpad2_digits; lia |]. apply byte_then.
  apply digits_then; [apply zpad2_digits; lia |]. apply byte_then.
  apply digits_then; [apply zpad2_digits; lia |]. apply byte_then.
  apply digits_then; [apply zpad2_digits; lia |]. apply byte_then.
  reflexivity.
Qed.

(** ** What a dispatch call does *)

Section DispatchFacts.
Context `{Printf}.

Lemma dispatch_run (level : Level) (st : style) (h : Host) (s : Proc) :
  dispatch level st h s =
    if level_on (enabledLevels (vars s)) level
    then (ending level,
          {| vars := vars s;
             world := Println h (logger_of level (vars s))
                        (tagged h (vars s) (body st)) (world s) |})
    else (ending level, s).
Proof.
  destruct level, st; cbv [dispatch]; 
    unfold Debugf, Infof, Noticef, Warnf, Errorf, Critf, Alertf, Emergf, Fatalf,
           Debugln, Infoln, Noticeln, Warnln, Errorln, Critln, Alertln, Emergln, Fatalln,
           DebugKV, InfoKV, NoticeKV, WarnKV, ErrorKV, CritKV, AlertKV, EmergKV, FatalKV;
    unfold mbind, M_bind, mret, M_ret, isLevelEnabled, read, formatWithCaller,
           println, os_Exit, tagged, ending; simpl;
    destruct (level_on _ _); simpl; try reflexivity;
    destruct (includeCallerTag _); reflexivity.
Qed.

Lemma Api_run (code : Z) (msg : string) (h : Host) (s : Proc) :
  Api code msg h s =
    let level := statusCodeToLevel code in
    if level_on (enabledLevels (vars s)) level
    then (Returned tt,
          {| vars := vars s;
             world := Println h (logger_of level (vars s))
                        (tagged h (vars s) ("[" +:+ itoa code +:+ "] " +:+ msg))
                        (world s) |})
    else (Returned tt, s).
Proof.
  unfold Api, mbind, M_bind, mret, M_ret, isLevelEnabled, read, formatWithCaller,
    println, tagged, statusCodeToLevel; simpl.
  destruct (code >=? 500)%Z; [|destruct (code >=? 400)%Z; [|destruct (code >=? 300)%Z]];
    simpl; destruct (level_on _ _); simpl; try reflexivity;
    destruct (includeCallerTag _); reflexivity.
Qed.

End DispatchFacts.

(** ** What [Init] leaves behind *)

Ltac run_Init c h s :=
  unfold Init, opened, file_open;
  destruct (String.eqb (FilePath c) ""); simpl;
  [| destruct (open_failure h (FilePath c)); simpl];
  destruct (Colorize c); simpl.

Lemma Init_returns (c : Config) (h : Host) (s : Proc) : fst (Init c h s) = Returned tt.
Proof. run_Init c h s; reflexivity. Qed.

Lemma Init_logger (c : Config) (h : Host) (s : Proc) (level : Level) :
  logger_of level (vars (snd (Init c h s))) =
  bound c (getenv h) (FileOf <$> opened c h (world s)) level.
Proof.
  unfold bound. run_Init c h s; destruct level; reflexivity.
Qed.

Lemma Init_enabled (c : Config) (h : Host) (s : Proc) :
  enabledLevels (vars (snd (Init c h s))) = resolveLevels (getenv h) (Levels c).
Proof. run_Init c h s; reflexivity. Qed.

Lemma Init_tag (c : Config) (h : Host) (s : Proc) :
  includeCallerTag (vars (snd (Init c h s))) = IncludeCallerTag c.
Proof. run_Init c h s; reflexivity. Qed.

Lemma Init_logFile (c : Config) (h : Host) (s : Proc) :
  logFile (vars (snd (Init c h s))) =
  match opened c h (world s) with
  | Some fd => Some fd
  | None => logFile (vars s)
  end.
Proof. run_Init c h s; reflexivity. Qed.

Lemma Init_fds (c : Config) (h : Host) (s : Proc) :
  fds (world (snd (Init c h s))) =
  match opened c h (world s) with
  | Some _ => fds (world s) ++ [(FilePath c, true)]
  | None => fds (world s)
  end.
Proof. run_Init c h s; reflexivity. Qed.

Lemma Init_files (c : Config) (h : Host) (s : Proc) (path : string) :
  contents (world (snd (Init c h s))) path = contents (world s) path.
Proof.
  run_Init c h s; try reflexivity; unfold contents; simpl;
    (destruct (decide (FilePath c = path)) as [->|Hne];
     [rewrite lookup_insert_eq; reflexivity | rewrite lookup_insert_ne by exact Hne; reflexivity]).
Qed.

Lemma opened_lookup (c : Config) (h : Host) (s : Proc) (fd : nat) :
  opened c h (world s) = Some fd ->
  fds (world (snd (Init c h s))) !! fd = Some (FilePath c, true).
Proof.
  intros Ho. rewrite Init_fds, Ho. unfold opened in Ho.
  destruct (String.eqb (FilePath c) ""); [discriminate |].
  destruct (open_failure h (FilePath c)); [discriminate |].
  injection Ho as <-. rewrite lookup_app_r by lia.
  now rewrite Nat.sub_diag.
Qed.

(** ** Writing a line *)

Lemma console_of_is_console (level : Level) : is_console (console_of level).
Proof. destruct level; unfold is_console; simpl; auto. Qed.

Lemma Write_console (h : Host) (out : Writer) (data : string) (w : World) :
  is_console out -> Write h out data w = (put out data w, (String.length data, None)).
Proof. intros [-> | ->]; reflexivity. Qed.

Lemma length_line (a : string) : (String.length (a +:+ NL) =? 0) = false.
Proof. rewrite app_length. simpl. apply Nat.eqb_neq. lia. Qed.

Lemma formatHeader_plain (t : Time) (prefix : string) :
  formatHeader t prefix 0 = prefix.
Proof. unfold formatHeader. simpl. apply app_nil_r. Qed.

Lemma formatHeader_std (t : Time) (prefix : string) :
  formatHeader t prefix LstdFlags = prefix +:+ stamp t.
Proof. unfold formatHeader, stamp. simpl. repeat (rewrite app_assoc; simpl). reflexivity. Qed.

Lemma plain_prefix_shown (name : string) :
  plain_prefix true name = "[" +:+ name +:+ "] ".
Proof. unfold plain_prefix, prefixForLog. simpl. now rewrite !app_assoc. Qed.

Lemma color_prefix_shown (name : string) :
  color_prefix true name = colors name +:+ "[" +:+ name +:+ "]" +:+ reset +:+ " ".
Proof.
  unfold color_prefix, prefixForLog.
  destruct (String.eqb _ "") eqn:E.
  - apply String.eqb_eq in E. apply (f_equal String.length) in E.
    rewrite !app_length in E. simpl in E. lia.
  - now rewrite !app_assoc.
Qed.

Lemma file_write_open (fd : nat) (path data : string) (w : World) :
  fds w !! fd = Some (path, true) ->
  file_write fd data w = (file_append path data w, (String.length data, None)).
Proof. intros Hfd. unfold file_write. now rewrite Hfd. Qed.

Lemma seen_put (out : Writer) (data : string) (w : World) :
  is_console out -> seen out (put out data w) = seen out w +:+ data.
Proof. intros [-> | ->]; reflexivity. Qed.

Lemma seen_file_append (out : Writer) (path data : string) (w : World) :
  seen out (file_append path data w) = seen out w.
Proof. destruct out; reflexivity. Qed.

Lemma contents_put (out : Writer) (data : string) (w : World) (path : string) :
  contents (put out data w) path = contents w path.
Proof. destruct out; reflexivity. Qed.

Lemma fds_put (out : Writer) (data : string) (w : World) : fds (put out data w) = fds w.
Proof. destruct out; reflexivity. Qed.

Lemma files_put (out : Writer) (data : string) (w : World) : files (put out data w) = files w.
Proof. destruct out; reflexivity. Qed.

Lemma contents_file_append (path data : string) (w : World) :
  contents (file_append path data w) path = contents w path +:+ data.
Proof. unfold contents at 1, file_append; simpl. now rewrite lookup_insert_eq. Qed.

(** The console writer [newPlainLogger] builds writes the decorated line. *)
Lemma Write_plain_console (h : Host) (getenv : string -> string) (out : Writer)
    (name line : string) (w : World) :
  is_console out ->
  Write h (if shouldUseSyslogPrefix getenv
           then if negb (String.eqb (syslogPrefixForLevel name) "")
                then syslogPrefixWriter out (syslogPrefixForLevel name) else out
           else out) (line +:+ NL) w
  = (put out (syslog_decor getenv name (line +:+ NL)) w, (String.length (line +:+ NL), None)).
Proof.
  intros Hout. unfold syslog_decor.
  destruct (shouldUseSyslogPrefix getenv); simpl; [| now apply Write_console].
  destruct (String.eqb (syslogPrefixForLevel name) "") eqn:E; simpl;
    [now apply Write_console |].
  rewrite E, length_line, Write_console by exact Hout. reflexivity.
Qed.

Lemma Println_plain (h : Host) (getenv : string -> string) (out : Writer)
    (name : string) (show : bool) (msg : string) (w : World) :
  is_console out ->
  Println h (newPlainLogger getenv out name show None) msg w =
  put out (syslog_decor getenv name (plain_prefix show name +:+ msg +:+ NL)) w.
Proof.
  intros Hout. unfold Println, newPlainLogger. cbn [l_out l_prefix l_flag log_New].
  rewrite formatHeader_plain. fold (plain_prefix show name).
  rewrite <- app_assoc, Write_plain_console by exact Hout. reflexivity.
Qed.

Lemma Println_plain_file (h : Host) (getenv : string -> string) (out : Writer)
    (name : string) (show : bool) (msg : string) (w : World) (fd : nat) (path : string) :
  is_console out ->
  fds w !! fd = Some (path, true) ->
  Println h (newPlainLogger getenv out name show (Some (FileOf fd))) msg w =
  file_append path (stamp (now h) +:+ plain_prefix show name +:+ msg +:+ NL)
    (put out (syslog_decor getenv name (plain_prefix show name +:+ msg +:+ NL)) w).
Proof.
  intros Hout Hfd. unfold Println, newPlainLogger. cbn [l_out l_prefix l_flag log_New].
  rewrite formatHeader_plain. fold (plain_prefix show name).
  cbn [Write]. rewrite <- app_assoc, Write_plain_console by exact Hout.
  rewrite Nat.eqb_refl. cbn [negb].
  rewrite (file_write_open fd path) by (now rewrite fds_put).
  rewrite app_assoc.
  destruct (negb _); reflexivity.
Qed.

Lemma Println_color (h : Host) (out : Writer) (name : string) (show : bool)
    (msg : string) (w : World) :
  is_console out ->
  Println h (newColorLogger out name show None) msg w =
  put out (color_prefix show name +:+ stamp (now h) +:+ msg +:+ NL) w.
Proof.
  intros Hout. unfold Println, newColorLogger. cbn [l_out l_prefix l_flag log_New].
  rewrite formatHeader_std. fold (color_prefix show name).
  rewrite Write_console by exact Hout. now rewrite !app_assoc.
Qed.

Lemma Println_color_file (h : Host) (out : Writer) (name : string) (show : bool)
    (msg : string) (w : World) (fd : nat) (path : string) :
  is_console out ->
  fds w !! fd = Some (path, true) ->
  Println h (newColorLogger out name show (Some (FileOf fd))) msg w =
  file_append path
    (stripANSI false (color_prefix show name +:+ stamp (now h) +:+ msg +:+ NL))
    (put out (color_prefix show name +:+ stamp (now h) +:+ msg +:+ NL) w).
Proof.
  intros Hout Hfd. unfold Println, newColorLogger. cbn [l_out l_prefix l_flag log_New].
  rewrite formatHeader_std. fold (color_prefix show name).
  cbn [Write]. rewrite Write_console by exact Hout.
  rewrite Nat.eqb_refl. cbn [negb].
  rewrite (file_write_open fd path) by (now rewrite fds_put).
  rewrite !app_assoc.
  destruct (negb _); reflexivity.
Qed.

(** ** Status-code dispatch *)

(** C8.  [Api] maps a status code of 500 or more to the error severity, a
    code from 400 to 499 to the warning severity and every other code to the
    info severity.  When the mapped severity is not enabled the call changes
    nothing; when it is, the message is prefixed with the bracketed status
    code and printed through the logger of the mapped severity. *)
Theorem Api_maps_status_to_level (code : Z) (msg : string) (h : Host) (s : Proc) :
  ((500 <= code)%Z -> statusCodeToLevel code = ErrorLevel) /\
  ((400 <= code <= 499)%Z -> statusCodeToLevel code = WarnLevel) /\
  ((code < 400)%Z -> statusCodeToLevel code = InfoLevel) /\
  (level_on (enabledLevels (vars s)) (statusCodeToLevel code) = false ->
     Api code msg h s = (Returned tt, s)) /\
  (level_on (enabledLevels (vars s)) (statusCodeToLevel code) = true ->
     Api code msg h s =
       (Returned tt,
        {| vars := vars s;
           world := Println h (logger_of (statusCodeToLevel code) (vars s))
                      (tagged h (vars s) ("[" +:+ itoa code +:+ "] " +:+ msg))
                      (world s) |})).
Proof.
  rewrite Api_run. cbv zeta. unfold statusCodeToLevel.
  repeat split.
  - intros Hc. destruct (Z.geb_spec code 500); [reflexivity | lia].
  - intros Hc. destruct (Z.geb_spec code 500); [lia |].
    destruct (Z.geb_spec code 400); [reflexivity | lia].
  - intros Hc. destruct (Z.geb_spec code 500); [lia |].
    destruct (Z.geb_spec code 400); [lia |].
    destruct (code >=? 300)%Z; reflexivity.
  - intros ->. reflexivity.
  - intros ->. reflexivity.
Qed.

Lemma Api_maps_status_to_level_witness :
  statusCodeToLevel 500 = ErrorLevel /\
  statusCodeToLevel 404 = WarnLevel /\
  statusCodeToLevel 301 = InfoLevel /\
  Api 404 "gone" quiet (after_Init only_info quiet boot)
    = (Returned tt, after_Init only_info quiet boot) /\
  stderr (world (snd (Api 404 "gone" quiet (after_Init all_plain quiet boot))))
    = "[WARNING] [404] gone" +:+ NL.
Proof.
  pose proof (Api_maps_status_to_level 500%Z "x" quiet boot) as (H5 & _).
  pose proof (Api_maps_status_to_level 404%Z "gone" quiet
                (after_Init only_info quiet boot)) as (_ & H4 & _ & Hoff & _).
  pose proof (Api_maps_status_to_level 301%Z "x" quiet boot) as (_ & _ & H3 & _).
  pose proof (Api_maps_status_to_level 404%Z "gone" quiet
                (after_Init all_plain quiet boot)) as (_ & _ & _ & _ & Hon).
  refine (conj (H5 _) (conj (H4 _) (conj (H3 _) (conj (Hoff _) _)))); try lia.
  - vm_compute; reflexivity.
  - rewrite Hon by (vm_compute; reflexivity). vm_compute; reflexivity.
Defined.

(** ** Shutdown *)

Lemma Close_run (h : Host) (s : Proc) :
  Close h s =
  match logFile (vars s) with
  | Some fd => (Returned (snd (file_close h fd (world s))),
                {| vars := set_logFile None (vars s);
                   world := fst (file_close h fd (world s)) |})
  | None => (Returned None, s)
  end.
Proof.
  unfold Close. destruct (logFile (vars s)); [| reflexivity].
  destruct (file_close h n (world s)); reflexivity.
Qed.

Lemma file_close_open (h : Host) (fd : nat) (path : string) (w : World) :
  fds w !! fd = Some (path, true) ->
  snd (file_close h fd w) = close_failure h fd /\
  fds (fst (file_close h fd w)) !! fd = Some (path, false).
Proof.
  intros Hfd. unfold file_close. rewrite Hfd. simpl. split; [reflexivity |].
  apply list_lookup_insert_eq. eapply lookup_lt_Some, Hfd.
Qed.

(** C9.  [Close] is the operation with an [error] result (the dispatch
    entry points and [Init] return nothing).  With a file stored it closes
    that file, returns what the close of the descriptor returned and clears
    the stored handle; for an open descriptor that is the failure, if any,
    of the operating system.  With no file stored it returns no error and
    changes nothing: so it is after a prior [Close], and after an [Init]
    without a file path on a process that never opened a file. *)
Theorem Close_surfaces_error_and_is_idempotent (h h' : Host) (s : Proc) :
  (forall fd, logFile (vars s) = Some fd ->
     fst (Close h s) = Returned (snd (file_close h fd (world s))) /\
     logFile (vars (snd (Close h s))) = None /\
     (forall path, fds (world s) !! fd = Some (path, true) ->
        fst (Close h s) = Returned (close_failure h fd) /\
        fds (world (snd (Close h s))) !! fd = Some (path, false))) /\
  (logFile (vars s) = None -> Close h s = (Returned None, s)) /\
  Close h' (snd (Close h s)) = (Returned None, snd (Close h s)) /\
  (forall c, logFile (vars s) = None -> FilePath c = ""%string ->
     Close h' (after_Init c h s) = (Returned None, after_Init c h s)).
Proof.
  split; [| split; [| split]].
  - intros fd Hfd. rewrite Close_run, Hfd. simpl. repeat split.
    + f_equal. eapply file_close_open; eassumption.
    + eapply file_close_open; eassumption.
  - intros Hnone. rewrite Close_run, Hnone. reflexivity.
  - rewrite (Close_run h s). destruct (logFile (vars s)) eqn:E.
    + rewrite Close_run. reflexivity.
    + simpl. rewrite Close_run, E. reflexivity.
  - intros c Hnone Hpath. rewrite Close_run. unfold after_Init.
    rewrite Init_logFile. unfold opened. rewrite Hpath. simpl. now rewrite Hnone.
Qed.

Lemma Close_surfaces_error_and_is_idempotent_witness :
  logFile (vars (after_Init to_file quiet boot)) = Some 0 /\
  fds (world (after_Init to_file quiet boot)) !! 0 = Some ("app.log"%string, true) /\
  fst (Close flaky (after_Init to_file quiet boot))
    = Returned (Some (OSError "input/output error")) /\
  Close quiet (snd (Close flaky (after_Init to_file quiet boot)))
    = (Returned None, snd (Close flaky (after_Init to_file quiet boot))) /\
  Close quiet boot = (Returned None, boot) /\
  Close quiet (after_Init only_info quiet boot)
    = (Returned None, after_Init only_info quiet boot).
Proof.
  assert (Hfile : logFile (vars (after_Init to_file quiet boot)) = Some 0)
    by (vm_compute; reflexivity).
  assert (Hfd : fds (world (after_Init to_file quiet boot)) !! 0
                = Some ("app.log"%string, true)) by (vm_compute; reflexivity).
  assert (Hnone : logFile (vars boot) = None) by reflexivity.
  pose proof (Close_surfaces_error_and_is_idempotent flaky quiet
                (after_Init to_file quiet boot)) as (Hsome & _ & Htwice & _).
  pose proof (Close_surfaces_error_and_is_idempotent quiet quiet boot)
    as (_ & Hnever & _ & Hinit).
  destruct (Hsome 0 Hfile) as (_ & _ & Hopen).
  destruct (Hopen _ Hfd) as (Herr & _).
  exact (conj Hfile (conj Hfd (conj Herr (conj Htwice
           (conj (Hnever Hnone) (Hinit only_info Hnone eq_refl)))))).
Defined.

(** ** Re-initialisation without a file *)

Lemma Init_no_file_fds (c : Config) (h : Host) (s : Proc) :
  FilePath c = ""%string \/ is_Some (open_failure h (FilePath c)) ->
  opened c h (world s) = None.
Proof.
  unfold opened. intros [-> | [e He]]; [reflexivity |].
  rewrite He. now destruct (String.eqb _ _).
Qed.

Lemma Println_bound_no_file (c : Config) (getenv : string -> string) (h : Host)
    (level : Level) (msg : string) (w : World) :
  files (Println h (bound c getenv None level) msg w) = files w /\
  fds (Println h (bound c getenv None level) msg w) = fds w.
Proof.
  unfold bound. pose proof (console_of_is_console level) as Hc.
  destruct (Colorize c).
  - rewrite Println_color by exact Hc. now rewrite files_put, fds_put.
  - rewrite Println_plain by exact Hc. now rewrite files_put, fds_put.
Qed.

(** C10.  [Init] stores a file handle only when it opens a non-empty
    configured path.  When the path is empty or the open fails, the handle
    stored before stays as it was; the new bindings write to no file,
    whatever is dispatched; and a later [Close] closes the old handle and
    returns the result of that close. *)
Theorem Init_without_file_keeps_old_handle `{Printf} (c : Config) (h : Host) (s : Proc) :
  (FilePath c <> ""%string -> open_failure h (FilePath c) = None ->
     logFile (vars (after_Init c h s)) = Some (length (fds (world s)))) /\
  (FilePath c = ""%string \/ is_Some (open_failure h (FilePath c)) ->
     logFile (vars (after_Init c h s)) = logFile (vars s) /\
     (forall level st h',
        files (world (snd (dispatch level st h' (after_Init c h s))))
          = files (world (after_Init c h s))) /\
     (forall fd h', logFile (vars s) = Some fd ->
        fst (Close h' (after_Init c h s))
          = Returned (snd (file_close h' fd (world (after_Init c h s)))) /\
        logFile (vars (snd (Close h' (after_Init c h s)))) = None /\
        (forall path, fds (world s) !! fd = Some (path, true) ->
           fst (Close h' (after_Init c h s)) = Returned (close_failure h' fd) /\
           fds (world (snd (Close h' (after_Init c h s)))) !! fd = Some (path, false)))).
Proof.
  unfold after_Init. split.
  - intros Hpath Hopen. rewrite Init_logFile. unfold opened.
    apply String.eqb_neq in Hpath. now rewrite Hpath, Hopen.
  - intros Hno. pose proof (Init_no_file_fds c h s Hno) as Hnone.
    assert (Hkeep : logFile (vars (snd (Init c h s))) = logFile (vars s))
      by (now rewrite Init_logFile, Hnone).
    assert (Hfds : fds (world (snd (Init c h s))) = fds (world s))
      by (now rewrite Init_fds, Hnone).
    split; [exact Hkeep | split].
    + intros level st h'. rewrite dispatch_run.
      destruct (level_on _ _); [| reflexivity]. simpl.
      rewrite Init_logger, Hnone. apply Println_bound_no_file.
    + intros fd h' Hfd. rewrite Close_run, Hkeep, Hfd. simpl.
      split; [reflexivity | split; [reflexivity |]].
      intros path Hopen. rewrite <- Hfds in Hopen.
      destruct (file_close_open h' fd path _ Hopen) as [-> ->]. now split.
Qed.

Lemma Init_without_file_keeps_old_handle_witness :
  let s1 := after_Init to_file quiet boot in
  logFile (vars s1) = Some 0 /\
  logFile (vars (after_Init only_info quiet s1)) = Some 0 /\
  logFile (vars (after_Init to_file locked s1)) = Some 0 /\
  files (world (snd (@dispatch verbatim InfoLevel (Concatenated [AString "hello"]) quiet
                       (after_Init only_info quiet s1))))
    = files (world (after_Init only_info quiet s1)) /\
  fst (Close flaky (after_Init only_info quiet s1))
    = Returned (Some (OSError "input/output error")) /\
  fds (world (snd (Close flaky (after_Init only_info quiet s1)))) !! 0
    = Some ("app.log"%string, false).
Proof.
  intros s1.
  assert (Hfile : logFile (vars s1) = Some 0) by (vm_compute; reflexivity).
  assert (Hfd : fds (world s1) !! 0 = Some ("app.log"%string, true))
    by (vm_compute; reflexivity).
  pose proof (@Init_without_file_keeps_old_handle verbatim only_info quiet s1)
    as (_ & Hempty).
  pose proof (@Init_without_file_keeps_old_handle verbatim to_file locked s1)
    as (_ & Hfails).
  destruct (Hempty (or_introl eq_refl)) as (Hkeep & Hquiet & Hclose).
  destruct (Hfails (or_intror (ex_intro _ (OSError "permission denied") eq_refl)))
    as (Hkeep' & _).
  destruct (Hclose 0 flaky Hfile) as (_ & _ & Hopen).
  destruct (Hopen _ Hfd) as (Herr & Hclosed).
  refine (conj Hfile (conj _ (conj _ (conj (Hquiet _ _ _) (conj Herr Hclosed))))).
  - rewrite Hkeep. exact Hfile.
  - rewrite Hkeep'. exact Hfile.
Defined.

(** ** The field encoder *)

(** Induction two elements at a time, as the loop of [encodeFields] goes. *)
Lemma pairwise_ind {A : Type} (P : list A -> Prop) :
  P [] -> (forall a, P [a]) -> (forall a b l, P l -> P (a :: b :: l)) ->
  forall l, P l.
Proof.
  intros H0 H1 H2 l.
  assert (Hboth : P l /\ forall a, P (a :: l)).
  { induction l as [|x l [IHl IHx]]; [split; [exact H0 | exact H1] |].
    split; [apply IHx |]. intros a. apply H2, IHl. }
  apply Hboth.
Qed.

Lemma encodeFields_parts_surviving (keyvals : list any) :
  encodeFields_parts keyvals = map render (surviving keyvals).
Proof.
  unfold surviving.
  induction keyvals as [| k | k v rest IH] using pairwise_ind; [reflexivity | reflexivity |].
  simpl. destruct (as_string k); simpl; rewrite IH; reflexivity.
Qed.

Lemma lead_Join (parts : list string) :
  parts <> [] -> " " +:+ Join parts " " = flat (map (fun p => " " +:+ p) parts).
Proof.
  induction parts as [|p [|q r] IH]; intros Hne; [contradiction | |].
  - simpl. now rewrite app_nil_r.
  - change (Join (p :: q :: r) " ") with (p +:+ " " +:+ Join (q :: r) " ").
    change (flat (map (fun p => " " +:+ p) (p :: q :: r)))
      with ((" " +:+ p) +:+ flat (map (fun p => " " +:+ p) (q :: r))).
    rewrite <- IH by discriminate. now rewrite !app_assoc.
Qed.

Lemma encodeFields_flat (keyvals : list any) :
  encodeFields keyvals = flat (map (fun p => " " +:+ render p) (surviving keyvals)).
Proof.
  unfold encodeFields. rewrite encodeFields_parts_surviving.
  destruct keyvals as [|k r]; [reflexivity |]. cbn [length Nat.eqb].
  destruct (surviving (k :: r)) as [|p ps]; [reflexivity |].
  cbn [map length Nat.eqb]. rewrite lead_Join by discriminate.
  simpl. f_equal. f_equal. now rewrite map_map.
Qed.

Lemma pairs_of_app (a b : list any) :
  Nat.Even (length a) -> pairs_of (a ++ b) = pairs_of a ++ pairs_of b.
Proof.
  induction a as [| k | k v rest IH] using pairwise_ind; intros Hev.
  - reflexivity.
  - destruct Hev as [n Hn]. simpl in Hn. lia.
  - simpl. f_equal. apply IH.
    destruct Hev as [n Hn]. simpl in Hn. exists (n - 1). lia.
Qed.

(** C7.  The field encoder works on the complete pairs of its argument
    list and keeps those whose key is a string; every kept pair is rendered
    as one space followed by [key=value], so the result has one leading
    space and single spaces between pairs, and it is empty when no pair is
    kept.  A trailing key without a value is dropped, and a pair whose key
    is not a string is skipped. *)
Theorem encodeFields_renders_surviving_pairs (keyvals : list any) :
  encodeFields keyvals = flat (map (fun p => " " +:+ render p) (surviving keyvals)) /\
  (surviving keyvals = [] -> encodeFields keyvals = ""%string) /\
  (forall p ps, surviving keyvals = p :: ps ->
     encodeFields keyvals = " " +:+ Join (map render (p :: ps)) " ") /\
  (forall k, Nat.Even (length keyvals) ->
     encodeFields (keyvals ++ [k]) = encodeFields keyvals) /\
  (forall k v, as_string k = None ->
     encodeFields (k :: v :: keyvals) = encodeFields keyvals) /\
  (forall key v, encodeFields (AString key :: v :: keyvals)
     = " " +:+ key +:+ "=" +:+ fmt_v v +:+ encodeFields keyvals).
Proof.
  split; [apply encodeFields_flat |]. split; [| split; [| split; [| split]]].
  - intros Hnone. now rewrite encodeFields_flat, Hnone.
  - intros p ps Hs. rewrite lead_Join by discriminate.
    now rewrite encodeFields_flat, Hs, map_map.
  - intros k Hev. rewrite !encodeFields_flat. unfold surviving.
    rewrite pairs_of_app by exact Hev. simpl. now rewrite List.app_nil_r.
  - intros k v Hk. rewrite !encodeFields_flat. unfold surviving. simpl. now rewrite Hk.
  - intros key v. rewrite !encodeFields_flat. unfold surviving, render. simpl.
    now rewrite !app_assoc.
Qed.

Lemma encodeFields_renders_surviving_pairs_witness :
  encodeFields [AString "user"; AInt 7; AInt 1; ABool true; AString "ok"; ABool true;
                AString "dangling"]
    = " user=7 ok=true"%string /\
  encodeFields [AInt 1; AString "x"] = ""%string /\
  encodeFields [AString "a"; AInt 1; AString "k"] = encodeFields [AString "a"; AInt 1].
Proof.
  pose proof (encodeFields_renders_surviving_pairs
                [AString "user"; AInt 7; AInt 1; ABool true; AString "ok"; ABool true;
                 AString "dangling"]) as (Hall & _).
  pose proof (encodeFields_renders_surviving_pairs [AInt 1; AString "x"]) as (_ & Hnone & _).
  pose proof (encodeFields_renders_surviving_pairs [AString "a"; AInt 1])
    as (_ & _ & _ & Hlast & _).
  refine (conj _ (conj (Hnone eq_refl) (Hlast (AString "k") _))).
  - rewrite Hall. vm_compute; reflexivity.
  - exists 1. reflexivity.
Defined.

(** ** Resolution of the enabled set *)

Lemma level_on_insert (m : gmap Level bool) (k level : Level) :
  level_on (<[k := true]> m) level = bool_decide (k = level) || level_on m level.
Proof.
  unfold level_on. destruct (decide (k = level)) as [-> | Hne].
  - now rewrite lookup_insert_eq, bool_decide_eq_true_2.
  - now rewrite lookup_insert_ne, bool_decide_eq_false_2.
Qed.

Lemma level_on_empty (level : Level) : level_on ∅ level = false.
Proof. unfold level_on. now rewrite lookup_empty. Qed.

Lemma level_on_all (level : Level) : level_on allLevelsEnabled level = true.
Proof. destruct level; vm_compute; reflexivity. Qed.

Lemma levelsFromSlice_on (levels : list Level) (level : Level) :
  level_on (levelsFromSlice levels) level = bool_decide (level ∈ levels).
Proof.
  unfold levelsFromSlice.
  assert (Hgen : forall m, level_on (foldl (fun m l => <[l := true]> m) m levels) level
                           = level_on m level || bool_decide (level ∈ levels)).
  { induction levels as [|l ls IH]; intros m.
    - cbn [foldl]. rewrite bool_decide_eq_false_2 by apply not_elem_of_nil.
      now rewrite orb_false_r.
    - cbn [foldl]. rewrite IH, level_on_insert.
      rewrite (bool_decide_ext (level ∈ l :: ls) (l = level \/ level ∈ ls))
        by (rewrite elem_of_cons; intuition congruence).
      rewrite bool_decide_or.
      destruct (bool_decide (l = level)), (level_on m level), (bool_decide (level ∈ ls));
        reflexivity. }
  rewrite Hgen, level_on_empty. reflexivity.
Qed.

Ltac other_name E :=
  apply String.eqb_eq in E; rewrite E; cbn [orb]; rewrite level_on_insert;
  match goal with |- context [spells ?l _] => destruct l end;
  match goal with
  | |- bool_decide ?P || _ = _ || spells ?l ?t =>
      let b := eval vm_compute in (bool_decide P) in
      let c := eval vm_compute in (spells l t) in
      change (bool_decide P) with b; change (spells l t) with c
  end;
  cbn [orb]; rewrite ?orb_true_r, ?orb_false_r; reflexivity.

Lemma parseLevels_case_on (m : gmap Level bool) (p : string) (level : Level) :
  level_on (parseLevels_case m p) level = level_on m level || token_names level p.
Proof.
  unfold parseLevels_case, token_names. cbv zeta.
  generalize (ToUpper (TrimSpace p)). intros t.
  destruct (String.eqb t "DEBUG") eqn:E1; [other_name E1 |].
  destruct (String.eqb t "INFO") eqn:E2; [other_name E2 |].
  destruct (String.eqb t "NOTICE") eqn:E3; [other_name E3 |].
  destruct (String.eqb t "WARNING") eqn:E4; [other_name E4 |].
  destruct (String.eqb t "ERROR") eqn:E5; [other_name E5 |].
  destruct (String.eqb t "CRIT") eqn:E6; [other_name E6 |].
  destruct (String.eqb t "CRITICAL") eqn:E7; [other_name E7 |].
  destruct (String.eqb t "ALERT") eqn:E8; [other_name E8 |].
  destruct (String.eqb t "EMERG") eqn:E9; [other_name E9 |].
  destruct (String.eqb t "EMERGENCY") eqn:E10; [other_name E10 |].
  destruct (String.eqb t "FATAL") eqn:E11; [other_name E11 |].
  cbn [orb]. unfold spells.
  destruct level; cbn [names existsb];
    rewrite ?E1, ?E2, ?E3, ?E4, ?E5, ?E6, ?E7, ?E8, ?E9, ?E10, ?E11;
    cbn [orb]; now rewrite orb_false_r.
Qed.

Lemma parseLevels_loop_on (tokens : list string) (m : gmap Level bool) (level : Level) :
  level_on (foldl parseLevels_case m tokens) level
  = level_on m level || existsb (token_names level) tokens.
Proof.
  revert m. induction tokens as [|p ps IH]; intros m; simpl.
  - now rewrite orb_false_r.
  - now rewrite IH, parseLevels_case_on, orb_assoc.
Qed.

Lemma parseLevels_on (value : string) (level : Level) :
  level_on (parseLevels value) level =
  if String.eqb (TrimSpace value) "" then true else lists_level value level.
Proof.
  unfold parseLevels. cbv zeta. destruct (String.eqb (TrimSpace value) "").
  - apply level_on_all.
  - now rewrite parseLevels_loop_on, level_on_empty.
Qed.

(** Letter case does not matter to the parse: upper-casing commutes with
    trimming and with splitting at commas. *)
Lemma isSpace_upper (c : ascii) : isSpace (upper c) = isSpace c.
Proof. destruct c as [[] [] [] [] [] [] [] []]; reflexivity. Qed.

Lemma upper_idem (c : ascii) : upper (upper c) = upper c.
Proof. destruct c as [[] [] [] [] [] [] [] []]; reflexivity. Qed.

Lemma upper_comma (c : ascii) : Ascii.eqb (upper c) "," = Ascii.eqb c ",".
Proof. destruct c as [[] [] [] [] [] [] [] []]; reflexivity. Qed.

Lemma ToUpper_idem (s : string) : ToUpper (ToUpper s) = ToUpper s.
Proof. induction s as [|c s IH]; simpl; [reflexivity | now rewrite upper_idem, IH]. Qed.

Lemma ToUpper_TrimLeft (s : string) : ToUpper (TrimLeft s) = TrimLeft (ToUpper s).
Proof.
  induction s as [|c s IH]; simpl; [reflexivity |].
  rewrite isSpace_upper. destruct (isSpace c); [exact IH | reflexivity].
Qed.

Lemma ToUpper_TrimRight (s : string) : ToUpper (TrimRight s) = TrimRight (ToUpper s).
Proof.
  induction s as [|c s IH]; simpl; [reflexivity |].
  rewrite <- IH, isSpace_upper.
  destruct (TrimRight s); simpl; [destruct (isSpace c) |]; reflexivity.
Qed.

Lemma ToUpper_TrimSpace (s : string) : ToUpper (TrimSpace s) = TrimSpace (ToUpper s).
Proof. unfold TrimSpace. now rewrite ToUpper_TrimRight, ToUpper_TrimLeft. Qed.

Lemma ToUpper_Split (s : string) :
  map ToUpper (Split s ",") = Split (ToUpper s) ",".
Proof.
  induction s as [|c s IH]; simpl; [reflexivity |].
  rewrite upper_comma, <- IH.
  destruct (Ascii.eqb c ","); [reflexivity |].
  destruct (Split s ","); reflexivity.
Qed.

Lemma token_names_upper (level : Level) (token : string) :
  token_names level (ToUpper token) = token_names level token.
Proof. unfold token_names. now rewrite <- ToUpper_TrimSpace, ToUpper_idem. Qed.

Lemma lists_level_upper (value : string) (level : Level) :
  lists_level (ToUpper value) level = lists_level value level.
Proof.
  unfold lists_level. rewrite <- ToUpper_TrimSpace, <- ToUpper_Split.
  induction (Split (TrimSpace value) ",") as [|p ps IH]; simpl; [reflexivity |].
  now rewrite token_names_upper, IH.
Qed.

Lemma TrimSpace_nonempty (s : string) : TrimSpace s <> ""%string -> s <> ""%string.
Proof. intros Ht ->. now apply Ht. Qed.

(** C4.  An explicit level list wins whatever the environment says: exactly
    its members are enabled, so an explicit empty list disables every
    severity.  Without an explicit list, an environment value (of ASCII
    text) that is not empty after trimming enables exactly the severities it
    lists: it is
    split at commas, every token is trimmed and compared without regard to
    case with the names of the severity ([CRIT] and [CRITICAL] for critical,
    [EMERG] and [EMERGENCY] for emergency, [WARNING] alone for warning), and
    a token that names no severity adds nothing.  An environment value that
    is empty after trimming, or unset, enables all nine severities. *)
Theorem resolveLevels_precedence (getenv : string -> string) (level : Level) :
  (forall levels,
     level_on (resolveLevels getenv (Some levels)) level = bool_decide (level ∈ levels)) /\
  level_on (resolveLevels getenv (Some [])) level = false /\
  (ascii_only (getenv "LOGGER_LEVELS") = true ->
   TrimSpace (getenv "LOGGER_LEVELS") <> ""%string ->
     level_on (resolveLevels getenv None) level
       = lists_level (getenv "LOGGER_LEVELS") level) /\
  (TrimSpace (getenv "LOGGER_LEVELS") = ""%string ->
     level_on (resolveLevels getenv None) level = true) /\
  (forall value value', ToUpper value = ToUpper value' ->
     lists_level value level = lists_level value' level).
Proof.
  split; [| split; [| split; [| split]]].
  - intros levels. apply levelsFromSlice_on.
  - apply level_on_empty.
  - intros _ Htrim. unfold resolveLevels.
    pose proof (TrimSpace_nonempty _ Htrim) as Hne.
    apply String.eqb_neq in Hne. rewrite Hne. cbn [negb].
    rewrite parseLevels_on. apply String.eqb_neq in Htrim. now rewrite Htrim.
  - intros Htrim. unfold resolveLevels.
    destruct (String.eqb (getenv "LOGGER_LEVELS") ""); cbn [negb];
      [apply level_on_all |].
    rewrite parseLevels_on, Htrim. reflexivity.
  - intros value value' Hup.
    now rewrite <- (lists_level_upper value), <- (lists_level_upper value'), Hup.
Qed.

Lemma resolveLevels_precedence_witness :
  level_on (resolveLevels (with_levels " info , Critical,EMERG,warn,,bogus") None) CritLevel
    = true /\
  level_on (resolveLevels (with_levels " info , Critical,EMERG,warn,,bogus") None) WarnLevel
    = false /\
  level_on (resolveLevels (with_levels "   ") None) DebugLevel = true /\
  lists_level "emergency" EmergLevel = lists_level "EmErGeNcY" EmergLevel.
Proof.
  pose proof (resolveLevels_precedence
                (with_levels " info , Critical,EMERG,warn,,bogus") CritLevel)
    as (_ & _ & Hcrit & _).
  pose proof (resolveLevels_precedence
                (with_levels " info , Critical,EMERG,warn,,bogus") WarnLevel)
    as (_ & _ & Hwarn & _).
  pose proof (resolveLevels_precedence (with_levels "   ") DebugLevel)
    as (_ & _ & _ & Hblank & _).
  pose proof (resolveLevels_precedence (fun _ => ""%string) EmergLevel)
    as (_ & _ & _ & _ & Hcase).
  refine (conj _ (conj _ (conj (Hblank _) (Hcase _ _ _)))).
  - rewrite Hcrit; [| vm_compute; reflexivity | vm_compute; discriminate].
    vm_compute; reflexivity.
  - rewrite Hwarn; [| vm_compute; reflexivity | vm_compute; discriminate].
    vm_compute; reflexivity.
  - vm_compute; reflexivity.
  - vm_compute; reflexivity.
Defined.

(** ** The syslog priority token *)

Lemma lines_flat (s : string) : flat (lines s) = s.
Proof.
  induction s as [|c s IH]; simpl; [reflexivity |].
  destruct (Ascii.eqb c nl); simpl; [now rewrite IH |].
  destruct (lines s) as [|l ls]; simpl in *; now rewrite <- IH.
Qed.

Lemma lines_nil (s : string) : lines s = [] -> s = ""%string.
Proof. intros Hl. rewrite <- (lines_flat s), Hl. reflexivity. Qed.

Lemma syslog_lines_by_line (prefix data : string) :
  syslog_lines prefix data =
  match lines data with
  | [] => ""%string
  | l :: ls => l +:+ flat (map (fun l => prefix +:+ l) ls)
  end.
Proof.
  induction data as [|c r IH]; [reflexivity |].
  cbn [syslog_lines lines]. destruct (Ascii.eqb c nl); cbn [andb].
  - destruct r as [|d r']; [reflexivity |].
    cbn [String.eqb negb]. rewrite IH.
    destruct (lines (String d r')) as [|l ls] eqn:El;
      [apply lines_nil in El; discriminate |].
    cbn [map flat]. simpl. now rewrite app_assoc.
  - rewrite IH. destruct (lines r) as [|l ls]; reflexivity.
Qed.

Lemma syslogPrefix_priority (level : Level) :
  syslogPrefixForLevel (level_name level) = priority level.
Proof. destruct level; reflexivity. Qed.

Lemma syslog_decor_by_line (getenv : string -> string) (level : Level) (line : string) :
  syslog_decor getenv (level_name level) (line +:+ NL) =
  if String.eqb (getenv "JOURNAL_STREAM") ""
  then line +:+ NL
  else flat (map (fun l => priority level +:+ l) (lines (line +:+ NL))).
Proof.
  unfold syslog_decor, shouldUseSyslogPrefix. rewrite syslogPrefix_priority.
  destruct (String.eqb (getenv "JOURNAL_STREAM") ""); [reflexivity |].
  replace (String.eqb (priority level) "") with false by (now destruct level).
  cbn [negb andb]. rewrite syslog_lines_by_line.
  destruct (lines (line +:+ NL)) as [|l ls] eqn:El;
    [| cbn [map flat]; now rewrite app_assoc].
  apply lines_nil in El. apply (f_equal String.length) in El.
  rewrite app_length in El. simpl in El. lia.
Qed.

(** ** A dispatch call after [Init] *)

Lemma Println_bound (c : Config) (getenv : string -> string) (h : Host)
    (level : Level) (msg : string) (w : World) :
  Println h (bound c getenv None level) msg w
  = put (console_of level) (console_copy c getenv h level msg) w.
Proof.
  unfold bound, console_copy. pose proof (console_of_is_console level) as Hc.
  destruct (Colorize c); [now apply Println_color | now apply Println_plain].
Qed.

Lemma Println_bound_file (c : Config) (getenv : string -> string) (h : Host)
    (level : Level) (msg : string) (w : World) (fd : nat) (path : string) :
  fds w !! fd = Some (path, true) ->
  Println h (bound c getenv (Some (FileOf fd)) level) msg w
  = file_append path (file_copy c h level msg)
      (put (console_of level) (console_copy c getenv h level msg) w).
Proof.
  intros Hfd. unfold bound, console_copy, file_copy.
  pose proof (console_of_is_console level) as Hc.
  destruct (Colorize c); [now apply Println_color_file | now apply Println_plain_file].
Qed.

Section AfterInit.
Context `{Printf}.

Lemma dispatch_after_Init (c : Config) (h0 : Host) (s0 s : Proc) (h : Host)
    (level : Level) (st : style) :
  since_Init c h0 s0 s ->
  level_on (enabledLevels (vars s)) level = true ->
  world (snd (dispatch level st h s)) =
  match opened c h0 (world s0) with
  | Some fd =>
      file_append (FilePath c) (file_copy c h level (tag_of c h (body st)))
        (put (console_of level)
           (console_copy c (getenv h0) h level (tag_of c h (body st))) (world s))
  | None =>
      put (console_of level)
        (console_copy c (getenv h0) h level (tag_of c h (body st))) (world s)
  end.
Proof.
  intros [Hvars Hfds] Hon. rewrite dispatch_run, Hon. cbn [snd world vars].
  unfold tagged. rewrite Hvars. unfold after_Init in *.
  rewrite Init_logger, Init_tag. fold (tag_of c h (body st)).
  destruct (opened c h0 (world s0)) as [fd|] eqn:Ho; cbn [fmap option_fmap option_map].
  - apply Println_bound_file. rewrite Hfds. now apply opened_lookup.
  - apply Println_bound.
Qed.

(** The text a call adds to its console stream and to the log file. *)
Lemma dispatch_console (c : Config) (h0 : Host) (s0 s : Proc) (h : Host)
    (level : Level) (st : style) :
  since_Init c h0 s0 s ->
  level_on (enabledLevels (vars s)) level = true ->
  seen (console_of level) (world (snd (dispatch level st h s)))
  = seen (console_of level) (world s)
    +:+ console_copy c (getenv h0) h level (tag_of c h (body st)).
Proof.
  intros Hs Hon. rewrite (dispatch_after_Init c h0 s0) by assumption.
  destruct (opened c h0 (world s0)); rewrite ?seen_file_append;
    apply seen_put, console_of_is_console.
Qed.

Lemma dispatch_file (c : Config) (h0 : Host) (s0 s : Proc) (h : Host)
    (level : Level) (st : style) (fd : nat) :
  since_Init c h0 s0 s ->
  level_on (enabledLevels (vars s)) level = true ->
  opened c h0 (world s0) = Some fd ->
  contents (world (snd (dispatch level st h s))) (FilePath c)
  = contents (world s) (FilePath c) +:+ file_copy c h level (tag_of c h (body st)).
Proof.
  intros Hs Hon Ho. rewrite (dispatch_after_Init c h0 s0) by assumption. rewrite Ho.
  now rewrite contents_file_append, contents_put.
Qed.

Lemma fds_file_append (path data : string) (w : World) :
  fds (file_append path data w) = fds w.
Proof. reflexivity. Qed.

(** Output keeps the process in such a state: a dispatch call changes
    neither the package variables nor the table of descriptors. *)
Lemma since_Init_refl (c : Config) (h0 : Host) (s0 : Proc) :
  since_Init c h0 s0 (after_Init c h0 s0).
Proof. split; reflexivity. Qed.

Lemma since_Init_dispatch (c : Config) (h0 : Host) (s0 s : Proc) (h : Host)
    (level : Level) (st : style) :
  since_Init c h0 s0 s -> since_Init c h0 s0 (snd (dispatch level st h s)).
Proof.
  intros Hs. destruct (level_on (enabledLevels (vars s)) level) eqn:Hon.
  - pose proof (dispatch_after_Init c h0 s0 s h level st Hs Hon) as Hw.
    destruct Hs as [Hvars Hfds]. split.
    + rewrite dispatch_run, Hon. exact Hvars.
    + rewrite Hw. destruct (opened c h0 (world s0));
        rewrite ?fds_file_append, fds_put; exact Hfds.
  - rewrite dispatch_run, Hon. exact Hs.
Qed.

Lemma since_Init_Api (c : Config) (h0 : Host) (s0 s : Proc) (h : Host)
    (code : Z) (msg : string) :
  since_Init c h0 s0 s -> since_Init c h0 s0 (snd (Api code msg h s)).
Proof.
  intros [Hvars Hfds]. rewrite Api_run. cbv zeta.
  destruct (level_on _ _); [| now split]. split; [exact Hvars |].
  cbn [snd world vars]. rewrite Hvars. unfold after_Init in *. rewrite Init_logger.
  destruct (opened c h0 (world s0)) as [fd|] eqn:Ho; cbn [fmap option_fmap option_map].
  - rewrite (Println_bound_file _ _ _ _ _ _ fd (FilePath c))
      by (rewrite Hfds; now apply opened_lookup).
    now rewrite fds_file_append, fds_put.
  - now rewrite Println_bound, fds_put.
Qed.

End AfterInit.

Lemma prefixed_by_line (prefix data : string) :
  data <> ""%string ->
  prefix +:+ syslog_lines prefix data = flat (map (fun l => prefix +:+ l) (lines data)).
Proof.
  intros Hne. rewrite syslog_lines_by_line.
  destruct (lines data) as [|l ls] eqn:El; [apply lines_nil in El; contradiction |].
  cbn [map flat]. now rewrite app_assoc.
Qed.

Lemma Write_syslog (h : Host) (out : Writer) (prefix data : string) (w : World) :
  is_console out -> prefix <> ""%string -> data <> ""%string ->
  Write h (syslogPrefixWriter out prefix) data w
  = (put out (flat (map (fun l => prefix +:+ l) (lines data))) w,
     (String.length data, None)).
Proof.
  intros Hout Hp Hd. cbn [Write].
  apply String.eqb_neq in Hp. rewrite Hp.
  destruct data as [|b r]; [contradiction |]. cbn [String.length Nat.eqb].
  rewrite Write_console by exact Hout.
  now rewrite prefixed_by_line by discriminate.
Qed.

(** C5.  The priority token of a severity is the fixed one of the table
    (fatal shares [<2>] with critical).  In any state since [Init], a call
    on an enabled severity puts the token on the console copy exactly when colorization is
    off and [JOURNAL_STREAM] was not empty: the console then receives every
    line of the payload with the token in front; with [JOURNAL_STREAM] empty
    it receives the line as it is, with colorization on the colored,
    timestamped line, and the file copy is the timestamped line without any
    token.  A single [Write] of a non-empty payload through the prefix
    writer hands on each line of the payload, as cut after its line feed,
    with the token in front: the token is at the start and after every line
    feed but a trailing one. *)
Theorem syslog_token_on_plain_console_lines `{Printf}
    (c : Config) (h0 : Host) (s0 s : Proc) (h : Host) (level : Level) (st : style) :
  syslogPrefixForLevel (level_name level) = priority level /\
  (since_Init c h0 s0 s -> level_on (enabledLevels (vars s)) level = true ->
   (Colorize c = false -> getenv h0 "JOURNAL_STREAM" <> ""%string ->
      seen (console_of level) (world (snd (dispatch level st h s)))
      = seen (console_of level) (world s) +:+
        flat (map (fun l => priority level +:+ l)
                (lines (plain_prefix (IncludeLevelPrefix c) (level_name level)
                        +:+ tag_of c h (body st) +:+ NL)))) /\
   (Colorize c = false -> getenv h0 "JOURNAL_STREAM" = ""%string ->
      seen (console_of level) (world (snd (dispatch level st h s)))
      = seen (console_of level) (world s) +:+
        plain_prefix (IncludeLevelPrefix c) (level_name level)
        +:+ tag_of c h (body st) +:+ NL) /\
   (Colorize c = true ->
      seen (console_of level) (world (snd (dispatch level st h s)))
      = seen (console_of level) (world s) +:+
        color_prefix (IncludeLevelPrefix c) (level_name level)
        +:+ stamp (now h) +:+ tag_of c h (body st) +:+ NL) /\
   (Colorize c = false -> forall fd, opened c h0 (world s0) = Some fd ->
      contents (world (snd (dispatch level st h s))) (FilePath c)
      = contents (world s) (FilePath c) +:+
        stamp (now h) +:+ plain_prefix (IncludeLevelPrefix c) (level_name level)
        +:+ tag_of c h (body st) +:+ NL)) /\
  (forall out prefix data w,
     is_console out -> prefix <> ""%string -> data <> ""%string ->
     Write h (syslogPrefixWriter out prefix) data w
     = (put out (flat (map (fun l => prefix +:+ l) (lines data))) w,
        (String.length data, None))).
Proof.
  split; [apply syslogPrefix_priority |].
  split; [| intros out prefix data w; apply Write_syslog].
  intros Hs Hon. repeat split.
  - intros Hplain Hj. rewrite (dispatch_console c h0 s0) by assumption.
    unfold console_copy. rewrite Hplain, <- app_assoc, syslog_decor_by_line.
    apply String.eqb_neq in Hj. now rewrite Hj.
  - intros Hplain Hj. rewrite (dispatch_console c h0 s0) by assumption.
    unfold console_copy. rewrite Hplain, <- app_assoc, syslog_decor_by_line.
    rewrite Hj. cbn [String.eqb]. now rewrite app_assoc.
  - intros Hcolor. rewrite (dispatch_console c h0 s0) by assumption.
    unfold console_copy. now rewrite Hcolor.
  - intros Hplain fd Ho. rewrite (dispatch_file c h0 s0 s h level st fd) by assumption.
    unfold file_copy. now rewrite Hplain.
Qed.

Lemma syslog_token_on_plain_console_lines_witness :
  stdout (world (snd (@dispatch verbatim InfoLevel
                        (Concatenated [AString ("first" +:+ NL +:+ "second")]) quiet
                        (after_Init all_plain journald boot))))
    = "<6>[INFO] first" +:+ NL +:+ "<6>second" +:+ NL /\
  stdout (world (snd (@dispatch verbatim InfoLevel
                        (Concatenated [AString ("first" +:+ NL +:+ "second")]) quiet
                        (after_Init all_plain quiet boot))))
    = "[INFO] first" +:+ NL +:+ "second" +:+ NL /\
  fst (Write quiet (syslogPrefixWriter Stderr "<3>") ("a" +:+ NL +:+ NL +:+ "b" +:+ NL)
         (world boot))
    = put Stderr ("<3>a" +:+ NL +:+ "<3>" +:+ NL +:+ "<3>b" +:+ NL) (world boot).
Proof.
  pose proof (@syslog_token_on_plain_console_lines verbatim all_plain journald boot
                (after_Init all_plain journald boot) quiet
                InfoLevel (Concatenated [AString ("first" +:+ NL +:+ "second")]))
    as (_ & Hjournal & _).
  pose proof (@syslog_token_on_plain_console_lines verbatim all_plain quiet boot
                (after_Init all_plain quiet boot) quiet
                InfoLevel (Concatenated [AString ("first" +:+ NL +:+ "second")]))
    as (_ & Hplain & Hwrite).
  assert (Hon1 : level_on (enabledLevels (vars (after_Init all_plain journald boot)))
                   InfoLevel = true) by (vm_compute; reflexivity).
  assert (Hon2 : level_on (enabledLevels (vars (after_Init all_plain quiet boot)))
                   InfoLevel = true) by (vm_compute; reflexivity).
  destruct (Hjournal (conj eq_refl eq_refl) Hon1) as (Htoken & _).
  destruct (Hplain (conj eq_refl eq_refl) Hon2) as (_ & Hbare & _).
  split; [| split].
  - change (stdout ?w) with (seen (console_of InfoLevel) w).
    rewrite Htoken by (reflexivity || (vm_compute; discriminate)).
    vm_compute; reflexivity.
  - change (stdout ?w) with (seen (console_of InfoLevel) w).
    rewrite Hbare by reflexivity. vm_compute; reflexivity.
  - rewrite Hwrite by ((left; reflexivity) || (right; reflexivity) || discriminate).
    vm_compute; reflexivity.
Defined.

(** ** The level token *)

Lemma level_name_token (level : Level) : level_name level = level_token level.
Proof. destruct level; reflexivity. Qed.

Lemma syslog_lines_head (prefix a b : string) :
  has nl a = false -> b <> ""%string ->
  syslog_lines prefix (a +:+ b) = a +:+ syslog_lines prefix b.
Proof.
  intros Ha Hb. induction a as [|x a IH]; [reflexivity |].
  cbn [has] in Ha. apply orb_false_iff in Ha as [Hx Ha].
  cbn [String.append syslog_lines]. rewrite Hx. cbn [andb]. now rewrite IH.
Qed.

Lemma line_nonempty (a : string) : a +:+ NL <> ""%string.
Proof.
  intros E. apply (f_equal String.length) in E. rewrite app_length in E.
  simpl in E. lia.
Qed.

Lemma bracket_no_nl (level : Level) : has nl ("[" +:+ level_name level +:+ "] ") = false.
Proof. destruct level; reflexivity. Qed.

Lemma priority_nonempty (level : Level) :
  String.eqb (syslogPrefixForLevel (level_name level)) "" = false.
Proof. destruct level; reflexivity. Qed.

Lemma console_copy_shown (c : Config) (getenv : string -> string) (h : Host)
    (level : Level) (msg : string) :
  IncludeLevelPrefix c = true ->
  console_copy c getenv h level msg =
  (if Colorize c then colors (level_name level)
   else if shouldUseSyslogPrefix getenv then priority level else "")
  +:+ "[" +:+ level_token level +:+ "]" +:+
  (if Colorize c then reset +:+ " " +:+ stamp (now h) +:+ msg +:+ NL
   else " " +:+ (if shouldUseSyslogPrefix getenv
                 then syslog_lines (priority level) (msg +:+ NL)
                 else msg +:+ NL)).
Proof.
  intros Hshow. unfold console_copy. rewrite Hshow, <- level_name_token.
  destruct (Colorize c).
  - rewrite color_prefix_shown. now rewrite !app_assoc.
  - rewrite plain_prefix_shown. unfold syslog_decor.
    rewrite priority_nonempty, syslogPrefix_priority.
    destruct (shouldUseSyslogPrefix getenv); cbn [andb negb].
    + rewrite (syslog_lines_head _ ("[" +:+ level_name level +:+ "] "))
        by (apply bracket_no_nl || apply line_nonempty).
      now rewrite !app_assoc.
    + now rewrite !app_assoc.
Qed.

Lemma console_copy_hidden (c : Config) (getenv : string -> string) (h : Host)
    (level : Level) (msg : string) :
  IncludeLevelPrefix c = false ->
  console_copy c getenv h level msg =
  if Colorize c then stamp (now h) +:+ msg +:+ NL
  else if shouldUseSyslogPrefix getenv
       then priority level +:+ syslog_lines (priority level) (msg +:+ NL)
       else msg +:+ NL.
Proof.
  intros Hshow. unfold console_copy, syslog_decor. rewrite Hshow.
  rewrite priority_nonempty, syslogPrefix_priority.
  destruct (Colorize c); [reflexivity |].
  destruct (shouldUseSyslogPrefix getenv); reflexivity.
Qed.

(** C2, as stated, fails for the critical and the emergency severity: their
    long names are [CRITICAL] and [EMERGENCY], which [parseLevels] takes in
    [LOGGER_LEVELS], but with the level prefix on [Critf] and [Emergf]
    print the short aliases, [CRIT] and [EMERG], and the long names are
    nowhere on the line. *)
Lemma critical_and_emergency_render_short_alias :
  long_name CritLevel = "CRITICAL"%string /\
  long_name EmergLevel = "EMERGENCY"%string /\
  level_on (parseLevels "CRITICAL") CritLevel = true /\
  level_on (parseLevels "EMERGENCY") EmergLevel = true /\
  IncludeLevelPrefix all_plain = true /\
  level_on (enabledLevels (vars (after_Init all_plain quiet boot))) CritLevel = true /\
  level_on (enabledLevels (vars (after_Init all_plain quiet boot))) EmergLevel = true /\
  stderr (world (snd (@dispatch verbatim CritLevel (Formatted "disk full" []) quiet
                        (after_Init all_plain quiet boot))))
    = "[CRIT] disk full" +:+ NL /\
  within "[CRITICAL]"
    (stderr (world (snd (@dispatch verbatim CritLevel (Formatted "disk full" []) quiet
                           (after_Init all_plain quiet boot))))) = false /\
  stderr (world (snd (@dispatch verbatim EmergLevel (Formatted "power lost" []) quiet
                        (after_Init all_plain quiet boot))))
    = "[EMERG] power lost" +:+ NL /\
  within "[EMERGENCY]"
    (stderr (world (snd (@dispatch verbatim EmergLevel (Formatted "power lost" []) quiet
                           (after_Init all_plain quiet boot))))) = false.
Proof. vm_compute. repeat split; reflexivity. Qed.

(** C2, amended.  In any state since an [Init] with the level-prefix flag
    set, a call on an enabled severity adds to its console stream a line
    that carries the bracketed token of the severity, [DEBUG], [INFO],
    [NOTICE], [ERROR], [CRIT], [ALERT], [EMERG] and [FATAL] as the constants
    are named and [WARNING], not [WARN], for the warning severity; only the
    color code or the syslog priority can stand before the bracket.  The
    token is always a name [parseLevels] takes for the severity, and it is
    the long name for every severity but the critical and the emergency
    one, which render under their short aliases.  With the flag unset the
    logger has an empty prefix and the line is the message, behind the
    timestamp when colorized or the syslog priority when supervised, with
    no level token added. *)
Theorem level_prefix_flag_renders_token `{Printf}
    (c : Config) (h0 : Host) (s0 s : Proc) (h : Host) (level : Level) (st : style) :
  level_token WarnLevel = "WARNING"%string /\
  (level <> WarnLevel -> level_token level = ToUpper (constant_stem level)) /\
  spells level (level_token level) = true /\
  (level_token level = long_name level <-> level <> CritLevel /\ level <> EmergLevel) /\
  (since_Init c h0 s0 s -> level_on (enabledLevels (vars s)) level = true ->
   IncludeLevelPrefix c = true ->
     seen (console_of level) (world (snd (dispatch level st h s)))
     = seen (console_of level) (world s) +:+
       (if Colorize c then colors (level_name level)
        else if shouldUseSyslogPrefix (getenv h0) then priority level else "")
       +:+ "[" +:+ level_token level +:+ "]" +:+
       (if Colorize c then reset +:+ " " +:+ stamp (now h) +:+ tag_of c h (body st) +:+ NL
        else " " +:+ (if shouldUseSyslogPrefix (getenv h0)
                      then syslog_lines (priority level) (tag_of c h (body st) +:+ NL)
                      else tag_of c h (body st) +:+ NL))) /\
  (since_Init c h0 s0 s -> level_on (enabledLevels (vars s)) level = true ->
   IncludeLevelPrefix c = false ->
     l_prefix (logger_of level (vars s)) = ""%string /\
     seen (console_of level) (world (snd (dispatch level st h s)))
     = seen (console_of level) (world s) +:+
       (if Colorize c then stamp (now h) +:+ tag_of c h (body st) +:+ NL
        else if shouldUseSyslogPrefix (getenv h0)
             then priority level +:+
                  syslog_lines (priority level) (tag_of c h (body st) +:+ NL)
             else tag_of c h (body st) +:+ NL)).
Proof.
  split; [reflexivity |]. split; [now destruct level |].
  split; [now destruct level |].
  split; [destruct level; vm_compute; intuition congruence |]. split.
  - intros Hs Hon Hshow. rewrite (dispatch_console c h0 s0) by assumption.
    now rewrite console_copy_shown by exact Hshow.
  - intros Hs Hon Hshow. split.
    + destruct Hs as [-> _]. unfold after_Init. rewrite Init_logger.
      unfold bound, newColorLogger, newPlainLogger.
      rewrite Hshow. destruct (Colorize c), (opened c h0 (world s0)); reflexivity.
    + rewrite (dispatch_console c h0 s0) by assumption.
      now rewrite console_copy_hidden by exact Hshow.
Qed.

Lemma level_prefix_flag_renders_token_witness :
  stderr (world (snd (@dispatch verbatim WarnLevel (Formatted "disk almost full" []) quiet
                        (after_Init all_plain quiet boot))))
    = "[WARNING] disk almost full" +:+ NL /\
  stderr (world (snd (@dispatch verbatim CritLevel (Formatted "disk full" []) quiet
                        (after_Init all_plain journald boot))))
    = "<2>[CRIT] disk full" +:+ NL /\
  stderr (world (snd (@dispatch verbatim WarnLevel (Formatted "disk almost full" []) quiet
                        (after_Init all_bare quiet boot))))
    = "disk almost full" +:+ NL /\
  level_token CritLevel = "CRIT"%string /\
  level_token AlertLevel = long_name AlertLevel.
Proof.
  pose proof (@level_prefix_flag_renders_token verbatim all_plain quiet boot
                (after_Init all_plain quiet boot) quiet
                WarnLevel (Formatted "disk almost full" [])) as (_ & _ & _ & _ & Hwarn & _).
  pose proof (@level_prefix_flag_renders_token verbatim all_plain journald boot
                (after_Init all_plain journald boot) quiet
                CritLevel (Formatted "disk full" [])) as (_ & Hcrit & _ & _ & Hsys & _).
  pose proof (@level_prefix_flag_renders_token verbatim all_bare quiet boot
                (after_Init all_bare quiet boot) quiet
                WarnLevel (Formatted "disk almost full" [])) as (_ & _ & _ & _ & _ & Hbare).
  pose proof (@level_prefix_flag_renders_token verbatim all_plain quiet boot
                (after_Init all_plain quiet boot) quiet
                AlertLevel (Formatted "fire" [])) as (_ & _ & _ & [_ Hlong] & _).
  split; [| split; [| split; [| split]]].
  - change (stderr ?w) with (seen (console_of WarnLevel) w).
    rewrite Hwarn; [| split; reflexivity | vm_compute; reflexivity | reflexivity].
    vm_compute; reflexivity.
  - change (stderr ?w) with (seen (console_of CritLevel) w).
    rewrite Hsys; [| split; reflexivity | vm_compute; reflexivity | reflexivity].
    vm_compute; reflexivity.
  - change (stderr ?w) with (seen (console_of WarnLevel) w).
    destruct Hbare as (_ & ->);
      [split; reflexivity | vm_compute; reflexivity | reflexivity |].
    vm_compute; reflexivity.
  - rewrite Hcrit by discriminate. vm_compute; reflexivity.
  - apply Hlong. split; discriminate.
Defined.

(** ** Disabled severities and the fatal severity *)

Lemma console_copy_nonempty (c : Config) (getenv : string -> string) (h : Host)
    (level : Level) (msg : string) :
  console_copy c getenv h level msg <> ""%string.
Proof.
  unfold console_copy. destruct (Colorize c).
  - rewrite <- !app_assoc. apply line_nonempty.
  - unfold syslog_decor.
    destruct (shouldUseSyslogPrefix getenv && _) eqn:Hsys.
    + apply andb_true_iff in Hsys as [_ Hp]. apply negb_true_iff in Hp.
      destruct (syslogPrefixForLevel (level_name level)); [discriminate Hp | discriminate].
    + rewrite <- !app_assoc. apply line_nonempty.
Qed.

(** C3.  A call for a severity other than fatal that is not enabled returns
    at once and leaves the whole process state, console and files included,
    as it was.  A call for the fatal severity always ends the process with
    exit code 1: when fatal is disabled nothing is written; when it is
    enabled the line is first printed through the [Fatal] logger, which in
    any state since [Init] means that standard error has grown by the
    console copy of the line, a text that is never empty, and that the log
    file, when [Init] opened one, has grown by the file copy. *)
Theorem disabled_is_silent_fatal_exits `{Printf}
    (level : Level) (st : style) (h : Host) (s : Proc)
    (c : Config) (h0 : Host) (s0 : Proc) :
  (level <> FatalLevel -> level_on (enabledLevels (vars s)) level = false ->
     dispatch level st h s = (Returned tt, s)) /\
  fst (dispatch FatalLevel st h s) = Exited 1%Z /\
  (level_on (enabledLevels (vars s)) FatalLevel = false ->
     snd (dispatch FatalLevel st h s) = s) /\
  (level_on (enabledLevels (vars s)) FatalLevel = true ->
     snd (dispatch FatalLevel st h s) =
       {| vars := vars s;
          world := Println h (Fatal (vars s)) (tagged h (vars s) (body st)) (world s) |}) /\
  (since_Init c h0 s0 s -> level_on (enabledLevels (vars s)) FatalLevel = true ->
     stderr (world (snd (dispatch FatalLevel st h s)))
     = stderr (world s) +:+ console_copy c (getenv h0) h FatalLevel (tag_of c h (body st)) /\
     console_copy c (getenv h0) h FatalLevel (tag_of c h (body st)) <> ""%string /\
     (forall fd, opened c h0 (world s0) = Some fd ->
        contents (world (snd (dispatch FatalLevel st h s))) (FilePath c)
        = contents (world s) (FilePath c)
          +:+ file_copy c h FatalLevel (tag_of c h (body st)))).
Proof.
  split; [| split; [| split; [| split]]].
  - rewrite dispatch_run. intros Hne Hoff. rewrite Hoff.
    destruct level; try reflexivity. now destruct Hne.
  - rewrite dispatch_run. destruct (level_on _ FatalLevel); reflexivity.
  - rewrite dispatch_run. intros ->. reflexivity.
  - rewrite dispatch_run. intros ->. reflexivity.
  - intros Hs Hon. split; [| split].
    + exact (dispatch_console c h0 s0 s h FatalLevel st Hs Hon).
    + apply console_copy_nonempty.
    + intros fd Ho. exact (dispatch_file c h0 s0 s h FatalLevel st fd Hs Hon Ho).
Qed.

Lemma disabled_is_silent_fatal_exits_witness :
  DebugLevel <> FatalLevel /\
  level_on (enabledLevels (vars (after_Init only_info quiet boot))) DebugLevel = false /\
  level_on (enabledLevels (vars (after_Init only_info quiet boot))) FatalLevel = false /\
  @dispatch verbatim DebugLevel (Concatenated [AString "dbg"]) quiet
      (after_Init only_info quiet boot)
    = (Returned tt, after_Init only_info quiet boot) /\
  snd (@dispatch verbatim FatalLevel (Concatenated [AString "dbg"]) quiet
         (after_Init only_info quiet boot))
    = after_Init only_info quiet boot /\
  level_on (enabledLevels (vars (after_Init all_plain quiet boot))) FatalLevel = true /\
  fst (@dispatch verbatim FatalLevel (Formatted "bye" []) quiet
         (after_Init all_plain quiet boot)) = Exited 1%Z /\
  stderr (world (snd (@dispatch verbatim FatalLevel (Formatted "bye" []) quiet
                        (after_Init all_plain quiet boot))))
    = "[FATAL] bye" +:+ NL /\
  contents (world (snd (@dispatch verbatim FatalLevel (Formatted "bye" []) quiet
                          (after_Init to_file quiet boot)))) "app.log"
    = "2025/10/26 10:30:45 [FATAL] bye" +:+ NL.
Proof.
  assert (Hne : DebugLevel <> FatalLevel) by discriminate.
  assert (Hd : level_on (enabledLevels (vars (after_Init only_info quiet boot))) DebugLevel
               = false) by (vm_compute; reflexivity).
  assert (Hf : level_on (enabledLevels (vars (after_Init only_info quiet boot))) FatalLevel
               = false) by (vm_compute; reflexivity).
  assert (Hon : level_on (enabledLevels (vars (after_Init all_plain quiet boot))) FatalLevel
                = true) by (vm_compute; reflexivity).
  assert (Hon' : level_on (enabledLevels (vars (after_Init to_file quiet boot))) FatalLevel
                 = true) by (vm_compute; reflexivity).
  pose proof (@disabled_is_silent_fatal_exits verbatim DebugLevel
                (Concatenated [AString "dbg"]) quiet (after_Init only_info quiet boot)
                only_info quiet boot)
    as (Hquiet & _ & Hsilent & _).
  pose proof (@disabled_is_silent_fatal_exits verbatim FatalLevel
                (Formatted "bye" []) quiet (after_Init all_plain quiet boot)
                all_plain quiet boot)
    as (_ & Hexit & _ & _ & Hline).
  pose proof (@disabled_is_silent_fatal_exits verbatim FatalLevel
                (Formatted "bye" []) quiet (after_Init to_file quiet boot)
                to_file quiet boot)
    as (_ & _ & _ & _ & Hfile).
  destruct (Hline (conj eq_refl eq_refl) Hon) as (Herr & _ & _).
  destruct (Hfile (conj eq_refl eq_refl) Hon') as (_ & _ & Hlog).
  refine (conj Hne (conj Hd (conj Hf (conj (Hquiet Hne Hd) (conj (Hsilent Hf)
            (conj Hon (conj Hexit (conj _ _)))))))).
  - rewrite Herr. vm_compute; reflexivity.
  - change "app.log"%string with (FilePath to_file).
    rewrite (Hlog 0) by (vm_compute; reflexivity). vm_compute; reflexivity.
Defined.

(** ** The stripper *)

Lemma strip_plain_head (a x : string) :
  has esc a = false -> stripANSI false (a +:+ x) = a +:+ stripANSI false x.
Proof.
  intros Ha. induction a as [|c a IH]; [reflexivity |].
  cbn [has] in Ha. apply orb_false_iff in Ha as [Hc Ha].
  cbn [String.append stripANSI]. rewrite Hc. cbn [andb]. now rewrite IH.
Qed.

Lemma strip_plain (s : string) : has esc s = false -> stripANSI false s = s.
Proof.
  intros Hs. rewrite <- (app_nil_r s) at 1.
  rewrite strip_plain_head by exact Hs. apply app_nil_r.
Qed.

Lemma strip_in_run (run b : string) :
  has "m"%char run = false ->
  stripANSI true (run +:+ "m" +:+ b) = stripANSI false b.
Proof.
  intros Hrun. induction run as [|x run IH]; [reflexivity |].
  cbn [has] in Hrun. apply orb_false_iff in Hrun as [Hx Hrun].
  cbn [String.append stripANSI]. rewrite Hx. cbn [negb].
  destruct (Ascii.eqb x esc && _); now apply IH.
Qed.

Lemma strip_run (a run b : string) :
  has esc a = false -> has "m"%char run = false ->
  stripANSI false (a +:+ ESC +:+ "[" +:+ run +:+ "m" +:+ b) = a +:+ stripANSI false b.
Proof.
  intros Ha Hrun. rewrite strip_plain_head by exact Ha. f_equal.
  change (stripANSI false (ESC +:+ "[" +:+ run +:+ "m" +:+ b))
    with (stripANSI true (run +:+ "m" +:+ b)).
  now apply strip_in_run.
Qed.

Lemma digit_not_esc (k : nat) : Ascii.eqb (digit k) esc = false.
Proof.
  unfold digit. pose proof (Nat.mod_upper_bound k 10 ltac:(lia)) as Hk.
  destruct (k mod 10) as [|d]; [reflexivity |].
  do 9 (destruct d as [|d]; [reflexivity |]). lia.
Qed.

Lemma itoa_loop_no_esc (room i wid : nat) (acc : string) :
  has esc (itoa_loop room i wid acc) = has esc acc.
Proof.
  revert i wid acc. induction room as [|room IH]; intros i wid acc; cbn [itoa_loop].
  - cbn [has]. now rewrite digit_not_esc.
  - destruct ((10 <=? i) || (1 <? wid)).
    + rewrite IH. cbn [has]. now rewrite digit_not_esc.
    + cbn [has]. now rewrite digit_not_esc.
Qed.

Lemma stamp_no_esc (t : Time) : has esc (stamp t) = false.
Proof.
  unfold stamp, zpad. rewrite !has_app, !itoa_loop_no_esc.
  vm_compute; reflexivity.
Qed.

Lemma strip_color_prefix (show : bool) (level : Level) (rest : string) :
  stripANSI false (color_prefix show (level_name level) +:+ rest)
  = plain_prefix show (level_name level) +:+ stripANSI false rest.
Proof. destruct show, level; reflexivity. Qed.

Lemma plain_prefix_no_esc (show : bool) (level : Level) :
  has esc (plain_prefix show (level_name level)) = false.
Proof. destruct show, level; reflexivity. Qed.

Lemma color_prefix_has_escape (level : Level) (rest : string) :
  within (ESC +:+ "[") (color_prefix true (level_name level) +:+ rest) = true.
Proof. destruct level; reflexivity. Qed.

(** ** Timestamps on the console and in the file *)

Lemma tag_of_at_time (c : Config) (t : Time) (h : Host) (msg : string) :
  tag_of c (at_time t h) msg = tag_of c h msg.
Proof. reflexivity. Qed.

(** C1, as stated, fails on a colorized logger: [newColorLogger] gives the
    logger [log.LstdFlags], so the console line carries the date and time,
    and with the level prefix on the file copy begins with the bracket, not
    with the timestamp. *)
Lemma colorized_console_is_timestamped :
  stdout (world (snd (@dispatch verbatim InfoLevel (Formatted "hello" []) quiet
                        (after_Init colored_bare quiet boot))))
    = "2025/10/26 10:30:45 hello" +:+ NL /\
  date_shaped (stdout (world (snd (@dispatch verbatim InfoLevel (Formatted "hello" []) quiet
                                     (after_Init colored_bare quiet boot))))) = true /\
  contents (world (snd (@dispatch verbatim InfoLevel (Formatted "hello" []) quiet
                          (after_Init colored_to_file quiet boot)))) "app.log"
    = "[INFO] 2025/10/26 10:30:45 hello" +:+ NL /\
  date_shaped (contents (world (snd (@dispatch verbatim InfoLevel (Formatted "hello" []) quiet
                                       (after_Init colored_to_file quiet boot)))) "app.log")
    = false.
Proof. vm_compute. repeat split; reflexivity. Qed.

(** C1, amended.  In any state since [Init], with colorization off, a call
    on an enabled severity adds to its console stream the line without any timestamp, whether or not a
    file is configured: the level prefix, the message and a line feed, with
    the syslog tokens when supervised, and the same text whatever the clock
    says.  When the log file was opened, the same call appends to the file
    the timestamp followed by the level prefix, the message and a line
    feed, which begins with [YYYY/MM/DD HH:MM:SS ] for a calendar time.
    With colorization on, the console line and the file copy both carry the
    timestamp behind the level prefix; the file copy has the plain prefix
    and the message after a pass of the stripper. *)
Theorem plain_console_untimed_file_timed `{Printf}
    (c : Config) (h0 : Host) (s0 s : Proc) (h : Host) (level : Level) (st : style) :
  since_Init c h0 s0 s ->
  level_on (enabledLevels (vars s)) level = true ->
  (Colorize c = false ->
     seen (console_of level) (world (snd (dispatch level st h s)))
     = seen (console_of level) (world s) +:+
       syslog_decor (getenv h0) (level_name level)
         (plain_prefix (IncludeLevelPrefix c) (level_name level)
          +:+ tag_of c h (body st) +:+ NL) /\
     (forall t,
        seen (console_of level)
          (world (snd (dispatch level st (at_time t h) s)))
        = seen (console_of level) (world (snd (dispatch level st h s)))) /\
     (forall fd, opened c h0 (world s0) = Some fd ->
        contents (world (snd (dispatch level st h s))) (FilePath c)
        = contents (world s) (FilePath c) +:+
          stamp (now h) +:+ plain_prefix (IncludeLevelPrefix c) (level_name level)
          +:+ tag_of c h (body st) +:+ NL /\
        (civil (now h) ->
           date_shaped (stamp (now h) +:+ plain_prefix (IncludeLevelPrefix c) (level_name level)
                        +:+ tag_of c h (body st) +:+ NL) = true))) /\
  (Colorize c = true ->
     seen (console_of level) (world (snd (dispatch level st h s)))
     = seen (console_of level) (world s) +:+
       color_prefix (IncludeLevelPrefix c) (level_name level)
       +:+ stamp (now h) +:+ tag_of c h (body st) +:+ NL /\
     (forall fd, opened c h0 (world s0) = Some fd ->
        contents (world (snd (dispatch level st h s))) (FilePath c)
        = contents (world s) (FilePath c) +:+
          plain_prefix (IncludeLevelPrefix c) (level_name level)
          +:+ stamp (now h) +:+ stripANSI false (tag_of c h (body st) +:+ NL))).
Proof.
  intros Hs Hon. split.
  - intros Hplain. split; [| split].
    + rewrite (dispatch_console c h0 s0) by assumption.
      unfold console_copy. now rewrite Hplain.
    + intros t. rewrite !(dispatch_console c h0 s0) by assumption.
      unfold console_copy. now rewrite Hplain, tag_of_at_time.
    + intros fd Ho. split.
      * rewrite (dispatch_file c h0 s0 s h level st fd) by assumption.
        unfold file_copy. now rewrite Hplain.
      * intros Hcivil. now apply stamp_shaped.
  - intros Hcolor. split.
    + rewrite (dispatch_console c h0 s0) by assumption.
      unfold console_copy. now rewrite Hcolor.
    + intros fd Ho. rewrite (dispatch_file c h0 s0 s h level st fd) by assumption.
      unfold file_copy. rewrite Hcolor, strip_color_prefix.
      now rewrite strip_plain_head by apply stamp_no_esc.
Qed.

Lemma plain_console_untimed_file_timed_witness :
  let s1 := snd (@dispatch verbatim DebugLevel (Formatted "starting" []) quiet
                   (after_Init to_file quiet boot)) in
  since_Init to_file quiet boot s1 /\
  stdout (world (snd (@dispatch verbatim InfoLevel (Formatted "hello" []) quiet s1)))
    = "[DEBUG] starting" +:+ NL +:+ "[INFO] hello" +:+ NL /\
  contents (world (snd (@dispatch verbatim InfoLevel (Formatted "hello" []) quiet s1)))
    "app.log"
    = "2025/10/26 10:30:45 [DEBUG] starting" +:+ NL +:+
      "2025/10/26 10:30:45 [INFO] hello" +:+ NL /\
  date_shaped (stamp (now quiet) +:+ "[INFO] hello" +:+ NL) = true.
Proof.
  intros s1.
  assert (Hs : since_Init to_file quiet boot s1) by (split; vm_compute; reflexivity).
  assert (Hon : level_on (enabledLevels (vars s1)) InfoLevel = true)
    by (vm_compute; reflexivity).
  assert (Ho : opened to_file quiet (world boot) = Some 0) by reflexivity.
  destruct (@plain_console_untimed_file_timed verbatim to_file quiet boot s1 quiet InfoLevel
              (Formatted "hello" []) Hs Hon) as (Hplain & _).
  destruct (Hplain eq_refl) as (Hconsole & _ & Hfile).
  destruct (Hfile 0 Ho) as (Hcopy & Hshape).
  split; [exact Hs | split; [| split]].
  - change (stdout ?w) with (seen (console_of InfoLevel) w).
    rewrite Hconsole. vm_compute; reflexivity.
  - change "app.log"%string with (FilePath to_file).
    rewrite Hcopy. vm_compute; reflexivity.
  - apply Hshape. unfold civil; simpl; lia.
Defined.

(** ** Color stripping for the file copy *)

(** C6, as stated, fails twice.  With the level-prefix flag unset a colorized
    logger writes no escape sequence at all, so the console line of such a
    call has none.  And the stripper makes one pass: in a message with the
    bytes ESC ESC [ m [ 3 1 m the first ESC is kept, the run from the second
    ESC to the first m is dropped, and what is left in the file is the
    escape sequence ESC [ 3 1 m. *)
Lemma colorized_file_copy_not_always_clean :
  has esc (stdout (world (snd (@dispatch verbatim InfoLevel (Formatted "hello" []) quiet
                                 (after_Init colored_file_bare quiet boot))))) = false /\
  contents (world (snd (@dispatch verbatim InfoLevel
                          (Concatenated [AString (ESC +:+ ESC +:+ "[m[31mred")]) quiet
                          (after_Init colored_to_file quiet boot)))) "app.log"
    = "[INFO] 2025/10/26 10:30:45 " +:+ ESC +:+ "[31mred" +:+ NL /\
  within (ESC +:+ "[")
    (contents (world (snd (@dispatch verbatim InfoLevel
                             (Concatenated [AString (ESC +:+ ESC +:+ "[m[31mred")]) quiet
                             (after_Init colored_to_file quiet boot)))) "app.log") = true.
Proof. vm_compute. repeat split; reflexivity. Qed.

(** C6, amended.  In any state since an [Init] with colorization on that
    opened the log file, the file copy of a call is its console line after one pass of the stripper,
    in which a byte pair ESC [ starts a run that is dropped up to and
    including the next m.  With the level-prefix flag set the console line
    contains an escape sequence.  When the message as tagged has no ESC
    byte, the file copy has no ESC byte: it is the plain level prefix, the
    timestamp, the message and a line feed. *)
Theorem colorized_file_copy_is_stripped `{Printf}
    (c : Config) (h0 : Host) (s0 s : Proc) (h : Host) (level : Level) (st : style)
    (fd : nat) :
  since_Init c h0 s0 s ->
  Colorize c = true ->
  opened c h0 (world s0) = Some fd ->
  level_on (enabledLevels (vars s)) level = true ->
  exists line,
    seen (console_of level) (world (snd (dispatch level st h s)))
      = seen (console_of level) (world s) +:+ line /\
    contents (world (snd (dispatch level st h s))) (FilePath c)
      = contents (world s) (FilePath c) +:+ stripANSI false line /\
    (IncludeLevelPrefix c = true -> within (ESC +:+ "[") line = true) /\
    (has esc (tag_of c h (body st)) = false ->
       stripANSI false line
         = plain_prefix (IncludeLevelPrefix c) (level_name level)
           +:+ stamp (now h) +:+ tag_of c h (body st) +:+ NL /\
       has esc (stripANSI false line) = false) /\
    (forall a run b, has esc a = false -> has "m"%char run = false ->
       stripANSI false (a +:+ ESC +:+ "[" +:+ run +:+ "m" +:+ b) = a +:+ stripANSI false b).
Proof.
  intros Hs Hcolor Ho Hon.
  exists (color_prefix (IncludeLevelPrefix c) (level_name level)
          +:+ stamp (now h) +:+ tag_of c h (body st) +:+ NL).
  split; [| split; [| split; [| split]]].
  - rewrite (dispatch_console c h0 s0) by assumption.
    unfold console_copy. now rewrite Hcolor.
  - rewrite (dispatch_file c h0 s0 s h level st fd) by assumption.
    unfold file_copy. now rewrite Hcolor.
  - intros ->. apply color_prefix_has_escape.
  - intros Hmsg.
    assert (Hrest : has esc (stamp (now h) +:+ tag_of c h (body st) +:+ NL) = false)
      by (rewrite !has_app, stamp_no_esc, Hmsg; reflexivity).
    rewrite strip_color_prefix, (strip_plain _ Hrest). split; [reflexivity |].
    now rewrite has_app, plain_prefix_no_esc, Hrest.
  - intros a run b. apply strip_run.
Qed.

Lemma colorized_file_copy_is_stripped_witness :
  exists line,
    stderr (world (snd (@dispatch verbatim ErrorLevel (Formatted "boom" []) quiet
                          (after_Init colored_to_file quiet boot)))) = line /\
    within (ESC +:+ "[") line = true /\
    contents (world (snd (@dispatch verbatim ErrorLevel (Formatted "boom" []) quiet
                            (after_Init colored_to_file quiet boot)))) "app.log"
      = "[ERROR] 2025/10/26 10:30:45 boom" +:+ NL.
Proof.
  assert (Hon : level_on (enabledLevels (vars (after_Init colored_to_file quiet boot)))
                  ErrorLevel = true) by (vm_compute; reflexivity).
  destruct (@colorized_file_copy_is_stripped verbatim colored_to_file quiet boot
              (after_Init colored_to_file quiet boot) quiet
              ErrorLevel (Formatted "boom" []) 0 (conj eq_refl eq_refl) eq_refl eq_refl Hon)
    as (line & Hconsole & Hfile & Hescape & Hclean & _).
  exists line. split; [| split].
  - change (stderr ?w) with (seen (console_of ErrorLevel) w). rewrite Hconsole. reflexivity.
  - apply Hescape. reflexivity.
  - change "app.log"%string with (FilePath colored_to_file). rewrite Hfile.
    destruct Hclean as (-> & _); [vm_compute; reflexivity |]. vm_compute; reflexivity.
Defined.


(** ** The models on small inputs, and tests of the package replayed *)

Example Split_commas : Split "a,b,,c" "," = ["a"; "b"; ""; "c"]%string.
Proof. reflexivity. Qed.

Example Split_empty : Split "" "," = [""%string].
Proof. reflexivity. Qed.

Example TrimSpace_both_ends :
  TrimSpace ("  a b " +:+ String (ascii_of_nat 9) "" +:+ NL) = "a b"%string.
Proof. reflexivity. Qed.

Example ToUpper_mixed : ToUpper "Crit-1" = "CRIT-1"%string.
Proof. reflexivity. Qed.

Example zpad_pads : zpad 7 2 = "07"%string /\ zpad 2025 4 = "2025"%string /\
                    zpad 0 2 = "00"%string /\ zpad 123 2 = "123"%string.
Proof. repeat split; reflexivity. Qed.

Example stamp_autumn : stamp autumn = "2025/10/26 10:30:45 "%string.
Proof. reflexivity. Qed.

Example Sprint_spacing :
  Sprint [AString "a"; AInt 1; AInt 2; AString "b"; ABool true] = "a1 2btrue"%string.
Proof. reflexivity. Qed.

Example stripANSI_colored_bracket :
  stripANSI false (ESC +:+ "[36m[DEBUG]" +:+ ESC +:+ "[0m hello") = "[DEBUG] hello"%string.
Proof. reflexivity. Qed.

Example stripANSI_unfinished_run :
  stripANSI false ("ab" +:+ ESC +:+ "[31 and the rest" +:+ NL) = "ab"%string.
Proof. reflexivity. Qed.

Example getCallerInfo_strips_path :
  getCallerInfo
    {| getenv := fun _ => ""%string; now := autumn;
       open_failure := fun _ => None; close_failure := fun _ => None;
       caller_at := fun depth =>
         if depth =? 3 then Some (Some "github.com/acme/app/main.run"%string, 15%Z)
         else None |} 3
  = "main.run:15"%string.
Proof. reflexivity. Qed.

(** [TestStdout_NoTimestamps]. *)
Example replay_stdout_no_timestamps :
  let out := stdout (world (snd (Infoln [AString "no timestamp expected"] quiet
                                   (after_Init
                                      {| Levels := Some [InfoLevel]; Colorize := false;
                                         FilePath := ""; IncludeLevelPrefix := true;
                                         IncludeCallerTag := false |} quiet boot)))) in
  starts "[INFO] " out = true /\ date_shaped out = false.
Proof. vm_compute. split; reflexivity. Qed.

(** [TestSyslogPrefixWhenJournalStreamSet]. *)
Example replay_syslog_prefix :
  starts "<7>[DEBUG] "
    (stdout (world (snd (@Debugf verbatim "dbg" [] journald
                           (after_Init
                              {| Levels := Some [DebugLevel]; Colorize := false;
                                 FilePath := ""; IncludeLevelPrefix := true;
                                 IncludeCallerTag := false |} journald boot)))))
  = true.
Proof. vm_compute. reflexivity. Qed.

(** [TestFileLogging_Timestamps]. *)
Example replay_file_timestamps :
  let log := contents (world (snd (@Infof verbatim "plain info" [] quiet
                                     (after_Init
                                        {| Levels := Some [InfoLevel]; Colorize := false;
                                           FilePath := "prod-ts.log";
                                           IncludeLevelPrefix := true;
                                           IncludeCallerTag := false |} quiet boot))))
                      "prod-ts.log" in
  date_shaped log = true /\ within "[INFO]" log = true.
Proof. vm_compute. split; reflexivity. Qed.

(** [TestFileLogging_ColorizedStripsAnsi]. *)
Example replay_colorized_strips_ansi :
  let s1 := after_Init colored_to_file quiet boot in
  let s2 := snd (@Infof verbatim "test info message" [] quiet s1) in
  let s3 := snd (Warnln [AString "test warning"] quiet s2) in
  let s4 := snd (ErrorKV "test error" [AString "key"; AString "value"] quiet s3) in
  let log := contents (world s4) "app.log" in
  within "test info message" log = true /\ within "test warning" log = true /\
  within "test error key=value" log = true /\
  within "[INFO]" log = true /\ within "[WARNING]" log = true /\
  within "[ERROR]" log = true /\ within (ESC +:+ "[") log = false.
Proof. vm_compute. repeat split; reflexivity. Qed.

(** [TestFileLogging_Append] and [TestFileLogging_Close]. *)
Example replay_append_and_close :
  let c := {| Levels := Some [InfoLevel]; Colorize := false; FilePath := "append.log";
              IncludeLevelPrefix := false; IncludeCallerTag := false |} in
  let s1 := snd (@Infof verbatim "first message" [] quiet (after_Init c quiet boot)) in
  let r1 := Close quiet s1 in
  let r2 := Close quiet (snd r1) in
  let s2 := snd (@Infof verbatim "second message" [] quiet (after_Init c quiet (snd r2))) in
  fst r1 = Returned None /\ fst r2 = Returned None /\
  contents (world s2) "append.log"
    = "2025/10/26 10:30:45 first message" +:+ NL +:+
      "2025/10/26 10:30:45 second message" +:+ NL.
Proof. vm_compute. repeat split; reflexivity. Qed.

(** [TestFileLogging_InvalidPath], on a process that holds no file. *)
Example replay_invalid_path :
  let c := {| Levels := Some [InfoLevel]; Colorize := false;
              FilePath := "/nonexistent/directory/test.log";
              IncludeLevelPrefix := false; IncludeCallerTag := false |} in
  let s1 := after_Init c locked boot in
  logFile (vars s1) = None /\
  stderr (world s1)
    = "failed to open log file /nonexistent/directory/test.log: permission denied" +:+ NL /\
  stdout (world (snd (@Infof verbatim "test message" [] locked s1))) = "test message" +:+ NL.
Proof. vm_compute. repeat split; reflexivity. Qed.

(** * Further properties of the package *)

(** ** Output is never lost *)

Lemma extends_refl (a : string) : extends a a.
Proof. exists ""%string. now rewrite app_nil_r. Qed.

Lemma extends_app (a more : string) : extends a (a +:+ more).
Proof. now exists more. Qed.

Lemma extends_trans (a b c : string) : extends a b -> extends b c -> extends a c.
Proof. intros [x ->] [y ->]. exists (x +:+ y). now rewrite app_assoc. Qed.

Lemma keeps_output_refl (w : World) : keeps_output w w.
Proof. repeat split; intros; apply extends_refl. Qed.

Lemma keeps_output_trans (a b c : World) :
  keeps_output a b -> keeps_output b c -> keeps_output a c.
Proof.
  intros (H1 & H2 & H3) (K1 & K2 & K3). repeat split; intros;
    eapply extends_trans; eauto.
Qed.

Lemma file_write_keeps (fd : nat) (data : string) (w : World) :
  keeps_output w (fst (file_write fd data w)) /\ fds (fst (file_write fd data w)) = fds w.
Proof.
  unfold file_write. destruct (fds w !! fd) as [[path [|]]|];
    try (split; [apply keeps_output_refl | reflexivity]).
  split; [| reflexivity]. split; [apply extends_refl | split; [apply extends_refl |]].
  intros p. unfold contents at 2. cbn [files fst].
  destruct (decide (path = p)) as [-> | Hne].
  - rewrite lookup_insert_eq. apply extends_app.
  - rewrite lookup_insert_ne by exact Hne. apply extends_refl.
Qed.

(** Every writer the package builds only adds to the consoles and files,
    and leaves the table of descriptors alone. *)
Lemma Write_keeps (h : Host) (wr : Writer) (data : string) (w : World) :
  keeps_output w (fst (Write h wr data w)) /\ fds (fst (Write h wr data w)) = fds w.
Proof.
  revert data w. induction wr as [| | | fd | w1 IH1 w2 IH2 | w0 IH prefix | w0 IH level | w0 IH];
    intros data w; cbn [Write].
  - split; [apply keeps_output_refl | reflexivity].
  - split; [| reflexivity].
    split; [now exists data | split; [apply extends_refl | intros; apply extends_refl]].
  - split; [| reflexivity].
    split; [apply extends_refl | split; [now exists data | intros; apply extends_refl]].
  - apply file_write_keeps.
  - destruct (IH1 data w) as [K1 F1].
    destruct (Write h w1 data w) as [w' [n [e|]]]; cbn [fst] in *; [now split |].
    destruct (negb (n =? String.length data)); cbn [fst]; [now split |].
    destruct (IH2 data w') as [K2 F2].
    destruct (Write h w2 data w') as [w'' [n2 [e|]]]; cbn [fst] in *.
    + split; [eapply keeps_output_trans; eauto | congruence].
    + destruct (negb (n2 =? String.length data)); cbn [fst];
        (split; [eapply keeps_output_trans; eauto | congruence]).
  - destruct (String.eqb prefix ""); [apply IH |].
    destruct (String.length data =? 0); [split; [apply keeps_output_refl | reflexivity] |].
    destruct (IH (prefix +:+ syslog_lines prefix data) w) as [K F].
    destruct (Write h w0 (prefix +:+ syslog_lines prefix data) w) as [w' [n [e|]]];
      cbn [fst] in *; now split.
  - apply IH.
  - apply IH.
Qed.

Lemma Println_keeps (h : Host) (l : Logger) (msg : string) (w : World) :
  keeps_output w (Println h l msg w) /\ fds (Println h l msg w) = fds w.
Proof. unfold Println. apply Write_keeps. Qed.

Lemma Init_keeps (c : Config) (h : Host) (s : Proc) :
  keeps_output (world s) (world (snd (Init c h s))).
Proof.
  split; [| split].
  - run_Init c h s; apply extends_refl.
  - run_Init c h s; try apply extends_refl; apply extends_app.
  - intros path. rewrite Init_files. apply extends_refl.
Qed.

Lemma Close_keeps (h : Host) (s : Proc) : keeps_output (world s) (world (snd (Close h s))).
Proof.
  rewrite Close_run. destruct (logFile (vars s)) as [fd|]; [| apply keeps_output_refl].
  cbn [snd world]. unfold file_close.
  destruct (fds (world s) !! fd) as [[path [|]]|]; cbn [fst]; try apply keeps_output_refl.
  repeat split; intros; apply extends_refl.
Qed.

Section Growth.
Context `{Printf}.

Lemma dispatch_keeps (level : Level) (st : style) (h : Host) (s : Proc) :
  vars (snd (dispatch level st h s)) = vars s /\
  fds (world (snd (dispatch level st h s))) = fds (world s) /\
  keeps_output (world s) (world (snd (dispatch level st h s))).
Proof.
  rewrite dispatch_run. destruct (level_on _ _); cbn [snd vars world].
  - split; [reflexivity |]. split; apply Println_keeps.
  - split; [reflexivity |]. split; [reflexivity | apply keeps_output_refl].
Qed.

Lemma Api_keeps (code : Z) (msg : string) (h : Host) (s : Proc) :
  vars (snd (Api code msg h s)) = vars s /\
  fds (world (snd (Api code msg h s))) = fds (world s) /\
  keeps_output (world s) (world (snd (Api code msg h s))).
Proof.
  rewrite Api_run. cbv zeta. destruct (level_on _ _); cbn [snd vars world].
  - split; [reflexivity |]. split; apply Println_keeps.
  - split; [reflexivity |]. split; [reflexivity | apply keeps_output_refl].
Qed.

Lemma perform_keeps (k : call) (h : Host) (s : Proc) :
  keeps_output (world s) (world (snd (perform k h s))).
Proof.
  destruct k as [c | | level st | code msg]; cbn [perform].
  - apply Init_keeps.
  - unfold mbind, M_bind, mret, M_ret. pose proof (Close_keeps h s) as K.
    destruct (Close h s) as [[e | code] s']; exact K.
  - apply dispatch_keeps.
  - apply Api_keeps.
Qed.

(** X1.  Whatever calls a program makes on the package, in whatever state
    and on whatever hosts, the text that has reached standard output,
    standard error and every file stays where it is: each of them only ever
    gets more text behind what it had.  No call truncates or rewrites
    output. *)
Theorem run_never_loses_output (ks : list (call * Host)) (s : Proc) :
  keeps_output (world s) (world (run ks s)).
Proof.
  revert s. induction ks as [| [k h] rest IH]; intros s; cbn [run].
  - apply keeps_output_refl.
  - pose proof (perform_keeps k h s) as K.
    destruct (perform k h s) as [[u | code] s']; cbn [snd] in K; [| exact K].
    eapply keeps_output_trans; [exact K | apply IH].
Qed.

(** X2.  A dispatch call of any severity and style, and a call of [Api],
    changes neither the package variables nor the table of open files, in
    any state of the process: the loggers, the enabled set, the stored file
    handle and the caller-tag flag are only ever set by [Init] and
    [Close]. *)
Theorem dispatch_leaves_variables_alone (level : Level) (st : style) (code : Z)
    (msg : string) (h : Host) (s : Proc) :
  vars (snd (dispatch level st h s)) = vars s /\
  fds (world (snd (dispatch level st h s))) = fds (world s) /\
  vars (snd (Api code msg h s)) = vars s /\
  fds (world (snd (Api code msg h s))) = fds (world s).
Proof.
  destruct (dispatch_keeps level st h s) as (V & F & _).
  destruct (Api_keeps code msg h s) as (V' & F' & _). now repeat split.
Qed.

End Growth.

(** ** What a call reads from the host *)

Lemma Write_same_clock (h h' : Host) (wr : Writer) (data : string) (w : World) :
  now h = now h' -> Write h wr data w = Write h' wr data w.
Proof.
  intros Hnow. revert data w.
  induction wr as [| | | fd | w1 IH1 w2 IH2 | w0 IH prefix | w0 IH level | w0 IH];
    intros data w; cbn [Write]; try reflexivity.
  - rewrite IH1. destruct (Write h' w1 data w) as [w' [n [e|]]]; [reflexivity |].
    destruct (negb _); [reflexivity |]. now rewrite IH2.
  - now rewrite !IH.
  - apply IH.
  - rewrite Hnow. apply IH.
Qed.

Section HostFacts.
Context `{Printf}.

(** X3.  A dispatch call reads the host only for the time and for the
    caller's frame: on two hosts that agree on these it does the same, in
    any state, however their environment variables and file systems
    differ.  [LOGGER_LEVELS] and [JOURNAL_STREAM] are consulted by [Init]
    alone, so changing them afterwards changes nothing until the next
    [Init]. *)
Theorem dispatch_reads_only_clock_and_stack (level : Level) (st : style)
    (h h' : Host) (s : Proc) :
  now h = now h' -> caller_at h 3 = caller_at h' 3 ->
  dispatch level st h s = dispatch level st h' s.
Proof.
  intros Hnow Hstack. rewrite !dispatch_run.
  destruct (level_on _ _); [| reflexivity].
  unfold tagged, getCallerInfo, Println. rewrite Hstack, Hnow.
  now rewrite (Write_same_clock h h') by exact Hnow.
Qed.

End HostFacts.

Lemma dispatch_reads_only_clock_and_stack_witness :
  @dispatch verbatim InfoLevel (Formatted "hello" []) journald
    (after_Init all_plain quiet boot)
  = @dispatch verbatim InfoLevel (Formatted "hello" []) quiet
      (after_Init all_plain quiet boot).
Proof.
  apply (@dispatch_reads_only_clock_and_stack verbatim); reflexivity.
Defined.

(** ** Before [Init] *)

Section BeforeInit.
Context `{Printf}.

(** X4.  Before any [Init] the nine loggers write to [io.Discard] and every
    severity is enabled: a dispatch call then runs and leaves the process
    state as it was, nothing reaching a console or a file, and a call for
    the fatal severity exits with code 1 just as silently. *)
Theorem dispatch_before_Init_is_discarded (level : Level) (st : style) (h : Host)
    (s : Proc) :
  vars s = initial_globals ->
  dispatch level st h s = (ending level, s).
Proof.
  intros Hvars. rewrite dispatch_run, Hvars. rewrite level_on_all.
  destruct s as [g w]. cbn [vars world] in *. subst g.
  destruct level; reflexivity.
Qed.

End BeforeInit.

Lemma dispatch_before_Init_is_discarded_witness :
  @dispatch verbatim ErrorLevel (Formatted "lost" []) quiet boot = (Returned tt, boot) /\
  @dispatch verbatim FatalLevel (Formatted "lost" []) quiet boot = (Exited 1%Z, boot).
Proof.
  split.
  - apply (@dispatch_before_Init_is_discarded verbatim ErrorLevel). reflexivity.
  - apply (@dispatch_before_Init_is_discarded verbatim FatalLevel). reflexivity.
Defined.

(** ** Routing to the console streams *)

Lemma other_stream_put (out : Writer) (data : string) (w : World) :
  (out = Stdout -> stderr (put out data w) = stderr w) /\
  (out = Stderr -> stdout (put out data w) = stdout w).
Proof. split; intros ->; reflexivity. Qed.

Section Routing.
Context `{Printf}.

(** X5.  In any state since [Init], the debug, info and notice severities
    write to standard output and leave standard error untouched; warning,
    error, critical, alert, emergency and fatal write to standard error and
    leave standard output untouched, whether the severity is enabled or
    not and with or without a log file. *)
Theorem dispatch_routes_by_severity (c : Config) (h0 : Host) (s0 s : Proc) (h : Host)
    (level : Level) (st : style) :
  since_Init c h0 s0 s ->
  (level = DebugLevel \/ level = InfoLevel \/ level = NoticeLevel ->
     console_of level = Stdout /\
     stderr (world (snd (dispatch level st h s))) = stderr (world s)) /\
  (level <> DebugLevel -> level <> InfoLevel -> level <> NoticeLevel ->
     console_of level = Stderr /\
     stdout (world (snd (dispatch level st h s))) = stdout (world s)).
Proof.
  intros Hs.
  assert (Hother :
    (console_of level = Stdout ->
       stderr (world (snd (dispatch level st h s))) = stderr (world s)) /\
    (console_of level = Stderr ->
       stdout (world (snd (dispatch level st h s))) = stdout (world s))).
  { destruct (level_on (enabledLevels (vars s)) level) eqn:Hon.
    - rewrite (dispatch_after_Init c h0 s0) by assumption.
      destruct (opened c h0 (world s0)); apply other_stream_put.
    - rewrite dispatch_run, Hon. now split. }
  destruct Hother as [Hout Herr]. split.
  - intros Hl. assert (Hc : console_of level = Stdout) by (destruct Hl as [-> | [-> | ->]]; reflexivity).
    split; [exact Hc | now apply Hout].
  - intros H1 H2 H3. assert (Hc : console_of level = Stderr) by (now destruct level).
    split; [exact Hc | now apply Herr].
Qed.

End Routing.

Lemma dispatch_routes_by_severity_witness :
  stderr (world (snd (@dispatch verbatim NoticeLevel (Formatted "note" []) quiet
                        (after_Init all_plain quiet boot)))) = ""%string /\
  stdout (world (snd (@dispatch verbatim NoticeLevel (Formatted "note" []) quiet
                        (after_Init all_plain quiet boot)))) = "[NOTICE] note" +:+ NL /\
  stdout (world (snd (@dispatch verbatim AlertLevel (Formatted "fire" []) quiet
                        (after_Init all_plain quiet boot)))) = ""%string.
Proof.
  destruct (@dispatch_routes_by_severity verbatim all_plain quiet boot
              (after_Init all_plain quiet boot) quiet NoticeLevel (Formatted "note" [])
              (conj eq_refl eq_refl)) as (Hlow & _).
  destruct (@dispatch_routes_by_severity verbatim all_plain quiet boot
              (after_Init all_plain quiet boot) quiet AlertLevel (Formatted "fire" [])
              (conj eq_refl eq_refl)) as (_ & Hhigh).
  destruct (Hlow (or_intror (or_intror eq_refl))) as (_ & Herr).
  destruct (Hhigh ltac:(discriminate) ltac:(discriminate) ltac:(discriminate))
    as (_ & Hout).
  split; [| split].
  - rewrite Herr. reflexivity.
  - vm_compute; reflexivity.
  - rewrite Hout. reflexivity.
Defined.

(** ** Logging after [Close] *)

Lemma file_write_closed (fd : nat) (path data : string) (w : World) :
  fds w !! fd = Some (path, false) ->
  file_write fd data w = (w, (0, Some ErrClosed)).
Proof. intros Hfd. unfold file_write. now rewrite Hfd. Qed.

Lemma Println_bound_file_closed (c : Config) (getenv : string -> string) (h : Host)
    (level : Level) (msg : string) (w : World) (fd : nat) (path : string) :
  fds w !! fd = Some (path, false) ->
  Println h (bound c getenv (Some (FileOf fd)) level) msg w
  = put (console_of level) (console_copy c getenv h level msg) w.
Proof.
  intros Hfd. pose proof (console_of_is_console level) as Hc.
  unfold bound, console_copy, Println, newColorLogger, newPlainLogger.
  destruct (Colorize c); cbn [l_out l_prefix l_flag log_New].
  - rewrite formatHeader_std. fold (color_prefix (IncludeLevelPrefix c) (level_name level)).
    cbn [Write]. rewrite Write_console by exact Hc.
    rewrite Nat.eqb_refl. cbn [negb].
    rewrite (file_write_closed fd path) by (now rewrite fds_put).
    cbn [fst]. now rewrite !app_assoc.
  - rewrite formatHeader_plain. fold (plain_prefix (IncludeLevelPrefix c) (level_name level)).
    cbn [Write]. rewrite <- app_assoc, Write_plain_console by exact Hc.
    rewrite Nat.eqb_refl. cbn [negb].
    rewrite (file_write_closed fd path) by (now rewrite fds_put).
    cbn [fst]. now rewrite app_assoc.
Qed.

Section AfterClose.
Context `{Printf}.

(** X6.  [Close] leaves the loggers bound to the file it closed.  In a
    state since an [Init] that opened the log file, after [Close] a call on
    an enabled severity still adds its line to the console, ends as usual,
    and changes no file: the file copy is lost without any sign, the error
    of the write to the closed file being dropped. *)
Theorem dispatch_after_Close_loses_file_copy (c : Config) (h0 : Host) (s0 s : Proc)
    (hc h : Host) (level : Level) (st : style) (fd : nat) :
  since_Init c h0 s0 s ->
  opened c h0 (world s0) = Some fd ->
  level_on (enabledLevels (vars s)) level = true ->
  let s1 := snd (Close hc s) in
  fst (dispatch level st h s1) = ending level /\
  seen (console_of level) (world (snd (dispatch level st h s1)))
    = seen (console_of level) (world s)
      +:+ console_copy c (getenv h0) h level (tag_of c h (body st)) /\
  files (world (snd (dispatch level st h s1))) = files (world s).
Proof.
  intros [Hvars Hfds] Ho Hon s1.
  assert (Hlog : logFile (vars s) = Some fd).
  { rewrite Hvars. unfold after_Init. now rewrite Init_logFile, Ho. }
  assert (Hopen : fds (world s) !! fd = Some (FilePath c, true)).
  { rewrite Hfds. now apply opened_lookup. }
  assert (Hs1 : s1 = {| vars := set_logFile None (vars s);
                        world := fst (file_close hc fd (world s)) |}).
  { unfold s1. now rewrite Close_run, Hlog. }
  assert (Hclosed : fds (world s1) !! fd = Some (FilePath c, false)).
  { rewrite Hs1. cbn [world]. now apply file_close_open. }
  assert (Hw : world (snd (dispatch level st h s1))
               = put (console_of level)
                   (console_copy c (getenv h0) h level (tag_of c h (body st))) (world s1)).
  { rewrite dispatch_run. rewrite Hs1 at 1. cbn [vars set_logFile enabledLevels].
    rewrite Hon. cbn [snd world].
    replace (logger_of level (vars s1))
      with (bound c (getenv h0) (Some (FileOf fd)) level).
    2: { rewrite Hs1. cbn [vars]. transitivity (logger_of level (vars s));
           [| now destruct level].
         rewrite Hvars. unfold after_Init. now rewrite Init_logger, Ho. }
    replace (tagged h (vars s1) (body st)) with (tag_of c h (body st)).
    2: { unfold tagged, tag_of. rewrite Hs1. cbn [vars set_logFile includeCallerTag].
         rewrite Hvars. unfold after_Init. now rewrite Init_tag. }
    now apply (Println_bound_file_closed c (getenv h0) h level _ _ fd (FilePath c)). }
  split; [| split].
  - rewrite dispatch_run. rewrite Hs1 at 1. cbn [vars set_logFile enabledLevels].
    now rewrite Hon.
  - rewrite Hw, seen_put by apply console_of_is_console. f_equal.
    rewrite Hs1. cbn [world]. unfold file_close. rewrite Hopen. now destruct level.
  - rewrite Hw, files_put. rewrite Hs1. cbn [world]. unfold file_close.
    now rewrite Hopen.
Qed.

End AfterClose.

Lemma dispatch_after_Close_loses_file_copy_witness :
  let s1 := snd (Close quiet (after_Init to_file quiet boot)) in
  stdout (world (snd (@dispatch verbatim InfoLevel (Formatted "late" []) quiet s1)))
    = "[INFO] late" +:+ NL /\
  contents (world (snd (@dispatch verbatim InfoLevel (Formatted "late" []) quiet s1)))
    "app.log" = ""%string.
Proof.
  intros s1.
  assert (Hon : level_on (enabledLevels (vars (after_Init to_file quiet boot))) InfoLevel
                = true) by (vm_compute; reflexivity).
  destruct (@dispatch_after_Close_loses_file_copy verbatim to_file quiet boot
              (after_Init to_file quiet boot) quiet quiet InfoLevel (Formatted "late" []) 0
              (conj eq_refl eq_refl) eq_refl Hon) as (_ & Hconsole & Hfiles).
  split.
  - change (stdout ?w) with (seen (console_of InfoLevel) w).
    unfold s1. rewrite Hconsole. vm_compute; reflexivity.
  - unfold contents, s1. rewrite Hfiles. vm_compute; reflexivity.
Defined.

(** ** [Init] and the file system *)

Lemma Init_world_open (c : Config) (h : Host) (s : Proc) :
  FilePath c <> ""%string -> open_failure h (FilePath c) = None ->
  world (snd (Init c h s))
  = {| stdout := stdout (world s); stderr := stderr (world s);
       fds := fds (world s) ++ [(FilePath c, true)];
       files := <[FilePath c := contents (world s) (FilePath c)]> (files (world s)) |}.
Proof.
  intros Hpath Hopen. apply String.eqb_neq in Hpath.
  unfold Init, file_open. rewrite Hpath, Hopen. cbn [negb].
  destruct (Colorize c); reflexivity.
Qed.

Lemma Init_world_failure (c : Config) (h : Host) (s : Proc) (e : error) :
  FilePath c <> ""%string -> open_failure h (FilePath c) = Some e ->
  world (snd (Init c h s))
  = put_stderr ("failed to open log file " +:+ FilePath c +:+ ": " +:+ error_text e +:+ NL)
      (world s).
Proof.
  intros Hpath Hopen. apply String.eqb_neq in Hpath.
  unfold Init, file_open. rewrite Hpath, Hopen. cbn [negb].
  destruct (Colorize c); reflexivity.
Qed.

(** X7.  When the configured file cannot be opened, [Init] returns all the
    same: it writes the one line [failed to open log file PATH: ERROR] to
    standard error, touches nothing else in the world, keeps the file
    handle stored before, and binds loggers without a file, so that a call
    that follows writes its console line only. *)
Theorem Init_reports_open_failure `{Printf} (c : Config) (h : Host) (s : Proc) (e : error) :
  FilePath c <> ""%string -> open_failure h (FilePath c) = Some e ->
  fst (Init c h s) = Returned tt /\
  world (after_Init c h s)
    = put_stderr ("failed to open log file " +:+ FilePath c +:+ ": "
                  +:+ error_text e +:+ NL) (world s) /\
  logFile (vars (after_Init c h s)) = logFile (vars s) /\
  (forall level st h',
     level_on (enabledLevels (vars (after_Init c h s))) level = true ->
     world (snd (dispatch level st h' (after_Init c h s)))
     = put (console_of level)
         (console_copy c (getenv h) h' level (tag_of c h' (body st)))
         (world (after_Init c h s))).
Proof.
  intros Hpath Hopen.
  assert (Hnone : opened c h (world s) = None).
  { apply Init_no_file_fds. right. now exists e. }
  split; [apply Init_returns |]. split; [now apply Init_world_failure |].
  split; [unfold after_Init; now rewrite Init_logFile, Hnone |].
  intros level st h' Hon.
  rewrite (dispatch_after_Init c h s (after_Init c h s)) by (assumption || apply since_Init_refl).
  now rewrite Hnone.
Qed.

Lemma Init_reports_open_failure_witness :
  stderr (world (after_Init to_file locked boot))
    = "failed to open log file app.log: permission denied" +:+ NL /\
  world (snd (@dispatch verbatim InfoLevel (Formatted "on" []) quiet
                (after_Init to_file locked boot)))
    = put Stdout ("[INFO] on" +:+ NL) (world (after_Init to_file locked boot)).
Proof.
  destruct (@Init_reports_open_failure verbatim to_file locked boot
              (OSError "permission denied") ltac:(discriminate) eq_refl)
    as (_ & Hworld & _ & Hnext).
  split.
  - rewrite Hworld. reflexivity.
  - rewrite Hnext by (vm_compute; reflexivity). vm_compute; reflexivity.
Defined.

(** X8.  When [Init] opens the configured file, it creates the file if it
    was not there and never truncates it: the file exists afterwards with
    the contents it had, every other file and both console streams are as
    before, one descriptor for the path is added to the table behind the
    existing ones, and the descriptors that were open stay open. *)
Theorem Init_opens_without_truncating (c : Config) (h : Host) (s : Proc) :
  FilePath c <> ""%string -> open_failure h (FilePath c) = None ->
  is_Some (files (world (after_Init c h s)) !! FilePath c) /\
  (forall path, contents (world (after_Init c h s)) path = contents (world s) path) /\
  stdout (world (after_Init c h s)) = stdout (world s) /\
  stderr (world (after_Init c h s)) = stderr (world s) /\
  fds (world (after_Init c h s)) = fds (world s) ++ [(FilePath c, true)] /\
  (forall fd entry, fds (world s) !! fd = Some entry ->
     fds (world (after_Init c h s)) !! fd = Some entry).
Proof.
  intros Hpath Hopen. unfold after_Init.
  split; [| split; [intros path; apply Init_files |]];
    rewrite (Init_world_open c h s Hpath Hopen); cbn [stdout stderr fds files].
  - rewrite lookup_insert_eq. eauto.
  - repeat split. intros fd entry Hfd. now apply lookup_app_l_Some.
Qed.

Lemma Init_opens_without_truncating_witness :
  let s1 := snd (Close quiet (snd (@dispatch verbatim InfoLevel (Formatted "kept" []) quiet
                                     (after_Init to_file quiet boot)))) in
  contents (world s1) "app.log" = "2025/10/26 10:30:45 [INFO] kept" +:+ NL /\
  contents (world (after_Init to_file quiet s1)) "app.log"
    = "2025/10/26 10:30:45 [INFO] kept" +:+ NL /\
  fds (world (after_Init to_file quiet s1))
    = [("app.log"%string, false); ("app.log"%string, true)].
Proof.
  intros s1.
  destruct (Init_opens_without_truncating to_file quiet s1 ltac:(discriminate) eq_refl)
    as (_ & Hsame & _ & _ & Hfds & _).
  split; [vm_compute; reflexivity | split].
  - rewrite Hsame. vm_compute; reflexivity.
  - rewrite Hfds. vm_compute; reflexivity.
Defined.

(** X9.  [Init] never closes the file a prior [Init] left open.  When a
    file is stored and open and [Init] opens a file again, the stored handle
    is replaced by the new descriptor and the old one stays open; [Close]
    then closes the new descriptor only, after which the package holds no
    handle and a further [Close] does nothing: the old descriptor is never
    closed. *)
Theorem Init_again_leaks_open_file (c : Config) (h hc : Host) (s : Proc)
    (fd0 : nat) (path0 : string) :
  logFile (vars s) = Some fd0 ->
  fds (world s) !! fd0 = Some (path0, true) ->
  FilePath c <> ""%string -> open_failure h (FilePath c) = None ->
  let s1 := after_Init c h s in
  let s2 := snd (Close hc s1) in
  logFile (vars s1) = Some (length (fds (world s))) /\
  length (fds (world s)) <> fd0 /\
  fds (world s1) !! fd0 = Some (path0, true) /\
  fst (Close hc s1) = Returned (close_failure hc (length (fds (world s)))) /\
  fds (world s2) !! length (fds (world s)) = Some (FilePath c, false) /\
  fds (world s2) !! fd0 = Some (path0, true) /\
  logFile (vars s2) = None /\
  (forall h', Close h' s2 = (Returned None, s2)).
Proof.
  intros Hlog Hfd0 Hpath Hopen s1 s2.
  pose proof (lookup_lt_Some _ _ _ Hfd0) as Hlt.
  assert (Hlog1 : logFile (vars s1) = Some (length (fds (world s)))).
  { unfold s1, after_Init. rewrite Init_logFile. unfold opened.
    apply String.eqb_neq in Hpath. now rewrite Hpath, Hopen. }
  assert (Hfds1 : fds (world s1) = fds (world s) ++ [(FilePath c, true)]).
  { unfold s1, after_Init. now rewrite (Init_world_open c h s Hpath Hopen). }
  assert (Hnew : fds (world s1) !! length (fds (world s)) = Some (FilePath c, true)).
  { rewrite Hfds1, lookup_app_r by lia. now rewrite Nat.sub_diag. }
  assert (Hold : fds (world s1) !! fd0 = Some (path0, true)).
  { rewrite Hfds1. now apply lookup_app_l_Some. }
  assert (Hs2 : s2 = {| vars := set_logFile None (vars s1);
                        world := fst (file_close hc (length (fds (world s))) (world s1)) |}).
  { unfold s2. now rewrite Close_run, Hlog1. }
  destruct (file_close_open hc _ _ _ Hnew) as [Herr Hclosed].
  split; [exact Hlog1 |]. split; [lia |]. split; [exact Hold |].
  split; [now rewrite Close_run, Hlog1, <- Herr |].
  split; [now rewrite Hs2 |].
  split.
  { rewrite Hs2. cbn [world]. unfold file_close. rewrite Hnew. cbn [fst fds].
    rewrite list_lookup_insert_ne by lia. exact Hold. }
  split; [now rewrite Hs2 |].
  intros h'. rewrite Close_run. now rewrite Hs2.
Qed.

Lemma Init_again_leaks_open_file_witness :
  let s := after_Init to_file quiet boot in
  let s2 := snd (Close quiet (after_Init to_other_file quiet s)) in
  fds (world s2) = [("app.log"%string, true); ("other.log"%string, false)] /\
  Close quiet s2 = (Returned None, s2).
Proof.
  intros s s2.
  destruct (Init_again_leaks_open_file to_other_file quiet quiet s 0 "app.log"
              eq_refl eq_refl ltac:(discriminate) eq_refl)
    as (_ & _ & _ & _ & _ & _ & _ & Hnoop).
  split; [vm_compute; reflexivity | apply Hnoop].
Defined.

(** X10.  [Init] binds anew without merging: the nine loggers, the enabled
    set and the caller-tag flag it leaves depend on the configuration, the
    host and the world only, not on the package variables it finds; of
    those only the stored file handle can survive, and it does not when a
    file is opened. *)
Theorem Init_replaces_all_bindings (c : Config) (h : Host) (g g' : Globals) (w : World) :
  set_logFile None (vars (after_Init c h {| vars := g; world := w |}))
    = set_logFile None (vars (after_Init c h {| vars := g'; world := w |})) /\
  world (after_Init c h {| vars := g; world := w |})
    = world (after_Init c h {| vars := g'; world := w |}) /\
  (FilePath c <> ""%string -> open_failure h (FilePath c) = None ->
   after_Init c h {| vars := g; world := w |} = after_Init c h {| vars := g'; world := w |}).
Proof.
  unfold after_Init, Init, file_open. cbn [world vars].
  destruct (String.eqb (FilePath c) "") eqn:E; cbn [negb].
  - apply String.eqb_eq in E. destruct (Colorize c); (split; [reflexivity |]);
      (split; [reflexivity |]); intros Hne; contradiction.
  - destruct (open_failure h (FilePath c)) as [e|]; destruct (Colorize c);
      (split; [reflexivity |]); (split; [reflexivity |]); intros _ Hopen;
      (discriminate || reflexivity).
Qed.

Lemma Init_replaces_all_bindings_witness :
  after_Init to_file quiet boot
  = after_Init to_file quiet
      {| vars := vars (after_Init colored_bare journald boot); world := world boot |}.
Proof.
  destruct (Init_replaces_all_bindings to_file quiet (vars boot)
              (vars (after_Init colored_bare journald boot)) (world boot))
    as (_ & _ & Hsame).
  apply Hsame; [discriminate | reflexivity].
Defined.

(** ** More on the enabled set *)

Lemma levelsFromSlice_lookup (levels : list Level) (level : Level) :
  levelsFromSlice levels !! level = if decide (level ∈ levels) then Some true else None.
Proof.
  unfold levelsFromSlice.
  assert (Hgen : forall m : gmap Level bool,
            foldl (fun m l => <[l := true]> m) m levels !! level
            = if decide (level ∈ levels) then Some true else m !! level).
  { induction levels as [|l ls IH]; intros m; cbn [foldl].
    - destruct (decide (level ∈ [])) as [Hin | _]; [| reflexivity].
      now apply not_elem_of_nil in Hin.
    - rewrite IH. destruct (decide (level ∈ ls)) as [Hin | Hout].
      + rewrite decide_True by (rewrite elem_of_cons; now right). reflexivity.
      + destruct (decide (l = level)) as [-> | Hne].
        * rewrite decide_True by (rewrite elem_of_cons; now left). apply lookup_insert_eq.
        * rewrite decide_False by (rewrite elem_of_cons; intuition congruence).
          now apply lookup_insert_ne. }
  rewrite Hgen. destruct (decide _); [reflexivity | apply lookup_empty].
Qed.

(** X11.  The map [levelsFromSlice] builds depends only on which
    severities occur in the slice: order and repetition make no
    difference, two slices with the same members give the same map, and
    the map holds [true] for every key it has. *)
Theorem levelsFromSlice_is_a_set (levels levels' : list Level) :
  ((forall level, level ∈ levels <-> level ∈ levels') ->
     levelsFromSlice levels = levelsFromSlice levels') /\
  (forall level b, levelsFromSlice levels !! level = Some b -> b = true) /\
  (forall level, is_Some (levelsFromSlice levels !! level) <-> level ∈ levels).
Proof.
  split; [| split].
  - intros Hsame. apply map_eq. intros level. rewrite !levelsFromSlice_lookup.
    destruct (decide (level ∈ levels)) as [Hin | Hout].
    + now rewrite decide_True by (now apply Hsame).
    + now rewrite decide_False by (now rewrite <- Hsame).
  - intros level b. rewrite levelsFromSlice_lookup.
    destruct (decide _); [now intros [= <-] | discriminate].
  - intros level. rewrite levelsFromSlice_lookup.
    destruct (decide (level ∈ levels)); split; intros Hx;
      [assumption | eauto | now destruct Hx | contradiction].
Qed.

Lemma levelsFromSlice_is_a_set_witness :
  levelsFromSlice [InfoLevel; ErrorLevel; InfoLevel]
  = levelsFromSlice [ErrorLevel; InfoLevel].
Proof.
  destruct (levelsFromSlice_is_a_set [InfoLevel; ErrorLevel; InfoLevel]
              [ErrorLevel; InfoLevel]) as (Hsame & _).
  apply Hsame. intros level. rewrite !elem_of_cons, !elem_of_nil. tauto.
Defined.

(** X12.  [AllLevels] lists each of the nine severities once, and a
    configuration with [Levels: AllLevels()] enables what the package
    enables by default: its map is the map of [allLevelsEnabled], which is
    also what an unset [LOGGER_LEVELS] gives. *)
Theorem AllLevels_is_the_default (getenv : string -> string) :
  NoDup AllLevels /\
  (forall level, level ∈ AllLevels) /\
  levelsFromSlice AllLevels = allLevelsEnabled /\
  (getenv "LOGGER_LEVELS" = ""%string ->
     resolveLevels getenv (Some AllLevels) = resolveLevels getenv None).
Proof.
  assert (Hall : forall level, level ∈ AllLevels).
  { intros level. unfold AllLevels. rewrite !elem_of_cons. destruct level; tauto. }
  assert (Hmap : levelsFromSlice AllLevels = allLevelsEnabled).
  { apply map_eq. intros level. rewrite levelsFromSlice_lookup.
    rewrite decide_True by apply Hall. destruct level; vm_compute; reflexivity. }
  split; [| split; [exact Hall | split; [exact Hmap |]]].
  - unfold AllLevels. repeat (apply NoDup_cons; split;
      [rewrite ?elem_of_cons, elem_of_nil; intuition discriminate |]).
    apply NoDup_nil_2.
  - intros Henv. unfold resolveLevels. now rewrite Henv, Hmap.
Qed.

Lemma AllLevels_is_the_default_witness :
  resolveLevels (fun _ => ""%string) (Some AllLevels)
  = resolveLevels (fun _ => ""%string) None.
Proof.
  destruct (AllLevels_is_the_default (fun _ => ""%string)) as (_ & _ & _ & Hsame).
  now apply Hsame.
Defined.

Lemma lists_level_none (value : string) :
  (forall token level, token ∈ Split (TrimSpace value) "," -> token_names level token = false) ->
  forall level, lists_level value level = false.
Proof.
  intros Hnone level. unfold lists_level.
  destruct (existsb _ _) eqn:E; [| reflexivity].
  apply existsb_exists in E as (token & Hin & Hnames).
  apply list_elem_of_In in Hin. now rewrite (Hnone token level Hin) in Hnames.
Qed.

(** X13.  With no explicit level list, an environment value that is not
    blank but in which no token names a severity (a misspelling such as
    [WARN], or a lone comma) enables nothing at all: after [Init] every
    severity is disabled, every call of a severity other than fatal leaves
    the process as it is, and a fatal call exits with code 1 without
    writing. *)
Theorem unknown_names_disable_everything `{Printf} (c : Config) (h : Host) (s : Proc) :
  Levels c = None ->
  ascii_only (getenv h "LOGGER_LEVELS") = true ->
  TrimSpace (getenv h "LOGGER_LEVELS") <> ""%string ->
  (forall token level, token ∈ Split (TrimSpace (getenv h "LOGGER_LEVELS")) "," ->
     token_names level token = false) ->
  (forall level, level_on (enabledLevels (vars (after_Init c h s))) level = false) /\
  (forall level st h', dispatch level st h' (after_Init c h s)
     = (ending level, after_Init c h s)).
Proof.
  intros Hnil _ Htrim Hnone.
  assert (Hoff : forall level,
            level_on (enabledLevels (vars (after_Init c h s))) level = false).
  { intros level. unfold after_Init. rewrite Init_enabled, Hnil. unfold resolveLevels.
    pose proof (TrimSpace_nonempty _ Htrim) as Hne.
    apply String.eqb_neq in Hne. rewrite Hne. cbn [negb].
    rewrite parseLevels_on. apply String.eqb_neq in Htrim. rewrite Htrim.
    now apply lists_level_none. }
  split; [exact Hoff |].
  intros level st h'. now rewrite dispatch_run, Hoff.
Qed.

Lemma unknown_names_disable_everything_witness :
  @dispatch verbatim WarnLevel (Formatted "unseen" []) quiet (after_Init from_env misspelt boot)
    = (Returned tt, after_Init from_env misspelt boot) /\
  level_on (enabledLevels (vars (after_Init from_env misspelt boot))) FatalLevel = false.
Proof.
  assert (Hnone : forall token level,
            token ∈ Split (TrimSpace (getenv misspelt "LOGGER_LEVELS")) "," ->
            token_names level token = false).
  { intros token level Hin.
    change (Split (TrimSpace (getenv misspelt "LOGGER_LEVELS")) ",")
      with ["WARN"; " verbose"]%string in Hin.
    rewrite !elem_of_cons, elem_of_nil in Hin.
    destruct Hin as [-> | [-> | []]]; destruct level; reflexivity. }
  destruct (@unknown_names_disable_everything verbatim from_env misspelt boot eq_refl
              ltac:(vm_compute; reflexivity) ltac:(vm_compute; discriminate) Hnone)
    as (Hoff & Hquiet).
  split; [apply (Hquiet WarnLevel) | apply Hoff].
Defined.

(** ** The caller tag *)

Lemma LastIndex_slash_none (s : string) :
  has "/"%char s = false -> LastIndex_slash s = None.
Proof.
  induction s as [|c s IH]; [reflexivity |]. cbn [has LastIndex_slash].
  intros Hs. apply orb_false_iff in Hs as [Hc Hs]. now rewrite IH, Hc.
Qed.

Lemma LastIndex_slash_last (dir base : string) :
  has "/"%char base = false ->
  LastIndex_slash (dir +:+ "/" +:+ base) = Some (String.length dir).
Proof.
  intros Hbase. change (dir +:+ "/" +:+ base) with (dir +:+ String "/" base).
  induction dir as [|c dir IH].
  - cbn [String.append LastIndex_slash String.length].
    now rewrite LastIndex_slash_none.
  - cbn [String.append LastIndex_slash String.length]. now rewrite IH.
Qed.

Lemma substring_all (s : string) : substring 0 (String.length s) s = s.
Proof. induction s as [|c s IH]; [reflexivity |]. cbn. now rewrite IH. Qed.

Lemma substring_tail (dir base : string) :
  substring (String.length dir + 1) (String.length base) (dir +:+ "/" +:+ base) = base.
Proof.
  induction dir as [|c dir IH]; [apply substring_all | exact IH].
Qed.

(** X14.  [getCallerInfo] gives [unknown] when the frame or its function
    cannot be found.  Otherwise it gives the function name and the line,
    joined by a colon, with the package path cut off: of a name with
    slashes only what follows the last slash is kept, a name without a
    slash is kept whole, and so is a name that ends in a slash. *)
Theorem getCallerInfo_keeps_last_segment (h : Host) (depth : nat) :
  (caller_at h depth = None -> getCallerInfo h depth = "unknown"%string) /\
  (forall line, caller_at h depth = Some (None, line) ->
     getCallerInfo h depth = "unknown"%string) /\
  (forall dir base line,
     caller_at h depth = Some (Some (dir +:+ "/" +:+ base), line) ->
     base <> ""%string -> has "/"%char base = false ->
     getCallerInfo h depth = base +:+ ":" +:+ itoa line) /\
  (forall name line,
     caller_at h depth = Some (Some name, line) -> has "/"%char name = false ->
     getCallerInfo h depth = name +:+ ":" +:+ itoa line) /\
  (forall dir line,
     caller_at h depth = Some (Some (dir +:+ "/"), line) ->
     getCallerInfo h depth = (dir +:+ "/") +:+ ":" +:+ itoa line).
Proof.
  unfold getCallerInfo. split; [| split; [| split; [| split]]].
  - now intros ->.
  - now intros line ->.
  - intros dir base line -> Hne Hbase.
    rewrite LastIndex_slash_last by exact Hbase.
    rewrite !app_length. cbn [String.length].
    assert (Hlen : 0 < String.length base) by (destruct base; [contradiction | cbn; lia]).
    replace (String.length dir + 1 <? String.length dir + (1 + String.length base))
      with true by (symmetry; apply Nat.ltb_lt; lia).
    replace (String.length dir + (1 + String.length base) - (String.length dir + 1))
      with (String.length base) by lia.
    now rewrite substring_tail.
  - intros name line -> Hname. now rewrite LastIndex_slash_none.
  - intros dir line ->. change (dir +:+ "/") with (dir +:+ "/" +:+ "").
    rewrite (LastIndex_slash_last dir "") by reflexivity.
    rewrite !app_length. cbn [String.length].
    replace (String.length dir + 1 <? String.length dir + (1 + 0)) with false
      by (symmetry; apply Nat.ltb_ge; lia).
    reflexivity.
Qed.

Lemma getCallerInfo_keeps_last_segment_witness :
  getCallerInfo traced 3 = "main.run:15"%string /\
  getCallerInfo traced 2 = "unknown"%string.
Proof.
  destruct (getCallerInfo_keeps_last_segment traced 3) as (_ & _ & Hcut & _).
  destruct (getCallerInfo_keeps_last_segment traced 2) as (Hnone & _).
  split; [| now apply Hnone].
  rewrite (Hcut "github.com/acme/app" "main.run" 15%Z); reflexivity || discriminate.
Defined.

(** ** The count a writer reports *)

Lemma stamp_length_pos (t : Time) : 0 < String.length (stamp t).
Proof. unfold stamp. rewrite !app_length. cbn [String.length]. lia. Qed.

(** X15.  [timestampWriter.Write] hands on the count of the write below
    it, which is the length of the timestamp plus the payload and so never
    the length of the payload.  Behind [io.MultiWriter], as
    [newPlainLogger] sets it up for a log file, every write therefore ends
    in [io.ErrShortWrite], after the console and the file have both
    received their copy. *)
Theorem timestampWriter_reports_longer_count (h : Host) (getenv : string -> string)
    (out : Writer) (name : string) (show : bool) (fd : nat) (path data : string) (w : World) :
  is_console out -> fds w !! fd = Some (path, true) ->
  getenv "JOURNAL_STREAM" = ""%string ->
  Write h (timestampWriter (FileOf fd)) data w
    = (file_append path (stamp (now h) +:+ data) w,
       (String.length (stamp (now h)) + String.length data, None)) /\
  String.length data < String.length (stamp (now h)) + String.length data /\
  Write h (l_out (newPlainLogger getenv out name show (Some (FileOf fd)))) data w
    = (file_append path (stamp (now h) +:+ data) (put out data w),
       (String.length (stamp (now h)) + String.length data, Some ErrShortWrite)).
Proof.
  intros Hout Hfd Henv. pose proof (stamp_length_pos (now h)) as Hpos.
  split; [| split; [lia |]].
  - cbn [Write]. rewrite (file_write_open fd path) by exact Hfd. now rewrite app_length.
  - unfold newPlainLogger, shouldUseSyslogPrefix. rewrite Henv.
    cbn [String.eqb negb l_out log_New Write].
    rewrite Write_console by exact Hout. rewrite Nat.eqb_refl. cbn [negb].
    rewrite (file_write_open fd path) by (now rewrite fds_put).
    rewrite app_length.
    replace (String.length (stamp (now h)) + String.length data =? String.length data)
      with false by (symmetry; apply Nat.eqb_neq; lia).
    reflexivity.
Qed.

Lemma timestampWriter_reports_longer_count_witness :
  snd (Write quiet (l_out (Info (vars (after_Init to_file quiet boot)))) ("x" +:+ NL)
         (world (after_Init to_file quiet boot)))
  = (22, Some ErrShortWrite).
Proof.
  destruct (timestampWriter_reports_longer_count quiet (getenv quiet) Stdout "INFO" true 0
              "app.log" ("x" +:+ NL) (world (after_Init to_file quiet boot))
              (or_introl eq_refl) eq_refl eq_refl) as (_ & _ & Hmulti).
  change (l_out (Info (vars (after_Init to_file quiet boot))))
    with (l_out (newPlainLogger (getenv quiet) Stdout "INFO" true (Some (FileOf 0)))).
  rewrite Hmulti. reflexivity.
Defined.

(** ** More on the stripper *)

Lemma strip_length (inEscape : bool) (s : string) :
  String.length (stripANSI inEscape s) <= String.length s.
Proof.
  revert inEscape. induction s as [|c r IH]; intros inEscape; [reflexivity |].
  cbn [stripANSI].
  destruct (Ascii.eqb c esc && _); [specialize (IH true); cbn [String.length]; lia |].
  destruct inEscape; [specialize (IH (negb (Ascii.eqb c "m"))); cbn [String.length]; lia |].
  specialize (IH false). cbn [String.length]. lia.
Qed.

Lemma starts_escape (c : ascii) (r : string) :
  starts (ESC +:+ "[") (String c r)
  = Ascii.eqb c esc && match r with String d _ => Ascii.eqb d "[" | EmptyString => false end.
Proof.
  cbn [ESC String.append starts]. rewrite (Ascii.eqb_sym esc c).
  destruct r as [|d r']; [reflexivity |].
  rewrite (Ascii.eqb_sym "[" d). now rewrite andb_true_r.
Qed.

(** X16.  The stripper never lengthens a text, and it changes a text
    exactly when the text contains the byte pair ESC [: without that pair
    the text comes out as it went in, a lone ESC included; with it the
    result is strictly shorter. *)
Theorem stripANSI_changes_only_escapes (s : string) :
  String.length (stripANSI false s) <= String.length s /\
  (within (ESC +:+ "[") s = false -> stripANSI false s = s) /\
  (within (ESC +:+ "[") s = true -> String.length (stripANSI false s) < String.length s).
Proof.
  split; [apply strip_length |]. split.
  - induction s as [|c r IH]; [reflexivity |].
    cbn [within]. intros Hw. apply orb_false_iff in Hw as [Hs Hr].
    rewrite starts_escape in Hs. cbn [stripANSI]. rewrite Hs. now rewrite IH.
  - induction s as [|c r IH]; [discriminate |].
    cbn [within]. rewrite starts_escape. cbn [stripANSI].
    destruct (Ascii.eqb c esc && _).
    + intros _. pose proof (strip_length true r). cbn [String.length]. lia.
    + cbn [orb]. intros Hr. specialize (IH Hr). cbn [String.length]. lia.
Qed.

Lemma stripANSI_changes_only_escapes_witness :
  stripANSI false ("50% " +:+ ESC +:+ " done") = "50% " +:+ ESC +:+ " done" /\
  String.length (stripANSI false (ESC +:+ "[1mbold")) < String.length (ESC +:+ "[1mbold").
Proof.
  destruct (stripANSI_changes_only_escapes ("50% " +:+ ESC +:+ " done")) as (_ & Hsame & _).
  destruct (stripANSI_changes_only_escapes (ESC +:+ "[1mbold")) as (_ & _ & Hless).
  split; [apply Hsame | apply Hless]; reflexivity.
Defined.

Lemma strip_unfinished (r : string) :
  has "m"%char r = false -> stripANSI true r = ""%string.
Proof.
  induction r as [|c r IH]; [reflexivity |]. cbn [has]. intros Hr.
  apply orb_false_iff in Hr as [Hc Hr]. cbn [stripANSI]. rewrite Hc. cbn [negb].
  destruct (Ascii.eqb c esc && _); now apply IH.
Qed.

Section Unfinished.
Context `{Printf}.

(** X17.  An escape run the message does not finish swallows the rest of
    the record in the file.  In a state since an [Init] with colorization
    on that opened the log file, when the message as tagged has the pair
    ESC [ after text without ESC and no [m] behind it, the file receives
    the plain level prefix, the timestamp and the text before the pair,
    and nothing more: not the line feed either, so that the next record is
    appended to the same line. *)
Theorem unfinished_escape_swallows_line_feed (c : Config) (h0 : Host) (s0 s : Proc)
    (h : Host) (level : Level) (st : style) (fd : nat) (before rest : string) :
  since_Init c h0 s0 s ->
  Colorize c = true ->
  opened c h0 (world s0) = Some fd ->
  level_on (enabledLevels (vars s)) level = true ->
  tag_of c h (body st) = before +:+ ESC +:+ "[" +:+ rest ->
  has esc before = false -> has "m"%char rest = false ->
  contents (world (snd (dispatch level st h s))) (FilePath c)
  = contents (world s) (FilePath c)
    +:+ plain_prefix (IncludeLevelPrefix c) (level_name level)
    +:+ stamp (now h) +:+ before.
Proof.
  intros Hs Hcolor Ho Hon Hmsg Hbefore Hrest.
  rewrite (dispatch_file c h0 s0 s h level st fd) by assumption.
  unfold file_copy. rewrite Hcolor, Hmsg, strip_color_prefix.
  rewrite strip_plain_head by apply stamp_no_esc.
  rewrite !app_assoc. rewrite strip_plain_head by exact Hbefore.
  change (stripANSI false (ESC +:+ "[" +:+ rest +:+ NL))
    with (stripANSI true (rest +:+ NL)).
  rewrite strip_unfinished by (rewrite has_app, Hrest; reflexivity).
  now rewrite app_nil_r.
Qed.

End Unfinished.

Lemma unfinished_escape_swallows_line_feed_witness :
  let s1 := snd (@dispatch verbatim InfoLevel (Formatted ("one " +:+ ESC +:+ "[3") []) quiet
                   (after_Init colored_to_file quiet boot)) in
  contents (world s1) "app.log" = "[INFO] 2025/10/26 10:30:45 one "%string /\
  contents (world (snd (@dispatch verbatim InfoLevel (Formatted "two" []) quiet s1))) "app.log"
  = "[INFO] 2025/10/26 10:30:45 one [INFO] 2025/10/26 10:30:45 two" +:+ NL.
Proof.
  intros s1.
  assert (Hon : level_on (enabledLevels (vars (after_Init colored_to_file quiet boot)))
                  InfoLevel = true) by (vm_compute; reflexivity).
  pose proof (@unfinished_escape_swallows_line_feed verbatim colored_to_file quiet boot
                (after_Init colored_to_file quiet boot) quiet InfoLevel
                (Formatted ("one " +:+ ESC +:+ "[3") []) 0 "one " "3"
                (conj eq_refl eq_refl) eq_refl eq_refl Hon eq_refl eq_refl eq_refl) as Hone.
  split.
  - change "app.log"%string with (FilePath colored_to_file). unfold s1. rewrite Hone.
    vm_compute; reflexivity.
  - vm_compute; reflexivity.
Defined.

(** ** One record, one line *)

Lemma count_app (c : ascii) (a b : string) : count c (a +:+ b) = count c a + count c b.
Proof.
  induction a as [|x a IH]; [reflexivity |]. cbn [String.append count]. rewrite IH. lia.
Qed.

Lemma count_none (c : ascii) (s : string) : has c s = false -> count c s = 0.
Proof.
  induction s as [|x s IH]; [reflexivity |]. cbn [has count]. intros Hs.
  apply orb_false_iff in Hs as [-> Hs]. now rewrite IH.
Qed.

Lemma digit_not_nl (k : nat) : Ascii.eqb (digit k) nl = false.
Proof.
  unfold digit. pose proof (Nat.mod_upper_bound k 10 ltac:(lia)) as Hk.
  destruct (k mod 10) as [|d]; [reflexivity |].
  do 9 (destruct d as [|d]; [reflexivity |]). lia.
Qed.

Lemma itoa_loop_no_nl (room i wid : nat) (acc : string) :
  has nl (itoa_loop room i wid acc) = has nl acc.
Proof.
  revert i wid acc. induction room as [|room IH]; intros i wid acc; cbn [itoa_loop].
  - cbn [has]. now rewrite digit_not_nl.
  - destruct ((10 <=? i) || (1 <? wid)).
    + rewrite IH. cbn [has]. now rewrite digit_not_nl.
    + cbn [has]. now rewrite digit_not_nl.
Qed.

Lemma stamp_no_nl (t : Time) : has nl (stamp t) = false.
Proof.
  unfold stamp, zpad. rewrite !has_app, !itoa_loop_no_nl.
  vm_compute; reflexivity.
Qed.

Lemma prefixes_no_nl (show : bool) (level : Level) :
  has nl (plain_prefix show (level_name level)) = false /\
  has nl (color_prefix show (level_name level)) = false /\
  has nl (priority level) = false.
Proof. destruct show, level; repeat split; reflexivity. Qed.

(** A line handed to the prefix writer keeps its line feeds and its end. *)
Lemma syslog_lines_line (prefix text : string) :
  has nl prefix = false ->
  exists front, syslog_lines prefix (text +:+ NL) = front +:+ NL /\
                count nl front = count nl text.
Proof.
  intros Hp. induction text as [|b r (front & Hfront & Hcount)].
  - exists ""%string. split; reflexivity.
  - cbn [String.append syslog_lines]. rewrite Hfront.
    destruct (Ascii.eqb b nl && negb (String.eqb (r +:+ NL) "")) eqn:E.
    + exists (String b (prefix +:+ front)).
      split; [cbn [String.append]; now rewrite app_assoc |].
      cbn [count]. rewrite count_app, (count_none nl prefix Hp), Hcount. reflexivity.
    + exists (String b front). split; [reflexivity |]. cbn [count]. now rewrite Hcount.
Qed.

Section OneLine.
Context `{Printf}.

(** X18.  In any state since [Init], what a call on an enabled severity
    adds to its console stream ends in a line feed and holds, before that
    line feed, exactly as many line feeds as the message does: a message
    without a line feed makes one line, whatever the prefix, color,
    timestamp and priority tokens around it. *)
Theorem dispatch_adds_one_line_per_message_line (c : Config) (h0 : Host) (s0 s : Proc)
    (h : Host) (level : Level) (st : style) :
  since_Init c h0 s0 s ->
  level_on (enabledLevels (vars s)) level = true ->
  exists front,
    seen (console_of level) (world (snd (dispatch level st h s)))
      = seen (console_of level) (world s) +:+ front +:+ NL /\
    count nl front = count nl (tag_of c h (body st)).
Proof.
  intros Hs Hon. rewrite (dispatch_console c h0 s0) by assumption.
  destruct (prefixes_no_nl (IncludeLevelPrefix c) level) as (Hplain & Hcolor & Hprio).
  unfold console_copy. destruct (Colorize c).
  - exists (color_prefix (IncludeLevelPrefix c) (level_name level)
            +:+ stamp (now h) +:+ tag_of c h (body st)).
    split; [now rewrite !app_assoc |].
    rewrite !count_app, (count_none _ _ Hcolor), (count_none _ _ (stamp_no_nl _)).
    reflexivity.
  - unfold syslog_decor. rewrite priority_nonempty, syslogPrefix_priority.
    destruct (shouldUseSyslogPrefix (getenv h0)); cbn [andb negb].
    + rewrite <- (app_assoc (plain_prefix (IncludeLevelPrefix c) (level_name level))
                    (tag_of c h (body st)) NL).
      destruct (syslog_lines_line (priority level)
                  (plain_prefix (IncludeLevelPrefix c) (level_name level)
                   +:+ tag_of c h (body st)) Hprio) as (front & -> & Hcount).
      exists (priority level +:+ front). split; [now rewrite !app_assoc |].
      rewrite count_app, (count_none _ _ Hprio), Hcount, count_app.
      now rewrite (count_none _ _ Hplain).
    + exists (plain_prefix (IncludeLevelPrefix c) (level_name level)
              +:+ tag_of c h (body st)).
      split; [now rewrite !app_assoc |].
      now rewrite count_app, (count_none _ _ Hplain).
Qed.

End OneLine.

Lemma dispatch_adds_one_line_per_message_line_witness :
  exists front,
    stdout (world (snd (@dispatch verbatim DebugLevel (Formatted "step 1" []) quiet
                          (after_Init all_plain journald boot))))
      = front +:+ NL /\
    count nl front = 0.
Proof.
  assert (Hon : level_on (enabledLevels (vars (after_Init all_plain journald boot)))
                  DebugLevel = true) by (vm_compute; reflexivity).
  destruct (@dispatch_adds_one_line_per_message_line verbatim all_plain journald boot
              (after_Init all_plain journald boot) quiet DebugLevel (Formatted "step 1" [])
              (conj eq_refl eq_refl) Hon) as (front & Hline & Hcount).
  exists front. split.
  - change (stdout ?w) with (seen (console_of DebugLevel) w). rewrite Hline. reflexivity.
  - rewrite Hcount. reflexivity.
Defined.

(** ** The call styles and [Api] *)

Lemma Sprint_one_string (text : string) : Sprint [AString text] = text.
Proof. cbn [Sprint fmt_v Sprint_rest]. apply app_nil_r. Qed.

Section Styles.
Context `{Printf}.

(** X19.  The three call styles of a severity differ only in how the
    message is put together: every entry point does what the concatenated
    entry point of its severity does on the finished message as one string.
    In particular a key-value call without keys and values is the
    concatenated call on its message, and a key-value call logs the
    message directly followed by the encoded fields. *)
Theorem styles_differ_only_in_the_message (level : Level) (st : style) (h : Host) (s : Proc) :
  dispatch level st h s = dispatch level (Concatenated [AString (body st)]) h s /\
  (forall msg, dispatch level (KeyValue msg []) h s
               = dispatch level (Concatenated [AString msg]) h s) /\
  (forall msg keyvals,
     dispatch level (KeyValue msg keyvals) h s
     = dispatch level (Concatenated [AString (msg +:+ encodeFields keyvals)]) h s).
Proof.
  assert (Hgen : forall st', dispatch level st' h s
                             = dispatch level (Concatenated [AString (body st')]) h s).
  { intros st'. rewrite !dispatch_run. cbn [body]. now rewrite Sprint_one_string. }
  split; [apply Hgen |]. split.
  - intros msg. rewrite (Hgen (KeyValue msg [])). cbn [body encodeFields length Nat.eqb].
    now rewrite app_nil_r.
  - intros msg keyvals. apply (Hgen (KeyValue msg keyvals)).
Qed.

(** X20.  [Api] is the concatenated entry point of the mapped severity on
    the message behind the bracketed status code.  The mapped severity is
    info, warning or error and no other, so [Api] always returns and never
    ends the process, and it writes to standard output for codes below 400
    and to standard error from 400 on. *)
Theorem Api_is_dispatch_on_mapped_level (code : Z) (msg : string) (h : Host) (s : Proc) :
  Api code msg h s
    = dispatch (statusCodeToLevel code)
        (Concatenated [AString ("[" +:+ itoa code +:+ "] " +:+ msg)]) h s /\
  (statusCodeToLevel code = InfoLevel \/ statusCodeToLevel code = WarnLevel \/
   statusCodeToLevel code = ErrorLevel) /\
  fst (Api code msg h s) = Returned tt /\
  ((code < 400)%Z -> console_of (statusCodeToLevel code) = Stdout) /\
  ((400 <= code)%Z -> console_of (statusCodeToLevel code) = Stderr).
Proof.
  assert (Hlevel : statusCodeToLevel code = InfoLevel \/ statusCodeToLevel code = WarnLevel \/
                   statusCodeToLevel code = ErrorLevel).
  { unfold statusCodeToLevel. destruct (code >=? 500)%Z; [tauto |].
    destruct (code >=? 400)%Z; [tauto |]. destruct (code >=? 300)%Z; tauto. }
  split; [| split; [exact Hlevel | split; [| split]]].
  - rewrite Api_run, dispatch_run. cbv zeta. cbn [body]. rewrite Sprint_one_string.
    destruct Hlevel as [-> | [-> | ->]]; reflexivity.
  - rewrite Api_run. cbv zeta. now destruct (level_on _ _).
  - intros Hc. unfold statusCodeToLevel.
    destruct (Z.geb_spec code 500); [lia |]. destruct (Z.geb_spec code 400); [lia |].
    now destruct (code >=? 300)%Z.
  - intros Hc. unfold statusCodeToLevel.
    destruct (Z.geb_spec code 500); [reflexivity |].
    destruct (Z.geb_spec code 400); [reflexivity | lia].
Qed.

End Styles.

Lemma Api_is_dispatch_on_mapped_level_witness :
  console_of (statusCodeToLevel 301) = Stdout /\
  console_of (statusCodeToLevel 404) = Stderr /\
  console_of (statusCodeToLevel (-1)) = Stdout.
Proof.
  destruct (@Api_is_dispatch_on_mapped_level verbatim 301%Z "moved" quiet boot)
    as (_ & _ & _ & Hlow & _).
  destruct (@Api_is_dispatch_on_mapped_level verbatim 404%Z "gone" quiet boot)
    as (_ & _ & _ & _ & Hhigh).
  destruct (@Api_is_dispatch_on_mapped_level verbatim (-1)%Z "odd" quiet boot)
    as (_ & _ & _ & Hneg & _).
  split; [apply Hlow; lia | split; [apply Hhigh; lia | apply Hneg; lia]].
Defined.

(** ** Composition of the field encoder *)

Lemma flat_app (a b : list string) : flat (a ++ b) = flat a +:+ flat b.
Proof.
  induction a as [|x a IH]; [reflexivity |]. cbn [app flat]. now rewrite IH, app_assoc.
Qed.

(** X21.  The field encoder works pair by pair: behind an argument list of
    even length the encoding of further arguments is simply appended, so
    the fields of a call are the fields of its pairs in order, and what a
    pair contributes does not depend on the pairs around it. *)
Theorem encodeFields_appends_by_pairs (front back : list any) :
  Nat.Even (length front) ->
  encodeFields (front ++ back) = encodeFields front +:+ encodeFields back.
Proof.
  intros Hev. rewrite !encodeFields_flat. unfold surviving.
  rewrite pairs_of_app by exact Hev.
  now rewrite omap_app, map_app, flat_app.
Qed.

Lemma encodeFields_appends_by_pairs_witness :
  encodeFields ([AString "a"; AInt 1; AInt 2; ANil] ++ [AString "b"; ABool false])
  = " a=1" +:+ " b=false".
Proof.
  rewrite (encodeFields_appends_by_pairs [AString "a"; AInt 1; AInt 2; ANil]
             [AString "b"; ABool false]) by (exists 2; reflexivity).
  reflexivity.
Defined.

(** ** From level names back to levels *)

Lemma Split_no_sep (a : string) (sep : ascii) : has sep a = false -> Split a sep = [a].
Proof.
  induction a as [|c a IH]; [reflexivity |]. cbn [has Split]. intros Ha.
  apply orb_false_iff in Ha as [Hc Ha]. rewrite Hc, IH by exact Ha. reflexivity.
Qed.

Lemma Split_at_sep (a b : string) (sep : ascii) :
  has sep a = false -> Split (a +:+ String sep b) sep = a :: Split b sep.
Proof.
  induction a as [|c a IH]; cbn [has String.append Split].
  - intros _. now rewrite Ascii.eqb_refl.
  - intros Ha. apply orb_false_iff in Ha as [Hc Ha]. rewrite Hc, IH by exact Ha. reflexivity.
Qed.

Lemma Split_Join (parts : list string) :
  parts <> [] -> Forall (fun p => has "," p = false) parts ->
  Split (Join parts ",") "," = parts.
Proof.
  induction parts as [|p [|q r] IH]; intros Hne Hall; [contradiction | |].
  - cbn [Join]. apply Split_no_sep. now inversion Hall.
  - change (Join (p :: q :: r) ",") with (p +:+ String "," (Join (q :: r) ",")).
    inversion Hall as [|? ? Hp Hrest]; subst.
    rewrite Split_at_sep by exact Hp. now rewrite IH.
Qed.

Lemma TrimSpace_tight (s : string) : head_ok s = true -> last_ok s = true -> TrimSpace s = s.
Proof.
  intros Hh Hl. unfold TrimSpace.
  assert (Hleft : TrimLeft s = s).
  { destruct s as [|c r]; [reflexivity |]. cbn [head_ok] in Hh. cbn [TrimLeft].
    now destruct (isSpace c). }
  rewrite Hleft. clear Hh Hleft. induction s as [|c r IH]; [reflexivity |].
  cbn [TrimRight]. destruct r as [|d r'].
  - cbn [TrimRight]. cbn [last_ok] in Hl. now destruct (isSpace c).
  - rewrite IH by exact Hl. reflexivity.
Qed.

Lemma last_ok_app (a b : string) : b <> ""%string -> last_ok (a +:+ b) = last_ok b.
Proof.
  intros Hb. induction a as [|c a IH]; [reflexivity |].
  cbn [String.append]. cbn [last_ok]. rewrite IH.
  destruct (a +:+ b) eqn:E; [| reflexivity].
  destruct a; [now cbn in E | discriminate].
Qed.

Lemma level_name_tight (level : Level) :
  has "," (level_name level) = false /\ head_ok (level_name level) = true /\
  last_ok (level_name level) = true /\
  ToUpper (TrimSpace (level_name level)) = level_name level.
Proof. destruct level; repeat split; reflexivity. Qed.

Lemma Join_names_tight (levels : list Level) :
  levels <> [] ->
  head_ok (Join (map level_name levels) ",") = true /\
  last_ok (Join (map level_name levels) ",") = true.
Proof.
  induction levels as [|l [|l' r] IH]; intros Hne; [contradiction | |].
  - destruct (level_name_tight l) as (_ & Hh & Hl & _). now split.
  - destruct (IH ltac:(discriminate)) as [Hh Hl]. split; [now destruct l |].
    change (Join (map level_name (l :: l' :: r)) ",")
      with (level_name l +:+ "," +:+ Join (map level_name (l' :: r)) ",").
    rewrite <- app_assoc, last_ok_app; [exact Hl |].
    intros E. rewrite E in Hh. discriminate.
Qed.

Lemma token_names_level_name (level named : Level) :
  token_names level (level_name named) = bool_decide (named = level).
Proof.
  unfold token_names. destruct (level_name_tight named) as (_ & _ & _ & ->).
  destruct level, named; reflexivity.
Qed.

(** X22.  The names the loggers print are names the parser takes back: for
    a list of severities that is not empty, [LOGGER_LEVELS] set to their
    names joined by commas enables exactly the severities that the list
    itself enables as an explicit configuration.  The empty list is the
    exception: its joined names are the empty value, which enables every
    severity, where the explicit empty list enables none. *)
Theorem level_names_parse_back (levels : list Level) (level : Level) :
  (levels <> [] ->
     level_on (resolveLevels (with_levels (Join (map level_name levels) ",")) None) level
     = level_on (resolveLevels (fun _ => ""%string) (Some levels)) level) /\
  level_on (resolveLevels (with_levels (Join (map level_name []) ",")) None) level = true /\
  level_on (resolveLevels (fun _ => ""%string) (Some [])) level = false.
Proof.
  split; [| split; [apply level_on_all | apply level_on_empty]].
  intros Hne. destruct (Join_names_tight levels Hne) as [Hh Hl].
  pose proof (TrimSpace_tight _ Hh Hl) as Htrim.
  assert (Hjoin : Join (map level_name levels) "," <> ""%string).
  { intros E. rewrite E in Hh. discriminate. }
  unfold resolveLevels, with_levels. cbn [String.eqb Ascii.eqb Bool.eqb].
  apply String.eqb_neq in Hjoin. rewrite Hjoin. cbn [negb].
  rewrite parseLevels_on, Htrim, Hjoin, levelsFromSlice_on.
  unfold lists_level. rewrite Htrim.
  rewrite Split_Join.
  - clear. induction levels as [|l r IH]; [reflexivity |].
    cbn [map existsb]. rewrite token_names_level_name, IH.
    rewrite (bool_decide_ext (level ∈ l :: r) (l = level \/ level ∈ r))
      by (rewrite elem_of_cons; intuition congruence).
    now rewrite bool_decide_or.
  - destruct levels; [contradiction | discriminate].
  - apply Forall_forall. intros p Hin. apply list_elem_of_In in Hin.
    apply in_map_iff in Hin as (l & <- & _).
    apply level_name_tight.
Qed.

Lemma level_names_parse_back_witness :
  level_on (resolveLevels (with_levels "WARNING,CRIT") None) CritLevel = true /\
  level_on (resolveLevels (with_levels "WARNING,CRIT") None) InfoLevel = false.
Proof.
  destruct (level_names_parse_back [WarnLevel; CritLevel] CritLevel) as (Hcrit & _).
  destruct (level_names_parse_back [WarnLevel; CritLevel] InfoLevel) as (Hinfo & _).
  split.
  - change "WARNING,CRIT"%string with (Join (map level_name [WarnLevel; CritLevel]) ",").
    rewrite Hcrit by discriminate. vm_compute; reflexivity.
  - change "WARNING,CRIT"%string with (Join (map level_name [WarnLevel; CritLevel]) ",").
    rewrite Hinfo by discriminate. vm_compute; reflexivity.
Defined.
